(** * Book sales analytics: dashboard client, warehouse views, data loader

    A shallow embedding of the executable pieces of the repository:
    - the two REST client wrappers and their axios interceptors
      ([frontend/src/services/optimizedAnalyticsService.js], which also
      carries the plain [analyticsService.js]);
    - the time-series normalisation, the time-range selectors and the guarded
      divisions of the dashboard pages;
    - the aggregate views, the phase structure and the synthetic sale
      generator of [setup_analytics_data.sh].

    The first part of the file holds the model, the second part the
    properties proved about it. *)

From Stdlib Require Import ZArith QArith Lia Permutation Ascii String.
From stdpp Require Import gmap strings list fin_maps pretty sorting.

Set Warnings "-register-all".

(* ===================================================================== *)
(** * Part I: the model                                                   *)
(* ===================================================================== *)

(** ** JavaScript values *)

Module JS.

(** Numbers.  Finite numbers are exact rationals, [NaN] is the result of a
    failed numeric conversion.  IEEE rounding, infinities and the sign of
    zero are outside this model. *)
Inductive jsnum : Type :=
  | NaN
  | Fin (q : Q).

(** Values as they come out of [JSON.parse], plus [undefined].  An array
    carries its elements and, like every JS object, a table of named
    properties that code may attach to it. *)
Inductive value : Type :=
  | VUndef
  | VNull
  | VBool (b : bool)
  | VNum (n : jsnum)
  | VStr (s : string)
  | VArr (elems : list value) (props : gmap string value)
  | VObj (props : gmap string value).

Definition num (z : Z) : value := VNum (Fin (inject_Z z)).
Definition arr (l : list value) : value := VArr l ∅.
Definition obj (l : list (string * value)) : value := VObj (list_to_map l).

(** The result of evaluating an expression or running a statement list:
    a value, or a thrown exception carrying the thrown value. *)
Inductive completion (A : Type) : Type :=
  | Normal (a : A)
  | Throw (e : value).
Arguments Normal {A} a.
Arguments Throw {A} e.

Definition TypeError (message : string) : value :=
  obj [("name", VStr "TypeError"); ("message", VStr message)].

(** A rational is zero, or positive, exactly when its numerator is. *)
Definition is_zero (q : Q) : bool := (Qnum q =? 0)%Z.
Definition is_positive (q : Q) : bool := (0 <? Qnum q)%Z.

(** ToBoolean: the test performed by [if], [&&], [||] and [!]. *)
Definition to_boolean (v : value) : bool :=
  match v with
  | VUndef | VNull => false
  | VBool b => b
  | VNum NaN => false
  | VNum (Fin q) => negb (is_zero q)
  | VStr s => negb (String.eqb s "")
  | VArr _ _ | VObj _ => true
  end.

Definition is_nullish (v : value) : bool :=
  match v with
  | VUndef | VNull => true
  | _ => false
  end.

(** Own named property of a value that is neither [null] nor [undefined].
    None of the keys read by the modelled code ([period], [revenue],
    [books_sold], [num_sales], [processing_info]) exists on a prototype, so
    a missing own property reads as [undefined]. *)
Definition get_own (v : value) (k : string) : value :=
  match v with
  | VObj m => default VUndef (m !! k)
  | VArr es m =>
      if String.eqb k "length" then num (Z.of_nat (length es))
      else default VUndef (m !! k)
  | VStr s =>
      if String.eqb k "length" then num (Z.of_nat (String.length s))
      else VUndef
  | _ => VUndef
  end.

(** [v.k]: reading a property of [null] or [undefined] throws. *)
Definition get_prop (v : value) (k : string) : completion value :=
  if is_nullish v then
    Throw (TypeError ("Cannot read properties of null or undefined: " +:+ k))
  else Normal (get_own v k).

(** [v[i]] for a non-negative integer index, on a value that is neither
    [null] nor [undefined]. *)
Definition get_index (v : value) (i : nat) : value :=
  match v with
  | VArr es _ => default VUndef (es !! i)
  | VStr s =>
      match String.get i s with
      | Some c => VStr (String c EmptyString)
      | None => VUndef
      end
  | VObj m => default VUndef (m !! pretty i)
  | _ => VUndef
  end.

(** [v?.[i]]: optional chaining short-circuits to [undefined]. *)
Definition opt_index (v : value) (i : nat) : value :=
  if is_nullish v then VUndef else get_index v i.

(** [v.k = x] in strict mode (ES modules are always strict): objects and
    arrays take the property, primitives refuse it with a [TypeError]. *)
Definition set_prop (v : value) (k : string) (x : value) : completion value :=
  match v with
  | VObj m => Normal (VObj (<[k := x]> m))
  | VArr es m => Normal (VArr es (<[k := x]> m))
  | VUndef | VNull =>
      Throw (TypeError ("Cannot set properties of null or undefined: " +:+ k))
  | _ => Throw (TypeError ("Cannot create property on a primitive: " +:+ k))
  end.

(** [delete v.k] on a value that is neither [null] nor [undefined]. *)
Definition delete_prop (v : value) (k : string) : value :=
  match v with
  | VObj m => VObj (delete k m)
  | VArr es m => VArr es (delete k m)
  | _ => v
  end.

(** [a || b] *)
Definition js_or (a b : value) : value := if to_boolean a then a else b.

(** The outcome of a division, with the zero-divisor case kept apart from
    every ordinary quotient (JS itself would answer [Infinity] or [NaN]
    there). *)
Inductive quotient : Type :=
  | Quotient (n : jsnum)
  | ZeroDivisor.

(** Numeric coercions.  Parsing a string as a number and printing a number
    are services of the JS runtime; they are parameters here. *)
Section Coercions.
Variable string_to_number : string → jsnum.
Variable number_to_string : jsnum → string.

Definition join (sep : string) (l : list string) : string :=
  match l with
  | [] => ""
  | s :: l => fold_left (λ acc t, acc +:+ sep +:+ t) l s
  end.

(** ToString *)
Fixpoint to_string (v : value) : string :=
  match v with
  | VUndef => "undefined"
  | VNull => "null"
  | VBool true => "true"
  | VBool false => "false"
  | VNum n => number_to_string n
  | VStr s => s
  | VArr es _ =>
      join "," (map (λ e, match e with
                          | VUndef | VNull => ""
                          | _ => to_string e
                          end) es)
  | VObj _ => "[object Object]"
  end.

(** ToNumber *)
Definition to_number (v : value) : jsnum :=
  match v with
  | VUndef => NaN
  | VNull => Fin 0
  | VBool true => Fin 1
  | VBool false => Fin 0
  | VNum n => n
  | VStr s => string_to_number s
  | VArr _ _ | VObj _ => string_to_number (to_string v)
  end.

Definition is_stringy (v : value) : bool :=
  match v with
  | VStr _ | VArr _ _ | VObj _ => true
  | _ => false
  end.

Definition num_add (a b : jsnum) : jsnum :=
  match a, b with
  | Fin x, Fin y => Fin (x + y)
  | _, _ => NaN
  end.

(** [a + b]: concatenation as soon as one operand is a string after
    ToPrimitive (strings, arrays and objects), addition otherwise. *)
Definition js_add (a b : value) : value :=
  if is_stringy a || is_stringy b
  then VStr (to_string a +:+ to_string b)
  else VNum (num_add (to_number a) (to_number b)).

(** [a > 0] *)
Definition gt_zero (a : value) : bool :=
  match to_number a with
  | Fin q => is_positive q
  | NaN => false
  end.

Definition num_div (a b : jsnum) : quotient :=
  match b with
  | NaN => Quotient NaN
  | Fin y =>
      if is_zero y then ZeroDivisor
      else match a with
           | Fin x => Quotient (Fin (x / y))
           | NaN => Quotient NaN
           end
  end.

(** [a / b] *)
Definition js_div (a b : value) : quotient :=
  num_div (to_number a) (to_number b).
End Coercions.

End JS.

(** ** The browser and the network, as seen by the client *)

Module Axios.
Import JS.

(** The request configuration that axios hands from interceptor to
    interceptor.  [metadata] holds the [startTime] written by the timing
    interceptor, in milliseconds. *)
Record request_config : Type := {
  method : string;
  baseURL : string;
  url : string;
  params : gmap string value;
  body : value;
  headers : gmap string string;
  timeout : Z;
  metadata : option Z
}.

Definition with_headers (h : gmap string string) (c : request_config) :=
  {| method := method c; baseURL := baseURL c; url := url c;
     params := params c; body := body c; headers := h;
     timeout := timeout c; metadata := metadata c |}.

Definition with_metadata (m : option Z) (c : request_config) :=
  {| method := method c; baseURL := baseURL c; url := url c;
     params := params c; body := body c; headers := headers c;
     timeout := timeout c; metadata := m |}.

Record response : Type := {
  data : value;
  status : Z;
  config : request_config
}.

Definition with_data (d : value) (r : response) :=
  {| data := d; status := status r; config := config r |}.

(** What the transport answers: a response that axios resolves with, or an
    error that it rejects with (network failure, timeout, or a status that
    [validateStatus] refuses). *)
Inductive net_outcome : Type :=
  | Resolved (status : Z) (payload : value)
  | Rejected (error : value).

(** The world outside the client code.  [network] is the server together
    with the wire: given the requests sent so far and the new request it
    says when the answer arrives and what it is.  [sent] and [console]
    record what the client did. *)
Record world : Type := {
  localStorage : gmap string string;
  now : Z;
  network : list request_config → request_config → Z * net_outcome;
  sent : list request_config;
  console : list (string * value)
}.

(** Client code runs in a state-and-exception monad over the world. *)
Definition M (A : Type) : Type := world → completion A * world.

Definition ret {A} (a : A) : M A := λ w, (Normal a, w).
Definition throw {A} (e : value) : M A := λ w, (Throw e, w).
Definition bind {A B} (m : M A) (k : A → M B) : M B :=
  λ w, match m w with
       | (Normal a, w') => k a w'
       | (Throw e, w') => (Throw e, w')
       end.
Definition lift {A} (c : completion A) : M A := λ w, (c, w).

(** [try { body } catch (error) { handler }] *)
Definition try_catch {A} (body : M A) (handler : value → M A) : M A :=
  λ w, match body w with
       | (Normal a, w') => (Normal a, w')
       | (Throw e, w') => handler e w'
       end.

Declare Scope js_scope.
Delimit Scope js_scope with js.
Notation "'let*' x ':=' m 'in' k" := (bind m (λ x, k))
  (at level 10, x name, m at level 100, k at level 200) : js_scope.
Notation "m ';;' k" := (bind m (λ _, k))
  (at level 100, k at level 200, right associativity) : js_scope.
Open Scope js_scope.

(** [localStorage.getItem(key)]: the stored string, or [null]. *)
Definition localStorage_getItem (key : string) : M (option string) :=
  λ w, (Normal (localStorage w !! key), w).

(** [new Date()] and [Date.now()], in milliseconds. *)
Definition Date_now : M Z := λ w, (Normal (now w), w).

(** [console.error(message, error)] *)
Definition console_error (message : string) (error : value) : M unit :=
  λ w, (Normal tt,
        {| localStorage := localStorage w; now := now w;
           network := network w; sent := sent w;
           console := console w ++ [(message, error)] |}).

(** The adapter: puts the request on the wire, which is the only way a
    response comes into being, and waits for the answer. *)
Definition dispatch (c : request_config) : M response :=
  λ w, let '(arrival, answer) := network w (sent w) c in
       let w' := {| localStorage := localStorage w; now := arrival;
                    network := network w; sent := sent w ++ [c];
                    console := console w |} in
       match answer with
       | Resolved st payload =>
           (Normal {| data := payload; status := st; config := c |}, w')
       | Rejected e => (Throw e, w')
       end.

(** A stored token is used when it is truthy, that is a non-empty string. *)
Definition token_truthy (token : option string) : bool :=
  match token with
  | Some s => negb (String.eqb s "")
  | None => false
  end.

(** Request interceptor shared by both services:
<<
    const token = localStorage.getItem('authToken');
    if (token) { config.headers.Authorization = `Bearer ${token}`; }
    return config;
>> *)
Definition authInterceptor (config : request_config) : M request_config :=
  let* token := localStorage_getItem "authToken" in
  if token_truthy token
  then ret (with_headers
              (<["Authorization" := "Bearer " +:+ default "" token]>
                 (headers config)) config)
  else ret config.

(** Request interceptor of the optimized service:
    [config.metadata = { startTime: new Date() }]. *)
Definition timingRequestInterceptor (config : request_config)
  : M request_config :=
  let* startTime := Date_now in
  ret (with_metadata (Some startTime) config).

Definition processing_info_of (elapsedTimeMs : Z) : value :=
  obj [("processing_time_ms", num elapsedTimeMs); ("cached", VBool false)].

(** Response interceptor of the optimized service:
<<
    const endTime = new Date();
    const startTime = response.config.metadata.startTime;
    const elapsedTimeMs = endTime - startTime;
    if (response.data && !response.data.processing_info) {
      response.data.processing_info =
        { processing_time_ms: elapsedTimeMs, cached: false };
    }
    return response;
>> *)
Definition timingResponseInterceptor (resp : response) : M response :=
  let* endTime := Date_now in
  let* startTime :=
    match metadata (config resp) with
    | Some t => ret t
    | None => throw (TypeError "Cannot read properties of undefined: startTime")
    end in
  let elapsedTimeMs := (endTime - startTime)%Z in
  if to_boolean (data resp) then
    let* info := lift (get_prop (data resp) "processing_info") in
    if negb (to_boolean info) then
      let* data' := lift (set_prop (data resp) "processing_info"
                            (processing_info_of elapsedTimeMs)) in
      ret (with_data data' resp)
    else ret resp
  else ret resp.

(** The two axios instances.  Both are created with [baseURL: '/api'] and a
    JSON content type; the optimized one adds a 60 s timeout. *)
Inductive instance : Type := Optimized | Plain.

Definition instance_timeout (i : instance) : Z :=
  match i with
  | Optimized => 60000
  | Plain => 0
  end.

Definition instance_defaults (i : instance) (meth path : string)
    (ps : gmap string value) (payload : value) : request_config :=
  {| method := meth; baseURL := "/api"; url := path; params := ps;
     body := payload;
     headers := {["Content-Type" := "application/json"]};
     timeout := instance_timeout i; metadata := None |}.

(** One request through an instance.  Axios runs the request interceptors
    in the reverse of their registration order, then the adapter, then the
    response interceptors; every rejection handler in the file is
    [(error) => Promise.reject(error)], which is what [bind] does with a
    thrown value. *)
Definition requestInterceptors (i : instance) (c : request_config)
  : M request_config :=
  match i with
  | Optimized =>
      let* c := timingRequestInterceptor c in
      authInterceptor c
  | Plain => authInterceptor c
  end.

Definition responseInterceptors (i : instance) (r : response) : M response :=
  match i with
  | Optimized => timingResponseInterceptor r
  | Plain => ret r
  end.

Definition request (i : instance) (c : request_config) : M response :=
  let* c := requestInterceptors i c in
  let* r := dispatch c in
  responseInterceptors i r.

(** [analyticsApi.get(url, { params })] *)
Definition get (i : instance) (path : string) (ps : gmap string value)
  : M response :=
  request i (instance_defaults i "get" path ps VUndef).

(** [analyticsApi.post(url, data)] *)
Definition post (i : instance) (path : string) (payload : value)
  : M response :=
  request i (instance_defaults i "post" path ∅ payload).

(** The URL axios requests: [combineURLs(baseURL, url)] drops one or two
    trailing slashes of the base and all leading slashes of the path. *)
Fixpoint strip_leading_slashes (s : string) : string :=
  match s with
  | String "/"%char s' => strip_leading_slashes s'
  | _ => s
  end.

Definition strip_trailing_slashes (s : string) : string :=
  match String.rev s with
  | String "/"%char (String "/"%char r) => String.rev r
  | String "/"%char r => String.rev r
  | _ => s
  end.

Definition combineURLs (base relative : string) : string :=
  if String.eqb relative "" then base
  else strip_trailing_slashes base +:+ "/" +:+ strip_leading_slashes relative.

Definition full_path (c : request_config) : string :=
  combineURLs (baseURL c) (url c).

End Axios.

(** ** The two REST client wrappers *)

Module Services.
Import JS Axios.

(** A default parameter value applies when the argument is [undefined]. *)
Definition default_arg (dflt arg : value) : value :=
  match arg with
  | VUndef => dflt
  | _ => arg
  end.

(** [services/optimizedAnalyticsService.js] *)
Module optimizedAnalyticsService.

Definition getDashboardSummary : M value :=
  try_catch
    (let* response := get Optimized "/analytics/summary/" ∅ in
     ret (data response))
    (λ error,
       console_error "Error fetching dashboard summary:" error ;;
       throw error).

Definition getSalesTimeSeries (interval days : value) : M value :=
  let interval := default_arg (VStr "auto") interval in
  let days := default_arg (num 30) days in
  try_catch
    (let* response :=
       get Optimized "/analytics/optimized-timeseries/"
         (list_to_map [("interval", interval); ("days", days)]) in
     ret (data response))
    (λ error,
       console_error "Error fetching sales time series:" error ;;
       throw error).

Definition getTopBooks (limit days : value) : M value :=
  let limit := default_arg (num 10) limit in
  let days := default_arg (num 30) days in
  try_catch
    (let* response :=
       get Optimized "/analytics/top-books/"
         (list_to_map [("limit", limit); ("days", days)]) in
     ret (data response))
    (λ error,
       console_error "Error fetching top books:" error ;;
       throw error).

Definition getSalesByRegion (days : value) : M value :=
  let days := default_arg (num 30) days in
  try_catch
    (let* response :=
       get Optimized "/analytics/sales-by-region/"
         (list_to_map [("days", days)]) in
     ret (data response))
    (λ error,
       console_error "Error fetching sales by region:" error ;;
       throw error).

Definition getSalesByGenre (days : value) : M value :=
  let days := default_arg (num 30) days in
  try_catch
    (let* response :=
       get Optimized "/analytics/sales-by-genre/"
         (list_to_map [("days", days)]) in
     ret (data response))
    (λ error,
       console_error "Error fetching sales by genre:" error ;;
       throw error).

Definition generateTestData (numBooks numSales skipRedshift : value)
  : M value :=
  let numBooks := default_arg (num 500) numBooks in
  let numSales := default_arg (num 10000) numSales in
  let skipRedshift := default_arg (VBool false) skipRedshift in
  try_catch
    (let* response :=
       post Optimized "/analytics/generate-test-data/"
         (obj [("num_books", numBooks); ("num_sales", numSales);
               ("skip_redshift", skipRedshift)]) in
     ret (data response))
    (λ error,
       console_error "Error generating test data:" error ;;
       throw error).



End optimizedAnalyticsService.

(** [services/analyticsService.js] *)
Module analyticsService.

Definition getDashboardSummary : M value :=
  try_catch
    (let* response := get Plain "/analytics/summary/" ∅ in
     ret (data response))
    (λ error,
       console_error "Error fetching dashboard summary:" error ;;
       throw error).

Definition getSalesTimeSeries (interval days : value) : M value :=
  let interval := default_arg (VStr "day") interval in
  let days := default_arg (num 30) days in
  try_catch
    (let* response :=
       get Plain "/analytics/timeseries/"
         (list_to_map [("interval", interval); ("days", days)]) in
     ret (data response))
    (λ error,
       console_error "Error fetching sales time series:" error ;;
       throw error).

Definition getTopBooks (limit days : value) : M value :=
  let limit := default_arg (num 10) limit in
  let days := default_arg (num 30) days in
  try_catch
    (let* response :=
       get Plain "/analytics/top-books/"
         (list_to_map [("limit", limit); ("days", days)]) in
     ret (data response))
    (λ error,
       console_error "Error fetching top books:" error ;;
       throw error).

Definition getSalesByRegion (days : value) : M value :=
  let days := default_arg (num 30) days in
  try_catch
    (let* response :=
       get Plain "/analytics/sales-by-region/"
         (list_to_map [("days", days)]) in
     ret (data response))
    (λ error,
       console_error "Error fetching sales by region:" error ;;
       throw error).

Definition getSalesByGenre (days : value) : M value :=
  let days := default_arg (num 30) days in
  try_catch
    (let* response :=
       get Plain "/analytics/sales-by-genre/"
         (list_to_map [("days", days)]) in
     ret (data response))
    (λ error,
       console_error "Error fetching sales by genre:" error ;;
       throw error).

Definition generateTestData (numBooks numSales skipRedshift : value)
  : M value :=
  let numBooks := default_arg (num 500) numBooks in
  let numSales := default_arg (num 10000) numSales in
  let skipRedshift := default_arg (VBool false) skipRedshift in
  try_catch
    (let* response :=
       post Plain "/analytics/generate-test-data/"
         (obj [("num_books", numBooks); ("num_sales", numSales);
               ("skip_redshift", skipRedshift)]) in
     ret (data response))
    (λ error,
       console_error "Error generating test data:" error ;;
       throw error).

End analyticsService.

(** The operations the two wrappers share, and a call of one of them with
    a JS argument list (a missing argument is [undefined]). *)
Inductive operation : Type :=
  | GetDashboardSummary
  | GetSalesTimeSeries
  | GetTopBooks
  | GetSalesByRegion
  | GetSalesByGenre
  | GenerateTestData.

#[global] Instance operation_eq_dec : EqDecision operation.
Proof. solve_decision. Defined.

Definition arg (args : list value) (i : nat) : value :=
  default VUndef (args !! i).

Definition invoke (i : instance) (op : operation) (args : list value)
  : M value :=
  match i, op with
  | Optimized, GetDashboardSummary =>
      optimizedAnalyticsService.getDashboardSummary
  | Optimized, GetSalesTimeSeries =>
      optimizedAnalyticsService.getSalesTimeSeries (arg args 0) (arg args 1)
  | Optimized, GetTopBooks =>
      optimizedAnalyticsService.getTopBooks (arg args 0) (arg args 1)
  | Optimized, GetSalesByRegion =>
      optimizedAnalyticsService.getSalesByRegion (arg args 0)
  | Optimized, GetSalesByGenre =>
      optimizedAnalyticsService.getSalesByGenre (arg args 0)
  | Optimized, GenerateTestData =>
      optimizedAnalyticsService.generateTestData
        (arg args 0) (arg args 1) (arg args 2)
  | Plain, GetDashboardSummary => analyticsService.getDashboardSummary
  | Plain, GetSalesTimeSeries =>
      analyticsService.getSalesTimeSeries (arg args 0) (arg args 1)
  | Plain, GetTopBooks =>
      analyticsService.getTopBooks (arg args 0) (arg args 1)
  | Plain, GetSalesByRegion => analyticsService.getSalesByRegion (arg args 0)
  | Plain, GetSalesByGenre => analyticsService.getSalesByGenre (arg args 0)
  | Plain, GenerateTestData =>
      analyticsService.generateTestData (arg args 0) (arg args 1) (arg args 2)
  end.

End Services.

(** ** The dashboard pages *)

Module Pages.
Import JS Axios Services.

(** One record of the chart series:
    [{ date, revenue, books, sales }]. *)
Record chart_point : Type := {
  date : value;
  revenue : value;
  books : value;
  sales : value
}.

(** The callback handed to [timeSeries.period.map], identical in both
    dashboards:
<<
    (date, index) => ({
      date,
      revenue: timeSeries.revenue?.[index] || 0,
      books: timeSeries.books_sold?.[index] || 0,
      sales: timeSeries.num_sales?.[index] || 0 })
>> *)
Definition formatPoint (timeSeries : value) (index : nat) (date : value)
  : chart_point :=
  {| date := date;
     revenue := js_or (opt_index (get_own timeSeries "revenue") index) (num 0);
     books := js_or (opt_index (get_own timeSeries "books_sold") index) (num 0);
     sales := js_or (opt_index (get_own timeSeries "num_sales") index) (num 0)
  |}.

(** The normalisation of a time-series body, identical in both dashboards:
<<
    if (timeSeries && timeSeries.period) {
      setTimeSeriesData(timeSeries.period.map(...));
    } else { setTimeSeriesData([]); }
>>
    The result is the new series.  A truthy [period] that is not an array
    has no [map] method, and calling it throws. *)
Definition formatTimeSeries (timeSeries : value)
  : completion (list chart_point) :=
  if to_boolean timeSeries && to_boolean (get_own timeSeries "period") then
    match get_own timeSeries "period" with
    | VArr es _ => Normal (imap (formatPoint timeSeries) es)
    | _ => Throw (TypeError "timeSeries.period.map is not a function")
    end
  else Normal [].

(** [(v || []).slice(0, 5)]: arrays and strings have [slice], nothing else
    that JSON can carry does. *)
Definition sliceFirstFive (v : value) : completion value :=
  match js_or v (arr []) with
  | VArr es _ => Normal (arr (take 5 es))
  | VStr s => Normal (VStr (String.substring 0 5 s))
  | _ => Throw (TypeError "slice is not a function")
  end.

(** [Promise.allSettled] turns a rejection into an ordinary result.  The
    requests go on the wire in the order of the calls; the interleaving of
    their answers is not modelled. *)
Definition settle {A} (m : M A) : M (completion A) :=
  λ w, let '(c, w') := m w in (Normal c, w').

(** [components/TimeRangeSelector.jsx] *)
Module TimeRangeSelector.
Definition ranges : list (Z * string) :=
  [(7, "Last 7 days"); (30, "Last 30 days"); (90, "Last 3 months");
   (365, "Last year")]%Z.
End TimeRangeSelector.

(** [components/OptimizedTimeRangeSelector.jsx] *)
Module OptimizedTimeRangeSelector.
Definition ranges : list (Z * string) :=
  [(7, "Last 7 days"); (30, "Last 30 days"); (90, "Last 3 months");
   (180, "Last 6 months"); (365, "Last year"); (730, "Last 2 years")]%Z.

Definition intervals : list (string * string) :=
  [("auto", "Auto"); ("day", "Daily"); ("week", "Weekly");
   ("month", "Monthly"); ("quarter", "Quarterly"); ("year", "Yearly")].
End OptimizedTimeRangeSelector.

(** [pages/Dashboard.jsx] *)
Module Dashboard.
Import analyticsService.

Record state : Type := {
  timeRange : Z;
  loading : bool;
  error : option string;
  summary : value;
  timeSeriesData : list chart_point;
  topBooks : value;
  genreData : value
}.

(** The [useState] initial values. *)
Definition initial : state :=
  {| timeRange := 30; loading := true; error := None; summary := VNull;
     timeSeriesData := []; topBooks := arr []; genreData := arr [] |}.

Definition setTimeRange (v : Z) (s : state) : state :=
  {| timeRange := v; loading := loading s; error := error s;
     summary := summary s; timeSeriesData := timeSeriesData s;
     topBooks := topBooks s; genreData := genreData s |}.
Definition setLoading (v : bool) (s : state) : state :=
  {| timeRange := timeRange s; loading := v; error := error s;
     summary := summary s; timeSeriesData := timeSeriesData s;
     topBooks := topBooks s; genreData := genreData s |}.
Definition setError (v : option string) (s : state) : state :=
  {| timeRange := timeRange s; loading := loading s; error := v;
     summary := summary s; timeSeriesData := timeSeriesData s;
     topBooks := topBooks s; genreData := genreData s |}.
Definition setSummary (v : value) (s : state) : state :=
  {| timeRange := timeRange s; loading := loading s; error := error s;
     summary := v; timeSeriesData := timeSeriesData s;
     topBooks := topBooks s; genreData := genreData s |}.
Definition setTimeSeriesData (v : list chart_point) (s : state) : state :=
  {| timeRange := timeRange s; loading := loading s; error := error s;
     summary := summary s; timeSeriesData := v;
     topBooks := topBooks s; genreData := genreData s |}.
Definition setTopBooks (v : value) (s : state) : state :=
  {| timeRange := timeRange s; loading := loading s; error := error s;
     summary := summary s; timeSeriesData := timeSeriesData s;
     topBooks := v; genreData := genreData s |}.
Definition setGenreData (v : value) (s : state) : state :=
  {| timeRange := timeRange s; loading := loading s; error := error s;
     summary := summary s; timeSeriesData := timeSeriesData s;
     topBooks := topBooks s; genreData := v |}.

(** The time-series branch of [fetchData] (lines 70-86):
    a rejected request leaves the series alone. *)
Definition processTimeSeries (result : completion value) (s : state)
  : state * completion unit :=
  match result with
  | Normal timeSeries =>
      match formatTimeSeries timeSeries with
      | Normal series => (setTimeSeriesData series s, Normal tt)
      | Throw e => (s, Throw e)
      end
  | Throw _ => (s, Normal tt)
  end.

Definition reasons (results : list (completion value)) : list value :=
  omap (λ r, match r with Throw e => Some e | Normal _ => None end) results.

(** The statements of the [try] block after [Promise.allSettled], with
    the state updates made before an exception kept. *)
Definition processResults (r0 r1 r2 r3 : completion value) (s : state)
  : M state * state :=
  let s := match r0 with Normal v => setSummary v s | Throw _ => s end in
  match processTimeSeries r1 s with
  | (s, Throw e) => (throw e, s)
  | (s, Normal _) =>
      let s := match r2 with
               | Normal v => setTopBooks (js_or v (arr [])) s
               | Throw _ => s
               end in
      match (match r3 with
             | Normal v => sliceFirstFive v
             | Throw _ => Normal (genreData s)
             end) with
      | Throw e => (throw e, s)
      | Normal g =>
          let s := setGenreData g s in
          match reasons [r0; r1; r2; r3] with
          | [] => (ret (setError None s), s)
          | failed =>
              (console_error "Some dashboard data failed to load:"
                 (arr failed) ;;
               ret (setError
                      (Some "Some dashboard data failed to load. You may see partial information.")
                      s), s)
          end
      end
  end.

(** [fetchData], the body of the effect. *)
Definition fetchData (s : state) : M state :=
  let s := setLoading true s in
  let days := num (timeRange s) in
  let* r0 := settle getDashboardSummary in
  let* r1 := settle (getSalesTimeSeries (VStr "day") days) in
  let* r2 := settle (getTopBooks (num 5) days) in
  let* r3 := settle (getSalesByGenre days) in
  let '(rest, kept) := processResults r0 r1 r2 r3 s in
  let* s := try_catch rest
              (λ err,
                 console_error "Error fetching dashboard data:" err ;;
                 ret (setError
                        (Some "Failed to fetch dashboard data. Please try again later.")
                        kept)) in
  ret (setLoading false s).

(** The component mounts: the effect runs once. *)
Definition mount : M state := fetchData initial.

(** The user picks a range: [onChange(Number(e.target.value))] calls
    [setTimeRange]; the effect, whose dependency list is [[timeRange]],
    runs again when the value differs from the current one. *)
Definition selectRange (v : Z) (s : state) : M state :=
  if (timeRange s =? v)%Z then ret s else fetchData (setTimeRange v s).
End Dashboard.

(** [pages/DashboardOptimized.jsx] *)
Module DashboardOptimized.
Import optimizedAnalyticsService.

Record state : Type := {
  timeRange : Z;
  intervalMode : string;
  loading : bool;
  error : option string;
  summary : value;
  timeSeriesData : list chart_point;
  topBooks : value;
  genreData : value;
  processingInfo : value
}.

(** The [useState] initial values. *)
Definition initial : state :=
  {| timeRange := 30; intervalMode := "auto"; loading := true;
     error := None; summary := VNull; timeSeriesData := [];
     topBooks := arr []; genreData := arr []; processingInfo := VNull |}.

Definition setTimeRange (v : Z) (s : state) : state :=
  {| timeRange := v; intervalMode := intervalMode s; loading := loading s;
     error := error s; summary := summary s;
     timeSeriesData := timeSeriesData s; topBooks := topBooks s;
     genreData := genreData s; processingInfo := processingInfo s |}.
Definition setIntervalMode (v : string) (s : state) : state :=
  {| timeRange := timeRange s; intervalMode := v; loading := loading s;
     error := error s; summary := summary s;
     timeSeriesData := timeSeriesData s; topBooks := topBooks s;
     genreData := genreData s; processingInfo := processingInfo s |}.
Definition setLoading (v : bool) (s : state) : state :=
  {| timeRange := timeRange s; intervalMode := intervalMode s; loading := v;
     error := error s; summary := summary s;
     timeSeriesData := timeSeriesData s; topBooks := topBooks s;
     genreData := genreData s; processingInfo := processingInfo s |}.
Definition setError (v : option string) (s : state) : state :=
  {| timeRange := timeRange s; intervalMode := intervalMode s;
     loading := loading s; error := v; summary := summary s;
     timeSeriesData := timeSeriesData s; topBooks := topBooks s;
     genreData := genreData s; processingInfo := processingInfo s |}.
Definition setSummary (v : value) (s : state) : state :=
  {| timeRange := timeRange s; intervalMode := intervalMode s;
     loading := loading s; error := error s; summary := v;
     timeSeriesData := timeSeriesData s; topBooks := topBooks s;
     genreData := genreData s; processingInfo := processingInfo s |}.
Definition setTimeSeriesData (v : list chart_point) (s : state) : state :=
  {| timeRange := timeRange s; intervalMode := intervalMode s;
     loading := loading s; error := error s; summary := summary s;
     timeSeriesData := v; topBooks := topBooks s;
     genreData := genreData s; processingInfo := processingInfo s |}.
Definition setTopBooks (v : value) (s : state) : state :=
  {| timeRange := timeRange s; intervalMode := intervalMode s;
     loading := loading s; error := error s; summary := summary s;
     timeSeriesData := timeSeriesData s; topBooks := v;
     genreData := genreData s; processingInfo := processingInfo s |}.
Definition setGenreData (v : value) (s : state) : state :=
  {| timeRange := timeRange s; intervalMode := intervalMode s;
     loading := loading s; error := error s; summary := summary s;
     timeSeriesData := timeSeriesData s; topBooks := topBooks s;
     genreData := v; processingInfo := processingInfo s |}.
Definition setProcessingInfo (v : value) (s : state) : state :=
  {| timeRange := timeRange s; intervalMode := intervalMode s;
     loading := loading s; error := error s; summary := summary s;
     timeSeriesData := timeSeriesData s; topBooks := topBooks s;
     genreData := genreData s; processingInfo := v |}.

(** Lines 58-75: the processing info is read off the body before the
    body is tested, then the series is normalised:
<<
    if (timeSeries.processing_info) {
      setProcessingInfo(timeSeries.processing_info);
      delete timeSeries.processing_info;
    }
    if (timeSeries && timeSeries.period) { ... } else { ... }
>> *)
Definition processTimeSeries (timeSeries : value) (s : state)
  : state * completion unit :=
  match get_prop timeSeries "processing_info" with
  | Throw e => (s, Throw e)
  | Normal info =>
      let '(s, timeSeries) :=
        if to_boolean info
        then (setProcessingInfo info s,
              delete_prop timeSeries "processing_info")
        else (s, timeSeries) in
      match formatTimeSeries timeSeries with
      | Normal series => (setTimeSeriesData series s, Normal tt)
      | Throw e => (s, Throw e)
      end
  end.

(** The [then] callback of the second, unawaited [Promise.allSettled]; an
    exception in it is an unhandled rejection that leaves the remaining
    state alone. *)
Definition processRemaining (r0 r1 : completion value) (s : state) : state :=
  let s := match r0 with
           | Normal v => setTopBooks (js_or v (arr [])) s
           | Throw _ => s
           end in
  match r1 with
  | Normal v =>
      match sliceFirstFive v with
      | Normal g => setGenreData g s
      | Throw _ => s
      end
  | Throw _ => s
  end.

Definition failed (err : value) (s : state) : M state :=
  console_error "Error fetching dashboard data:" err ;;
  ret (setLoading false
         (setError
            (Some "Failed to fetch dashboard data. Please try again later.")
            s)).

(** [fetchData], the body of the effect: the summary first, then the
    time series, then the two remaining requests side by side. *)
Definition fetchData (s : state) : M state :=
  let s := setLoading true s in
  let days := num (timeRange s) in
  let* c0 := settle getDashboardSummary in
  match c0 with
  | Throw err => failed err s
  | Normal summaryData =>
      let s := setSummary summaryData s in
      let* c1 := settle (getSalesTimeSeries (VStr (intervalMode s)) days) in
      match c1 with
      | Throw err => failed err s
      | Normal timeSeries =>
          match processTimeSeries timeSeries s with
          | (s, Throw err) => failed err s
          | (s, Normal _) =>
              let* r0 := settle (getTopBooks (num 5) days) in
              let* r1 := settle (getSalesByGenre days) in
              ret (processRemaining r0 r1
                     (setLoading false (setError None s)))
          end
      end
  end.

Definition mount : M state := fetchData initial.

(** The effect depends on [[timeRange, intervalMode]]. *)
Definition selectRange (v : Z) (s : state) : M state :=
  if (timeRange s =? v)%Z then ret s else fetchData (setTimeRange v s).

Definition selectInterval (v : string) (s : state) : M state :=
  if String.eqb (intervalMode s) v then ret s
  else fetchData (setIntervalMode v s).
End DashboardOptimized.

(** The arithmetic the pages perform on fetched data when they render. *)
Section Rendering.
Variable string_to_number : string → jsnum.
Variable number_to_string : jsnum → string.

Abbreviation js_div := (js_div string_to_number number_to_string).
Abbreviation js_add := (js_add string_to_number number_to_string).
Abbreviation gt_zero := (gt_zero string_to_number number_to_string).

(** [pages/SalesByGenre.jsx], last column of the details table:
    [genre.books_sold > 0 ? genre.revenue / genre.books_sold : 0] *)
Definition genreAvgRevenuePerBook (genre : value) : completion quotient :=
  match get_prop genre "books_sold" with
  | Throw e => Throw e
  | Normal books_sold =>
      if gt_zero books_sold
      then Normal (js_div (get_own genre "revenue") books_sold)
      else Normal (Quotient (Fin 0))
  end.

(** [pages/SalesByRegion.jsx], last column of the details table:
    [region.books_sold > 0 ? region.revenue / region.books_sold : 0] *)
Definition regionAvgRevenuePerBook (region : value) : completion quotient :=
  match get_prop region "books_sold" with
  | Throw e => Throw e
  | Normal books_sold =>
      if gt_zero books_sold
      then Normal (js_div (get_own region "revenue") books_sold)
      else Normal (Quotient (Fin 0))
  end.

(** [timeSeriesData.reduce((sum, item) => sum + item.revenue, 0)] *)
Definition totalRevenue (timeSeriesData : list chart_point) : value :=
  fold_left (λ sum item, js_add sum (revenue item)) timeSeriesData (num 0).

(** [pages/DashboardOptimized.jsx], the average reference line, present
    only when the guard in front of it holds:
<<
    {timeSeriesData.length > 0 && (
      <ReferenceLine y={timeSeriesData.reduce(...) / timeSeriesData.length}
>> *)
Definition referenceLineY (timeSeriesData : list chart_point)
  : option quotient :=
  if (0 <? length timeSeriesData)%nat
  then Some (js_div (totalRevenue timeSeriesData)
               (num (Z.of_nat (length timeSeriesData))))
  else None.

(** [timeSeriesData.length > 60 ? Math.ceil(timeSeriesData.length / 12) : 0],
    before the rounding up. *)
Definition tickInterval (timeSeriesData : list chart_point) : quotient :=
  if (60 <? length timeSeriesData)%nat
  then js_div (num (Z.of_nat (length timeSeriesData))) (num 12)
  else Quotient (Fin 0).
End Rendering.

(** [COLORS[index % COLORS.length]]: the remainder, or [None] where JS
    would compute a remainder by zero. *)
Definition js_rem (a b : nat) : option nat :=
  if (b =? 0)%nat then None else Some (a mod b).

Definition DASHBOARD_COLORS : list string :=
  ["#0088FE"; "#00C49F"; "#FFBB28"; "#FF8042"; "#a05195"].

Definition DETAIL_COLORS : list string :=
  ["#0088FE"; "#00C49F"; "#FFBB28"; "#FF8042"; "#a05195"; "#d45087";
   "#f95d6a"; "#ff7c43"; "#ffa600"; "#003f5c"].

Definition cellColorIndex (COLORS : list string) (index : nat) : option nat :=
  js_rem index (length COLORS).

End Pages.

(** ** The warehouse: tables and aggregate views (setup_analytics_data.sh) *)

Module Warehouse.

(** A [DATE], and a [TIMESTAMP] as a date and a time of day in seconds. *)
Record date : Type := { year : Z; month : Z; day : Z }.
Record timestamp : Type := { on : date; seconds : Z }.

#[global] Instance date_eq_dec : EqDecision date.
Proof. solve_decision. Defined.

(** Columns are nullable unless they are a primary key; amounts of type
    [DECIMAL(10, 2)] are counted in cents. *)

(** [analytics.dim_book] *)
Module dim_book.
Record row : Type := {
  book_id : Z;
  title : option string;
  author : option string;
  isbn : option string;
  published_date : option date;
  publisher : option string;
  genre : option string;
  price : option Z
}.
End dim_book.

(** [analytics.fact_sales] *)
Module fact_sales.
Record row : Type := {
  sale_id : Z;
  book_id : option Z;
  quantity : option Z;
  sale_date : option timestamp;
  customer_id : option string;
  region : option string;
  sale_amount : option Z
}.
End fact_sales.

Record database : Type := {
  dim_book : list dim_book.row;
  fact_sales : list fact_sales.row
}.

(** [DATE_TRUNC('day', t)::DATE] and [DATE_TRUNC('month', t)::DATE] *)
Definition date_trunc_day (t : timestamp) : date := on t.
Definition date_trunc_month (t : timestamp) : date :=
  {| year := year (on t); month := month (on t); day := 1 |}.

(** [SUM(column)]: nulls are skipped, and the sum of no value is null. *)
Definition SUM {R} (column : R → option Z) (rows : list R) : option Z :=
  fold_left (λ acc r, match column r, acc with
                      | None, _ => acc
                      | Some x, None => Some x
                      | Some x, Some a => Some (a + x)%Z
                      end) rows None.

(** [COUNT( * )] *)
Definition COUNT {R} (rows : list R) : Z := Z.of_nat (length rows).

(** [GROUP BY key]: the rows are dealt into one group per distinct key,
    nulls forming a group of their own. *)
Fixpoint group_insert {K R} `{EqDecision K} (k : K) (r : R)
    (groups : list (K * list R)) : list (K * list R) :=
  match groups with
  | [] => [(k, [r])]
  | (k', rs) :: groups' =>
      if decide (k = k') then (k', rs ++ [r]) :: groups'
      else (k', rs) :: group_insert k r groups'
  end.

Definition GROUP_BY {K R} `{EqDecision K} (key : R → K) (rows : list R)
  : list (K * list R) :=
  fold_left (λ groups r, group_insert (key r) r groups) rows [].

(** [dim_book b JOIN fact_sales s ON b.book_id = s.book_id]: a null
    [s.book_id] equals nothing. *)
Definition JOIN (books : list dim_book.row) (sales : list fact_sales.row)
  : list (dim_book.row * fact_sales.row) :=
  b ← books;
  s ← filter (λ s, fact_sales.book_id s = Some (dim_book.book_id b)) sales;
  [(b, s)].

(** One row of an aggregate view: the grouping key and the three
    aggregates.  The views name the aggregates [num_sales] or
    [transaction_count], [total_books_sold], [total_quantity] or
    [books_sold], and [total_revenue]. *)
Record aggregate (K : Type) : Type := {
  key : K;
  num_sales : Z;
  total_quantity : option Z;
  total_revenue : option Z
}.
Arguments key {K} _.
Arguments num_sales {K} _.
Arguments total_quantity {K} _.
Arguments total_revenue {K} _.

(** The select list shared by the views over [fact_sales] alone:
    [COUNT( * ), SUM(quantity), SUM(sale_amount)].  In the join views the
    count is [COUNT(s.sale_id)], over a primary key that is never null. *)
Definition select_aggregates {K} (group : K * list fact_sales.row)
  : aggregate K :=
  {| key := group.1;
     num_sales := COUNT group.2;
     total_quantity := SUM fact_sales.quantity group.2;
     total_revenue := SUM fact_sales.sale_amount group.2 |}.

Definition select_join_aggregates {K}
    (group : K * list (dim_book.row * fact_sales.row)) : aggregate K :=
  {| key := group.1;
     num_sales := COUNT group.2;
     total_quantity := SUM (λ p, fact_sales.quantity p.2) group.2;
     total_revenue := SUM (λ p, fact_sales.sale_amount p.2) group.2 |}.

(** [ORDER BY total_revenue DESC]; Redshift ranks null above every value. *)
Definition revenue_desc {K} (a b : aggregate K) : Prop :=
  match total_revenue a, total_revenue b with
  | None, _ => True
  | Some _, None => False
  | Some x, Some y => (y ≤ x)%Z
  end.

#[global] Instance revenue_desc_dec {K} (a b : aggregate K) :
  Decision (revenue_desc a b).
Proof.
  unfold revenue_desc.
  destruct (total_revenue a), (total_revenue b); apply _.
Defined.

(** [ORDER BY day] and [ORDER BY month]: ascending, nulls last. *)
Definition date_le (a b : date) : Prop :=
  (year a < year b)%Z
  ∨ (year a = year b ∧ (month a < month b)%Z)
  ∨ (year a = year b ∧ month a = month b ∧ (day a ≤ day b)%Z).

Definition key_date_asc (a b : aggregate (option date)) : Prop :=
  match key a, key b with
  | _, None => True
  | None, Some _ => False
  | Some x, Some y => date_le x y
  end.

#[global] Instance key_date_asc_dec (a b : aggregate (option date)) :
  Decision (key_date_asc a b).
Proof.
  unfold key_date_asc, date_le.
  destruct (key a), (key b); apply _.
Defined.

(** [CREATE OR REPLACE VIEW analytics.sales_by_day] *)
Definition sales_by_day (db : database) : list (aggregate (option date)) :=
  merge_sort key_date_asc
    (select_aggregates <$>
       GROUP_BY (λ s, date_trunc_day <$> fact_sales.sale_date s)
         (fact_sales db)).

(** [CREATE OR REPLACE VIEW analytics.sales_by_region] *)
Definition sales_by_region (db : database)
  : list (aggregate (option string)) :=
  merge_sort revenue_desc
    (select_aggregates <$> GROUP_BY fact_sales.region (fact_sales db)).

(** [CREATE OR REPLACE VIEW analytics.top_books], grouped by
    [b.book_id, b.title, b.author, b.genre]. *)
Definition book_key (b : dim_book.row)
  : Z * option string * option string * option string :=
  (dim_book.book_id b, dim_book.title b, dim_book.author b, dim_book.genre b).

Definition top_books (db : database)
  : list (aggregate (Z * option string * option string * option string)) :=
  merge_sort revenue_desc
    (select_join_aggregates <$>
       GROUP_BY (λ p, book_key p.1) (JOIN (dim_book db) (fact_sales db))).

(** [CREATE OR REPLACE VIEW analytics.sales_by_genre] *)
Definition sales_by_genre (db : database)
  : list (aggregate (option string)) :=
  merge_sort revenue_desc
    (select_join_aggregates <$>
       GROUP_BY (λ p, dim_book.genre p.1)
         (JOIN (dim_book db) (fact_sales db))).

(** [CREATE OR REPLACE VIEW analytics.monthly_sales] *)
Definition monthly_sales (db : database) : list (aggregate (option date)) :=
  merge_sort key_date_asc
    (select_aggregates <$>
       GROUP_BY (λ s, date_trunc_month <$> fact_sales.sale_date s)
         (fact_sales db)).

(** [DROP TABLE IF EXISTS] followed by [CREATE TABLE], for both tables. *)
Definition recreate_tables (db : database) : database :=
  {| dim_book := []; fact_sales := [] |}.

(** [COPY analytics.dim_book FROM ...] and
    [COPY analytics.fact_sales FROM ...]: the rows of the file are appended
    to the table. *)
Definition copy_dim_book (rows : list dim_book.row) (db : database)
  : database :=
  {| dim_book := dim_book db ++ rows; fact_sales := fact_sales db |}.

Definition copy_fact_sales (rows : list fact_sales.row) (db : database)
  : database :=
  {| dim_book := dim_book db; fact_sales := fact_sales db ++ rows |}.

End Warehouse.

(** ** The generator/loader script (setup_analytics_data.sh) *)

Module Loader.
Import Warehouse.

(** The shell variables set by the argument parser. *)
Record settings : Type := {
  S3_BUCKET : string;
  REDSHIFT_HOST : string;
  REDSHIFT_DB : string;
  REDSHIFT_USER : string;
  REDSHIFT_PASSWORD : string;
  IAM_ROLE : string;
  SKIP_GENERATE : bool;
  SKIP_UPLOAD : bool;
  SKIP_REDSHIFT : bool
}.

(** Lines 28-39: the two positional arguments and the default values. *)
Definition defaults (bucket host : string) : settings :=
  {| S3_BUCKET := bucket; REDSHIFT_HOST := host; REDSHIFT_DB := "analytics";
     REDSHIFT_USER := "admin"; REDSHIFT_PASSWORD := ""; IAM_ROLE := "";
     SKIP_GENERATE := false; SKIP_UPLOAD := false; SKIP_REDSHIFT := false |}.

Definition set_db (v : string) (s : settings) : settings :=
  {| S3_BUCKET := S3_BUCKET s; REDSHIFT_HOST := REDSHIFT_HOST s;
     REDSHIFT_DB := v; REDSHIFT_USER := REDSHIFT_USER s;
     REDSHIFT_PASSWORD := REDSHIFT_PASSWORD s; IAM_ROLE := IAM_ROLE s;
     SKIP_GENERATE := SKIP_GENERATE s; SKIP_UPLOAD := SKIP_UPLOAD s;
     SKIP_REDSHIFT := SKIP_REDSHIFT s |}.
Definition set_user (v : string) (s : settings) : settings :=
  {| S3_BUCKET := S3_BUCKET s; REDSHIFT_HOST := REDSHIFT_HOST s;
     REDSHIFT_DB := REDSHIFT_DB s; REDSHIFT_USER := v;
     REDSHIFT_PASSWORD := REDSHIFT_PASSWORD s; IAM_ROLE := IAM_ROLE s;
     SKIP_GENERATE := SKIP_GENERATE s; SKIP_UPLOAD := SKIP_UPLOAD s;
     SKIP_REDSHIFT := SKIP_REDSHIFT s |}.
Definition set_password (v : string) (s : settings) : settings :=
  {| S3_BUCKET := S3_BUCKET s; REDSHIFT_HOST := REDSHIFT_HOST s;
     REDSHIFT_DB := REDSHIFT_DB s; REDSHIFT_USER := REDSHIFT_USER s;
     REDSHIFT_PASSWORD := v; IAM_ROLE := IAM_ROLE s;
     SKIP_GENERATE := SKIP_GENERATE s; SKIP_UPLOAD := SKIP_UPLOAD s;
     SKIP_REDSHIFT := SKIP_REDSHIFT s |}.
Definition set_iam_role (v : string) (s : settings) : settings :=
  {| S3_BUCKET := S3_BUCKET s; REDSHIFT_HOST := REDSHIFT_HOST s;
     REDSHIFT_DB := REDSHIFT_DB s; REDSHIFT_USER := REDSHIFT_USER s;
     REDSHIFT_PASSWORD := REDSHIFT_PASSWORD s; IAM_ROLE := v;
     SKIP_GENERATE := SKIP_GENERATE s; SKIP_UPLOAD := SKIP_UPLOAD s;
     SKIP_REDSHIFT := SKIP_REDSHIFT s |}.
Definition set_skip_generate (s : settings) : settings :=
  {| S3_BUCKET := S3_BUCKET s; REDSHIFT_HOST := REDSHIFT_HOST s;
     REDSHIFT_DB := REDSHIFT_DB s; REDSHIFT_USER := REDSHIFT_USER s;
     REDSHIFT_PASSWORD := REDSHIFT_PASSWORD s; IAM_ROLE := IAM_ROLE s;
     SKIP_GENERATE := true; SKIP_UPLOAD := SKIP_UPLOAD s;
     SKIP_REDSHIFT := SKIP_REDSHIFT s |}.
Definition set_skip_upload (s : settings) : settings :=
  {| S3_BUCKET := S3_BUCKET s; REDSHIFT_HOST := REDSHIFT_HOST s;
     REDSHIFT_DB := REDSHIFT_DB s; REDSHIFT_USER := REDSHIFT_USER s;
     REDSHIFT_PASSWORD := REDSHIFT_PASSWORD s; IAM_ROLE := IAM_ROLE s;
     SKIP_GENERATE := SKIP_GENERATE s; SKIP_UPLOAD := true;
     SKIP_REDSHIFT := SKIP_REDSHIFT s |}.
Definition set_skip_redshift (s : settings) : settings :=
  {| S3_BUCKET := S3_BUCKET s; REDSHIFT_HOST := REDSHIFT_HOST s;
     REDSHIFT_DB := REDSHIFT_DB s; REDSHIFT_USER := REDSHIFT_USER s;
     REDSHIFT_PASSWORD := REDSHIFT_PASSWORD s; IAM_ROLE := IAM_ROLE s;
     SKIP_GENERATE := SKIP_GENERATE s; SKIP_UPLOAD := SKIP_UPLOAD s;
     SKIP_REDSHIFT := true |}.

(** How the argument parser ends: with the settings, with [exit 1], or not
    at all. *)
Inductive parsed : Type :=
  | Parsed (s : settings)
  | Exit (message : string)
  | Hang.

(** Lines 42-77, the [while [ "$#" -gt 0 ]] loop.  An option that takes a
    value does [VAR="$2"; shift 2]; when it is the last word, [shift 2]
    fails and shifts nothing, so the loop sees the same word for ever. *)
Fixpoint parse_options (args : list string) (s : settings) : parsed :=
  match args with
  | [] => Parsed s
  | opt :: rest =>
      if String.eqb opt "--database" then
        match rest with
        | v :: rest' => parse_options rest' (set_db v s)
        | [] => Hang
        end
      else if String.eqb opt "--user" then
        match rest with
        | v :: rest' => parse_options rest' (set_user v s)
        | [] => Hang
        end
      else if String.eqb opt "--password" then
        match rest with
        | v :: rest' => parse_options rest' (set_password v s)
        | [] => Hang
        end
      else if String.eqb opt "--iam-role" then
        match rest with
        | v :: rest' => parse_options rest' (set_iam_role v s)
        | [] => Hang
        end
      else if String.eqb opt "--skip-generate" then
        parse_options rest (set_skip_generate s)
      else if String.eqb opt "--skip-upload" then
        parse_options rest (set_skip_upload s)
      else if String.eqb opt "--skip-redshift" then
        parse_options rest (set_skip_redshift s)
      else Exit ("Unknown option: " +:+ opt)
  end.

(** Lines 9-77. *)
Definition parse_arguments (args : list string) : parsed :=
  match args with
  | bucket :: host :: options => parse_options options (defaults bucket host)
  | _ => Exit "Usage: <s3-bucket-name> <redshift-host> [additional options]"
  end.

(** A CSV file, by the table it was written for. *)
Inductive csv : Type :=
  | BooksCsv (rows : list dim_book.row)
  | SalesCsv (rows : list fact_sales.row).

(** What the script works on: the two files under [data/], the objects of
    the bucket, and the two tables of the warehouse when they exist. *)
Record world : Type := {
  books_file : option csv;
  sales_file : option csv;
  bucket : gmap string csv;
  warehouse : option database
}.

Definition with_files (b s : option csv) (w : world) : world :=
  {| books_file := b; sales_file := s; bucket := bucket w;
     warehouse := warehouse w |}.
Definition with_bucket (o : gmap string csv) (w : world) : world :=
  {| books_file := books_file w; sales_file := sales_file w; bucket := o;
     warehouse := warehouse w |}.
Definition with_warehouse (d : option database) (w : world) : world :=
  {| books_file := books_file w; sales_file := sales_file w;
     bucket := bucket w; warehouse := d |}.

(** How a run of the generator ends: it wrote both files, or it died and
    left the files in some state. *)
Inductive generation : Type :=
  | Wrote (books : list dim_book.row) (sales : list fact_sales.row)
  | Died (books_left sales_left : option csv).

(** Everything the script cannot decide by itself: the tools installed, the
    password typed at the prompt, what the random generator writes, the
    date when a phase runs, and which calls to S3 and Redshift succeed. *)
Record environment : Type := {
  has_python : bool;
  has_pip : bool;
  typed_password : string;
  generated : generation;
  upload_date : string;
  load_date : string;
  upload_books_ok : bool;
  upload_sales_ok : bool;
  schema_ok : bool;
  connect_ok : bool;
  head_books_ok : bool;
  head_sales_ok : bool;
  copy_books_ok : bool;
  copy_sales_ok : bool
}.

(** The steps of the script that act on the outside world, logged when
    they are attempted. *)
Inductive step : Type :=
  | Generate
  | UploadBooks
  | UploadSales
  | RecreateTables
  | CopyBooks
  | CopySales.

#[global] Instance step_eq_dec : EqDecision step.
Proof. solve_decision. Defined.

(** Lines 98-263, the generator as the script sees it. *)
Definition generate (e : environment) (w : world) : world :=
  match generated e with
  | Wrote books sales =>
      with_files (Some (BooksCsv books)) (Some (SalesCsv sales)) w
  | Died books_left sales_left => with_files books_left sales_left w
  end.

(** [upload_to_s3]: the object is written when the upload succeeds; a
    failure is printed and nothing else happens. *)
Definition upload_to_s3 (ok : bool) (key : string) (file : csv) (w : world)
  : world :=
  if ok then with_bucket (<[key := file]> (bucket w)) w else w.

Definition books_key (today : string) : string :=
  "books/" +:+ today +:+ "/books.csv".
Definition sales_key (today : string) : string :=
  "sales/" +:+ today +:+ "/sales.csv".

(** Lines 310-322: a file is uploaded when it exists, and reported as not
    found otherwise. *)
Definition upload_file (file : option csv) (what : step) (ok : bool)
    (key : string) (w : world) : list step * world :=
  match file with
  | Some f => ([what], upload_to_s3 ok key f w)
  | None => ([], w)
  end.

(** Lines 266-326: the books file, then the sales file. *)
Definition upload (e : environment) (w : world) : list step * world :=
  let '(t1, w) :=
    upload_file (books_file w) UploadBooks (upload_books_ok e)
      (books_key (upload_date e)) w in
  let '(t2, w) :=
    upload_file (sales_file w) UploadSales (upload_sales_ok e)
      (sales_key (upload_date e)) w in
  (t1 ++ t2, w).

(** Lines 331-450: the schema script.  When it fails its own [exit(1)] ends
    the Python process only. *)
Definition create_schema (e : environment) (w : world) : world :=
  if schema_ok e
  then with_warehouse (Some {| dim_book := []; fact_sales := [] |}) w
  else w.

(** [load_data_to_redshift]: the object must answer [head_object], then the
    [COPY] appends its rows to the table; every failure returns [False] and
    nothing else happens. *)
Definition load_books (e : environment) (w : world) : list step * world :=
  match bucket w !! books_key (load_date e) with
  | Some file =>
      if head_books_ok e then
        ([CopyBooks],
         match file, warehouse w with
         | BooksCsv rows, Some db =>
             if copy_books_ok e
             then with_warehouse (Some (copy_dim_book rows db)) w else w
         | _, _ => w
         end)
      else ([], w)
  | None => ([], w)
  end.

Definition load_sales (e : environment) (w : world) : list step * world :=
  match bucket w !! sales_key (load_date e) with
  | Some file =>
      if head_sales_ok e then
        ([CopySales],
         match file, warehouse w with
         | SalesCsv rows, Some db =>
             if copy_sales_ok e
             then with_warehouse (Some (copy_fact_sales rows db)) w else w
         | _, _ => w
         end)
      else ([], w)
  | None => ([], w)
  end.

(** Lines 453-555: the load script ends at once when it cannot connect. *)
Definition load (e : environment) (w : world) : list step * world :=
  if connect_ok e then
    let '(t1, w) := load_books e w in
    let '(t2, w) := load_sales e w in
    (t1 ++ t2, w)
  else ([], w).

(** How a run of the script ends. *)
Inductive ending : Type :=
  | Completed
  | Exited (message : string)
  | Hung.

(** Lines 79-91: the password prompt and the IAM role check. *)
Definition check_credentials (e : environment) (s : settings)
  : settings + string :=
  let s := if negb (SKIP_REDSHIFT s) && String.eqb (REDSHIFT_PASSWORD s) ""
           then set_password (typed_password e) s else s in
  if negb (SKIP_REDSHIFT s) && String.eqb (IAM_ROLE s) ""
  then inr "Error: IAM role ARN is required for loading data to Redshift."
  else inl s.

(** Lines 97-556: the three phases, each behind its [--skip-...] flag and
    none of them looking at how the one before ended. *)
Definition phases (s : settings) (e : environment) (w : world)
  : list step * world :=
  let '(t1, w) :=
    if SKIP_GENERATE s then ([], w) else ([Generate], generate e w) in
  let '(t2, w) := if SKIP_UPLOAD s then ([], w) else upload e w in
  let '(t3, w) :=
    if SKIP_REDSHIFT s then ([], w)
    else let w := create_schema e w in
         let '(t, w) := load e w in
         (RecreateTables :: t, w) in
  (t1 ++ t2 ++ t3, w).

(** The whole script. *)
Definition run (args : list string) (e : environment) (w : world)
  : ending * list step * world :=
  if negb (has_python e) then
    (Exited "Python is required but not installed. Aborting.", [], w)
  else if negb (has_pip e) then
    (Exited "pip is required but not installed. Aborting.", [], w)
  else
    match parse_arguments args with
    | Exit message => (Exited message, [], w)
    | Hang => (Hung, [], w)
    | Parsed s =>
        match check_credentials e s with
        | inr message => (Exited message, [], w)
        | inl s =>
            let '(trace, w) := phases s e w in
            (Completed, trace, w)
        end
    end.

End Loader.

(** ** The synthetic data generator (setup_analytics_data.sh, lines 100-262) *)

Module Generator.

(** *** Python's [Decimal] *)

(** A finite decimal: [coefficient * 10 ^ exponent]. *)
Record decimal : Type := { coefficient : Z; exponent : Z }.

Definition of_int (n : Z) : decimal := {| coefficient := n; exponent := 0 |}.

(** The precision of the default context. *)
Definition prec : Z := 28.

(** The number of decimal digits of a positive integer. *)
Fixpoint digits_aux (fuel : nat) (n : Z) : Z :=
  match fuel with
  | O => 0
  | S fuel' => if (n <? 10)%Z then 1 else (1 + digits_aux fuel' (n / 10))%Z
  end.

Definition digits (n : Z) : Z :=
  digits_aux (S (Z.to_nat (Z.log2 (Z.abs n)))) (Z.abs n).

(** [n / d] rounded to the nearest integer, ties going to the even one
    ([ROUND_HALF_EVEN], the rounding of the default context), for [d > 0]. *)
Definition round_half_even (n d : Z) : Z :=
  let q := (n / d)%Z in
  let r := (n mod d)%Z in
  if (2 * r <? d)%Z then q
  else if (d <? 2 * r)%Z then (q + 1)%Z
  else if Z.even q then q else (q + 1)%Z.

(** The rounding applied to the exact result of every arithmetic
    operation: a coefficient of more than [prec] digits is rounded to
    [prec] digits; should that carry into one digit more, the last digit,
    a zero, is dropped. *)
Definition context_round (a : decimal) : decimal :=
  let n := digits (coefficient a) in
  if (n <=? prec)%Z then a
  else
    let shift := (n - prec)%Z in
    let c := round_half_even (coefficient a) (10 ^ shift) in
    if (prec <? digits c)%Z
    then {| coefficient := (c / 10)%Z; exponent := (exponent a + shift + 1)%Z |}
    else {| coefficient := c; exponent := (exponent a + shift)%Z |}.

(** [a * b] *)
Definition mul (a b : decimal) : decimal :=
  context_round
    {| coefficient := (coefficient a * coefficient b)%Z;
       exponent := (exponent a + exponent b)%Z |}.

(** [a - b]: the exact difference at the smaller exponent, then rounded. *)
Definition sub (a b : decimal) : decimal :=
  let m := Z.min (exponent a) (exponent b) in
  context_round
    {| coefficient :=
         (coefficient a * 10 ^ (exponent a - m)
          - coefficient b * 10 ^ (exponent b - m))%Z;
       exponent := m |}.

(** [round(a, 2)], that is [a.quantize(Decimal('0.01'))]: the result in
    hundredths (cents). *)
Definition round2 (a : decimal) : Z :=
  if (-2 <=? exponent a)%Z
  then (coefficient a * 10 ^ (exponent a + 2))%Z
  else round_half_even (coefficient a) (10 ^ (- 2 - exponent a)).

(** [a <= b], compared at the smaller exponent. *)
Definition le (a b : decimal) : Prop :=
  let m := Z.min (exponent a) (exponent b) in
  (coefficient a * 10 ^ (exponent a - m)
   ≤ coefficient b * 10 ^ (exponent b - m))%Z.

(** An amount of money: a decimal with two places, counted in cents. *)
Definition cents (c : Z) : decimal := {| coefficient := c; exponent := -2 |}.

(** *** Constants *)

Definition NUM_BOOKS : Z := 500.
Definition NUM_SALES : Z := 10000.

Definition book_genres : list string :=
  ["Fiction"; "Science Fiction"; "Fantasy"; "Mystery"; "Thriller";
   "Romance"; "Western"; "Dystopian"; "Contemporary"; "Historical Fiction";
   "Horror"; "Young Adult"; "Children's"; "Biography"; "Autobiography";
   "Memoir"; "Cooking"; "Art"; "Self-help"; "Development";
   "Motivational"; "Health"; "History"; "Travel"; "Guide";
   "Science"; "Math"; "Religion"; "Spirituality"; "True Crime";
   "Humor"; "Essay"; "Parenting"; "Relationships"; "Technology";
   "Business"; "Economics"; "Philosophy"; "Psychology"; "Politics"].

Definition regions : list string :=
  ["North America"; "South America"; "Europe"; "Asia"; "Africa";
   "Australia"; "Middle East"; "Caribbean"; "Central America"; "Pacific"].

Definition float_4_99 : decimal :=
  {| coefficient := 49900000000000002131628207280300557613372802734375;
     exponent := -49 |}.
Definition float_59_99 : decimal :=
  {| coefficient := 5999000000000000198951966012828052043914794921875;
     exponent := -47 |}.
Definition float_0_3 : Q := 5404319552844595 # 18014398509481984.

(** *** Random draws *)

(** [random.choice(seq)] is [seq[i]] for a drawn index [i]. *)
Definition choice {A} (seq : list A) (i : nat) : option A := seq !! i.

(** [bisect(cum_weights, x, 0, hi)]: the number of the first [hi] cumulated
    weights that are not above [x]. *)
Fixpoint bisect (cum_weights : list Z) (x : Q) : nat :=
  match cum_weights with
  | [] => 0
  | c :: rest =>
      if Qle_bool (inject_Z c) x then S (bisect rest x) else 0
  end.

(** The integer nearest to a rational that is not negative, a tie going
    to the even neighbour. *)
Definition nearest_even (x : Q) : Z :=
  let n := Qnum x in
  let d := Zpos (Qden x) in
  let q := (n / d)%Z in
  let r := (n mod d)%Z in
  if (2 * r <? d)%Z then q
  else if (d <? 2 * r)%Z then (q + 1)%Z
  else if Z.even q then q else (q + 1)%Z.

(** The double nearest to a rational: 53 significant bits, ties to even.
    The values rounded here lie between [2 ^ -53] and 100, far from the
    subnormal numbers and from overflow; zero is itself. *)
Definition to_double (x : Q) : Q :=
  if Qle_bool x 0 then x
  else
    let l := (Z.log2 (Qnum x) - Z.log2 (Zpos (Qden x)))%Z in
    let floor_log2 := if Qle_bool (2 ^ l) x then l else (l - 1)%Z in
    let e := (floor_log2 - 52)%Z in
    (inject_Z (nearest_even (x / 2 ^ e)) * 2 ^ e)%Q.

(** [a * b] on doubles. *)
Definition float_mul (a b : Q) : Q := to_double (a * b).

(** [random.choices(population, weights=weights)[0]] for a drawn
    [random()] value [r]:
<<
    cum_weights = list(accumulate(weights))
    total = cum_weights[-1] + 0.0
    hi = n - 1
    population[bisect(cum_weights, random() * total, 0, hi)]
>>
    The product is a product of doubles, so it is rounded before the
    cumulated weights, all but the last, are searched for it. *)
Definition choices {A} (population : list A) (weights : list Z) (r : Q)
  : option A :=
  let cum_weights :=
    snd (fold_left (λ '(acc, l) w, ((acc + w)%Z, l ++ [(acc + w)%Z]))
           weights (0%Z, [])) in
  let total := default 0%Z (last cum_weights) in
  let hi := (length population - 1)%nat in
  population !! bisect (take hi cum_weights) (float_mul r (inject_Z total)).

(** [uuid.uuid4()]: sixteen random bytes with the variant and version bits
    forced, as a 128-bit integer. *)
Definition uuid4 (random_bits : Z) : Z :=
  let int := Z.land random_bits (Z.lnot (Z.shiftl 0xc000 48)) in
  let int := Z.lor int (Z.shiftl 0x8000 48) in
  let int := Z.land int (Z.lnot (Z.shiftl 0xf000 64)) in
  Z.lor int (Z.shiftl 4 76).

Definition hex_digit (d : Z) : ascii :=
  default "0"%char
    (String.get (Z.to_nat d) "0123456789abcdef").

(** The lowest [n] hexadecimal digits of [z], most significant first. *)
Fixpoint hex (n : nat) (z : Z) : string :=
  match n with
  | O => ""
  | S n' => hex n' (z / 16) +:+ String (hex_digit (z mod 16)) ""
  end.

(** [str(uuid)]: the 32 hexadecimal digits in groups of 8-4-4-4-12. *)
Definition uuid_str (int : Z) : string :=
  let h := hex 32 int in
  String.substring 0 8 h +:+ "-" +:+ String.substring 8 4 h +:+ "-"
  +:+ String.substring 12 4 h +:+ "-" +:+ String.substring 16 4 h +:+ "-"
  +:+ String.substring 20 12 h.

(** *** Books *)

Record book : Type := {
  book_id : Z;
  title : string;
  author : string;
  isbn : string;
  published_date : string;
  publisher : string;
  genre : string;
  price : Z
}.

(** What the random sources deliver for one book.  The strings come from
    Faker; [price_draw] is the exact value of
    [random.uniform(4.99, 59.99)]. *)
Record book_draws : Type := {
  title_draw : string;
  author_draw : string;
  isbn_digits : list Z;
  published_draw : string;
  publisher_draw : string;
  genre_index : nat;
  price_draw : decimal
}.

(** [generate_isbn13]: twelve digits and their sum modulo 10. *)
Definition generate_isbn13 (digits12 : list Z) : string :=
  let checksum := (foldr Z.add 0 digits12 mod 10)%Z in
  String.concat "" (pretty <$> (digits12 ++ [checksum])).

(** One turn of the loop over [book_ids]. *)
Definition generate_book (id : Z) (d : book_draws) : option book :=
  g ← choice book_genres (genre_index d);
  Some {| book_id := id;
          title := title_draw d;
          author := author_draw d;
          isbn := generate_isbn13 (isbn_digits d);
          published_date := published_draw d;
          publisher := publisher_draw d;
          genre := g;
          price := round2 (price_draw d) |}.

(** The loop over [book_ids = list(range(1, NUM_BOOKS + 1))]. *)
Fixpoint generate_books (id : Z) (draws : list book_draws)
  : option (list book) :=
  match draws with
  | [] => Some []
  | d :: rest =>
      b ← generate_book id d;
      bs ← generate_books (id + 1) rest;
      Some (b :: bs)
  end.

(** *** Sales *)

(** Times are whole seconds; [sale_date] is written with
    [strftime('%Y-%m-%d %H:%M:%S')]. *)
Record sale : Type := {
  sale_id : Z;
  sale_book_id : Z;
  quantity : Z;
  sale_date : Z;
  customer_id : string;
  region : string;
  sale_amount : Z
}.

(** What the random sources deliver for one sale: the index of the book,
    the [random()] value behind the quantity, the time Faker picks, the
    sixteen bytes of the UUID, the index of the region, the [random()]
    value compared with 0.3, and the exact value of
    [random.uniform(0.1, 0.4)]. *)
Record sale_draws : Type := {
  book_index : nat;
  quantity_roll : Q;
  date_draw : Z;
  uuid_bits : Z;
  region_index : nat;
  discount_roll : Q;
  discount_draw : decimal
}.



(** The amount of a sale:
<<
    if random.random() < 0.3:
        discount = Decimal(random.uniform(0.1, 0.4))
        sale_amount = round(Decimal(book['price']) * quantity * (1 - discount), 2)
    else:
        sale_amount = round(Decimal(book['price']) * quantity, 2)
>> *)
Definition compute_sale_amount (price quantity : Z) (d : sale_draws) : Z :=
  if Qle_bool float_0_3 (discount_roll d)
  then round2 (mul (cents price) (of_int quantity))
  else
    let discount := discount_draw d in
    round2 (mul (mul (cents price) (of_int quantity))
              (sub (of_int 1) discount)).

(** One turn of the loop over [range(1, NUM_SALES + 1)]. *)
Definition generate_sale (books : list book) (id : Z) (d : sale_draws)
  : option sale :=
  b ← choice books (book_index d);
  q ← choices [1; 2; 3; 4; 5]%Z [70; 15; 10; 3; 2]%Z (quantity_roll d);
  r ← choice regions (region_index d);
  Some {| sale_id := id;
          sale_book_id := book_id b;
          quantity := q;
          sale_date := date_draw d;
          customer_id := uuid_str (uuid4 (uuid_bits d));
          region := r;
          sale_amount := compute_sale_amount (price b) q d |}.

Fixpoint generate_sales (books : list book) (id : Z)
    (draws : list sale_draws) : option (list sale) :=
  match draws with
  | [] => Some []
  | d :: rest =>
      s ← generate_sale books id d;
      ss ← generate_sales books (id + 1) rest;
      Some (s :: ss)
  end.

End Generator.

(** ** The detail pages and the settings page *)

Module Details.
Import JS Axios Services Pages.

(** [data.map((entry, index) => <Cell fill={COLORS[index % COLORS.length]} />)],
    evaluated every time a detail page renders: one colour index per row.
    Only arrays have [map]; on any other value the call throws while the
    page renders. *)
Definition cells (data : value) : completion (list (option nat)) :=
  match data with
  | VArr es _ =>
      Normal (imap (λ index _, cellColorIndex DETAIL_COLORS index) es)
  | VUndef | VNull =>
      Throw (TypeError "Cannot read properties of null or undefined: map")
  | _ => Throw (TypeError "map is not a function")
  end.

(** [pages/SalesByRegion.jsx] *)
Module SalesByRegion.

Record state : Type := {
  timeRange : Z;
  loading : bool;
  error : option string;
  regionData : value
}.

Definition initial : state :=
  {| timeRange := 30; loading := true; error := None; regionData := arr [] |}.

(** [fetchData], the body of the effect (lines 32-44). *)
Definition fetchData (s : state) : M state :=
  let s := {| timeRange := timeRange s; loading := true; error := error s;
              regionData := regionData s |} in
  let* s :=
    try_catch
      (let* data := analyticsService.getSalesByRegion (num (timeRange s)) in
       ret {| timeRange := timeRange s; loading := loading s; error := None;
              regionData := data |})
      (λ err,
         console_error "Error fetching region data:" err ;;
         ret {| timeRange := timeRange s; loading := loading s;
                error := Some "Failed to fetch sales by region data. Please try again later.";
                regionData := regionData s |}) in
  ret {| timeRange := timeRange s; loading := false; error := error s;
         regionData := regionData s |}.

Definition mount : M state := fetchData initial.

(** The effect depends on [[timeRange]]. *)
Definition selectRange (v : Z) (s : state) : M state :=
  if (timeRange s =? v)%Z then ret s
  else fetchData {| timeRange := v; loading := loading s; error := error s;
                    regionData := regionData s |}.

End SalesByRegion.

(** [pages/TopBooks.jsx] *)
Module TopBooks.

Record state : Type := {
  timeRange : Z;
  limit : Z;
  loading : bool;
  error : option string;
  books : value
}.

Definition initial : state :=
  {| timeRange := 30; limit := 10; loading := true; error := None;
     books := arr [] |}.

(** The options of the second selector. *)
Definition limits : list (Z * string) :=
  [(5, "Top 5"); (10, "Top 10"); (20, "Top 20"); (50, "Top 50")]%Z.

(** [fetchData], the body of the effect (lines 211-223 of the page). *)
Definition fetchData (s : state) : M state :=
  let s := {| timeRange := timeRange s; limit := limit s; loading := true;
              error := error s; books := books s |} in
  let* s :=
    try_catch
      (let* data :=
         analyticsService.getTopBooks (num (limit s)) (num (timeRange s)) in
       ret {| timeRange := timeRange s; limit := limit s;
              loading := loading s; error := None; books := data |})
      (λ err,
         console_error "Error fetching top books:" err ;;
         ret {| timeRange := timeRange s; limit := limit s;
                loading := loading s;
                error := Some "Failed to fetch top books data. Please try again later.";
                books := books s |}) in
  ret {| timeRange := timeRange s; limit := limit s; loading := false;
         error := error s; books := books s |}.

Definition mount : M state := fetchData initial.

(** The effect depends on [[timeRange, limit]]. *)
Definition selectRange (v : Z) (s : state) : M state :=
  if (timeRange s =? v)%Z then ret s
  else fetchData {| timeRange := v; limit := limit s; loading := loading s;
                    error := error s; books := books s |}.

Definition selectLimit (v : Z) (s : state) : M state :=
  if (limit s =? v)%Z then ret s
  else fetchData {| timeRange := timeRange s; limit := v;
                    loading := loading s; error := error s;
                    books := books s |}.

End TopBooks.

(** [pages/SalesByGenre.jsx] *)
Module SalesByGenre.

Record state : Type := {
  timeRange : Z;
  loading : bool;
  error : option string;
  genreData : value
}.

Definition initial : state :=
  {| timeRange := 30; loading := true; error := None; genreData := arr [] |}.

(** [fetchData], the body of the effect (lines 32-44). *)
Definition fetchData (s : state) : M state :=
  let s := {| timeRange := timeRange s; loading := true; error := error s;
              genreData := genreData s |} in
  let* s :=
    try_catch
      (let* data := analyticsService.getSalesByGenre (num (timeRange s)) in
       ret {| timeRange := timeRange s; loading := loading s; error := None;
              genreData := data |})
      (λ err,
         console_error "Error fetching genre data:" err ;;
         ret {| timeRange := timeRange s; loading := loading s;
                error := Some "Failed to fetch sales by genre data. Please try again later.";
                genreData := genreData s |}) in
  ret {| timeRange := timeRange s; loading := false; error := error s;
         genreData := genreData s |}.

Definition mount : M state := fetchData initial.

Definition selectRange (v : Z) (s : state) : M state :=
  if (timeRange s =? v)%Z then ret s
  else fetchData {| timeRange := v; loading := loading s; error := error s;
                    genreData := genreData s |}.

End SalesByGenre.

(** [pages/Settings.jsx] *)
Module Settings.

(** [formState] is an object with the fields [numBooks], [numSales] and
    [skipRedshift]; [result] is the body of the last answer, or [null]. *)
Record state : Type := {
  loading : bool;
  result : value;
  error : option string;
  formState : gmap string value
}.

Definition initial : state :=
  {| loading := false; result := VNull; error := None;
     formState := {[ "numBooks" := num 500; "numSales" := num 10000;
                     "skipRedshift" := VBool false ]} |}.

(** What [e.target] offers to [handleInputChange]. *)
Record target : Type := {
  name : string;
  value_ : string;
  type : string;
  checked : bool
}.

Section Form.
Variable string_to_number : string → jsnum.

(** [handleInputChange]:
<<
    setFormState(prev => ({ ...prev,
      [name]: type === 'checkbox' ? checked : Number(value) }));
>> *)
Definition handleInputChange (t : target) (s : state) : state :=
  {| loading := loading s; result := result s; error := error s;
     formState :=
       <[name t := if String.eqb (type t) "checkbox" then VBool (checked t)
                   else VNum (string_to_number (value_ t))]> (formState s) |}.
End Form.

(** [handleGenerateData], lines 26-45. *)
Definition handleGenerateData (s : state) : M state :=
  let s := {| loading := true; result := VNull; error := None;
              formState := formState s |} in
  let field k := default VUndef (formState s !! k) in
  let* s :=
    try_catch
      (let* data :=
         analyticsService.generateTestData (field "numBooks")
           (field "numSales") (field "skipRedshift") in
       ret {| loading := loading s; result := data; error := error s;
              formState := formState s |})
      (λ err,
         console_error "Error generating test data:" err ;;
         ret {| loading := loading s; result := result s;
                error := Some "Failed to generate test data. Please check your configuration and try again.";
                formState := formState s |}) in
  ret {| loading := false; result := result s; error := error s;
         formState := formState s |}.

End Settings.

End Details.

(** ** Labels of the charts *)

Module Labels.

(** JS strings are sequences of code units; a character of a [string]
    stands for one code unit here. *)

(** [value.length > n ? `${value.substring(0, n)}...` : value] on a
    string. *)
Definition ellipsis (n : nat) (s : string) : string :=
  if (n <? String.length s)%nat then String.substring 0 n s +:+ "..."
  else s.

(** The title axis of the top-books chart of both dashboards, for a title
    that is a string, or [None] for [null] and [undefined]:
<<
    (value) => value && value.length > 20
      ? `${value.substring(0, 20)}...` : value || ''
>> *)
Definition dashboardTitleTick (title : option string) : string :=
  match title with
  | Some s => if String.eqb s "" then "" else ellipsis 20 s
  | None => ""
  end.

(** The title axis of [pages/TopBooks.jsx]:
    [(value) => value.length > 25 ? `${value.substring(0, 25)}...` : value] *)
Definition topBooksTitleTick (title : option string)
  : JS.completion string :=
  match title with
  | Some s => JS.Normal (ellipsis 25 s)
  | None =>
      JS.Throw
        (JS.TypeError "Cannot read properties of null or undefined: length")
  end.

(** The genre axis of [pages/SalesByGenre.jsx]:
    [(value) => value.length > 15 ? `${value.substring(0, 15)}...` : value] *)
Definition genreTick (genre : option string) : JS.completion string :=
  match genre with
  | Some s => JS.Normal (ellipsis 15 s)
  | None =>
      JS.Throw
        (JS.TypeError "Cannot read properties of null or undefined: length")
  end.

(** *** Dates of the optimized dashboard *)

Fixpoint drop_chars (n : nat) (s : string) : string :=
  match n, s with
  | S n', String _ s' => drop_chars n' s'
  | _, _ => s
  end.

(** The text before and the text after the first occurrence of a
    separator that is not empty. *)
Fixpoint cut (sep s : string) : option (string * string) :=
  if String.prefix sep s then Some ("", drop_chars (String.length sep) s)
  else match s with
       | "" => None
       | String c s' =>
           match cut sep s' with
           | Some (before, after) => Some (String c before, after)
           | None => None
           end
       end.

(** [s.includes(sep)] *)
Definition includes (sep s : string) : bool :=
  match cut sep s with
  | Some _ => true
  | None => false
  end.

(** [s.split(sep)], for a separator that is not empty.  Every cut takes at
    least one character away, so there are at most as many cuts as
    characters. *)
Fixpoint split_upto (n : nat) (sep s : string) : list string :=
  match n with
  | O => [s]
  | S n' =>
      match cut sep s with
      | Some (before, after) => before :: split_upto n' sep after
      | None => [s]
      end
  end.

Definition split (sep s : string) : list string :=
  split_upto (String.length s) sep s.

(** An element of an array inside a template literal. *)
Definition interpolate (parts : list string) (i : nat) : string :=
  default "undefined" (parts !! i).

Section Dates.
(** What the runtime prints for dates, in the locale of the browser:
    [new Date(year, month - 1).toLocaleDateString(undefined, options)] with
    the month written in full or in short, from the first two parts of the
    split date; [new Date(date).toLocaleDateString()]; and
    [`${d.getMonth()+1}/${d.getDate()}`] for [d = new Date(date)]. *)
Variable month_label : bool → option string → option string → string.
Variable locale_date : string → string.
Variable month_and_day : string → string.

(** [formatTooltipDate] on a string (lines 107-127). *)
Definition formatTooltipDate (date : string) : string :=
  if includes "-Q" date then
    "Q" +:+ interpolate (split "-Q" date) 1 +:+ " "
    +:+ interpolate (split "-Q" date) 0
  else if (String.length date =? 7)%nat then
    month_label true (split "-" date !! 0%nat) (split "-" date !! 1%nat)
  else if (String.length date =? 4)%nat then date
  else locale_date date.

(** [formatXAxisTick] on a string (lines 130-151). *)
Definition formatXAxisTick (date : string) : string :=
  if includes "-Q" date then "Q" +:+ interpolate (split "-Q" date) 1
  else if (String.length date =? 7)%nat then
    month_label false (split "-" date !! 0%nat) (split "-" date !! 1%nat)
  else if (String.length date =? 4)%nat then date
  else month_and_day date.
End Dates.

End Labels.

(* ===================================================================== *)
(** * Vocabulary of the properties                                        *)
(* ===================================================================== *)

(** Definitions used to state the properties of Part II: the words of the
    specification, written as functions and predicates. *)

Module Spec.
Import JS Axios Services Pages.

(** A field of the body that the normalisation indexes: an array with its
    elements, or a field that is missing ([undefined]) or [null]. *)
Definition field_is (timeSeries : value) (k : string)
    (f : option (list value)) : Prop :=
  match f with
  | Some es => ∃ p, get_own timeSeries k = VArr es p
  | None => is_nullish (get_own timeSeries k) = true
  end.

(** The i-th element of a field, with 0 in the place of an element that is
    missing or falsy. *)
Definition element_or_zero (f : option (list value)) (i : nat) : value :=
  match f ≫= (λ es, es !! i) with
  | Some v => if to_boolean v then v else num 0
  | None => num 0
  end.

(** The i-th element of a field as it stands, with 0 only where there is
    no element. *)
Definition element_as_is (f : option (list value)) (i : nat) : value :=
  match f ≫= (λ es, es !! i) with
  | Some v => v
  | None => num 0
  end.

(** A body whose [revenue] array holds an element that is present but
    falsy. *)
Definition falsy_revenue_body : value :=
  obj [("period", arr [VStr "2024-01-01"]); ("revenue", arr [VStr ""]);
       ("books_sold", arr [num 3]); ("num_sales", arr [num 1])].

(** *** The client wrappers *)

(** The world after [console.error(message, error)]. *)
Definition logged (message : string) (error : value) (w : world) : world :=
  {| localStorage := localStorage w; now := now w; network := network w;
     sent := sent w; console := console w ++ [(message, error)] |}.

(** The world once the request [c] is on the wire and its answer arrived at
    time [arrival]. *)
Definition answered (c : request_config) (arrival : Z) (w : world) : world :=
  {| localStorage := localStorage w; now := arrival; network := network w;
     sent := sent w ++ [c]; console := console w |}.

(** The message each operation logs when its request fails. *)
Definition label (op : operation) : string :=
  match op with
  | GetDashboardSummary => "Error fetching dashboard summary:"
  | GetSalesTimeSeries => "Error fetching sales time series:"
  | GetTopBooks => "Error fetching top books:"
  | GetSalesByRegion => "Error fetching sales by region:"
  | GetSalesByGenre => "Error fetching sales by genre:"
  | GenerateTestData => "Error generating test data:"
  end.

(** The five aggregates of the API surface and their operations. *)
Definition aggregate_operations : list operation :=
  [GetDashboardSummary; GetSalesTimeSeries; GetTopBooks; GetSalesByRegion;
   GetSalesByGenre].

(** The path each operation hands to axios, and the path axios requests
    once the base URL of the instance is put in front. *)
Definition route (i : instance) (op : operation) : string :=
  match op with
  | GetDashboardSummary => "/analytics/summary/"
  | GetSalesTimeSeries =>
      match i with
      | Optimized => "/analytics/optimized-timeseries/"
      | Plain => "/analytics/timeseries/"
      end
  | GetTopBooks => "/analytics/top-books/"
  | GetSalesByRegion => "/analytics/sales-by-region/"
  | GetSalesByGenre => "/analytics/sales-by-genre/"
  | GenerateTestData => "/analytics/generate-test-data/"
  end.

Definition endpoint (i : instance) (op : operation) : string :=
  "/api" +:+ route i op.

Definition default_interval (i : instance) : value :=
  match i with
  | Optimized => VStr "auto"
  | Plain => VStr "day"
  end.

(** An argument, or its default when the caller left it out. *)
Definition or_default (dflt : value) (args : list value) (n : nat) : value :=
  match args !! n with
  | None | Some VUndef => dflt
  | Some v => v
  end.

(** The query parameters each operation sends. *)
Definition query (i : instance) (op : operation) (args : list value)
  : gmap string value :=
  match op with
  | GetDashboardSummary | GenerateTestData => ∅
  | GetSalesTimeSeries =>
      {[ "interval" := or_default (default_interval i) args 0;
         "days" := or_default (num 30) args 1 ]}
  | GetTopBooks =>
      {[ "limit" := or_default (num 10) args 0;
         "days" := or_default (num 30) args 1 ]}
  | GetSalesByRegion | GetSalesByGenre =>
      {[ "days" := or_default (num 30) args 0 ]}
  end.

(** The request body each operation sends. *)
Definition payload_of (op : operation) (args : list value) : value :=
  match op with
  | GenerateTestData =>
      obj [("num_books", or_default (num 500) args 0);
           ("num_sales", or_default (num 10000) args 1);
           ("skip_redshift", or_default (VBool false) args 2)]
  | _ => VUndef
  end.

Definition verb (op : operation) : string :=
  match op with
  | GenerateTestData => "post"
  | _ => "get"
  end.

(** The configuration each operation hands to its axios instance. *)
Definition call_config (i : instance) (op : operation) (args : list value)
  : request_config :=
  {| method := verb op; baseURL := "/api";
     url := route i op;
     params := query i op args; body := payload_of op args;
     headers := {["Content-Type" := "application/json"]};
     timeout := instance_timeout i; metadata := None |}.

(** The [Authorization] header a request must carry for a given content of
    [localStorage]: the bearer token when a non-empty one is stored. *)
Definition bearer (storage : gmap string string) : option string :=
  match storage !! "authToken" with
  | Some token => if String.eqb token "" then None else Some ("Bearer " +:+ token)
  | None => None
  end.

(** Bodies on which the timing annotation can be written: objects and
    arrays. *)
Definition is_object (v : value) : bool :=
  match v with
  | VObj _ | VArr _ _ => true
  | _ => false
  end.

(** A storage that holds an empty token, and a world around it whose server
    answers every request with an empty 204 response one second later. *)
Definition empty_token_storage : gmap string string := {["authToken" := ""]}.

Definition quiet_world (storage : gmap string string) : world :=
  {| localStorage := storage; now := 1000;
     network := λ _ _, (2000%Z, Resolved 204 (VStr ""));
     sent := []; console := [] |}.

(** A body with the timing annotation written on it. *)
Definition annotate (elapsedTimeMs : Z) (v : value) : value :=
  match v with
  | VObj m => VObj (<["processing_info" := processing_info_of elapsedTimeMs]> m)
  | VArr es m =>
      VArr es (<["processing_info" := processing_info_of elapsedTimeMs]> m)
  | _ => v
  end.

(** A successful response with an object body that carries no timing
    information, for a request started at 400 ms. *)
Definition summary_response : response :=
  {| data := obj [("total_sales", num 5)]; status := 200;
     config := with_metadata (Some 400%Z)
                 (call_config Optimized GetDashboardSummary []) |}.

(** *** Requests of the dashboards *)

(** A GET request for a given path with a given query. *)
Definition is_request (c : request_config) (path : string)
    (q : gmap string value) : Prop :=
  method c = "get" ∧ full_path c = path ∧ params c = q.

(** A request that takes a [days] parameter carries the range [v]. *)
Definition days_is (v : Z) (c : request_config) : Prop :=
  ∀ d, params c !! "days" = Some d → d = num v.

(** *** Divisions of the pages *)

(** A genre row as the API delivers it. *)
Definition fiction_row : value :=
  obj [("genre", VStr "Fiction"); ("num_sales", num 3);
       ("books_sold", num 4); ("revenue", num 10)].

(** A genre row without any book sold. *)
Definition unsold_row : value :=
  obj [("genre", VStr "Poetry"); ("num_sales", num 0);
       ("books_sold", num 0); ("revenue", num 0)].

(** *** The aggregate views *)

(** The group filed under a key, if there is one. *)
Fixpoint group_of {K R} `{EqDecision K} (k : K) (groups : list (K * list R))
  : option (list R) :=
  match groups with
  | [] => None
  | (k', rs) :: groups' =>
      if decide (k = k') then Some rs else group_of k groups'
  end.

(** The sum of a list of integers. *)
Definition total (xs : list Z) : Z := foldr Z.add 0%Z xs.

(** The book a sale joins to: the row of [dim_book] with the book id of the
    sale, when the sale has one and the table has such a row. *)
Definition book_of (books : list Warehouse.dim_book.row)
    (s : Warehouse.fact_sales.row) : option Warehouse.dim_book.row :=
  match Warehouse.fact_sales.book_id s with
  | Some id =>
      head (filter (λ b, Warehouse.dim_book.book_id b = id) books)
  | None => None
  end.

(** A view holds, for each group key, the count and the sums over the
    rows of [sales] that fall under the key.  [key_of] says under which key
    a row falls, if under any: the join views leave out the sales without
    a book.  The view has one row per key under which some sale falls and
    no other row. *)
Definition aggregates_over {K} `{EqDecision K}
    (key_of : Warehouse.fact_sales.row → option K)
    (sales : list Warehouse.fact_sales.row)
    (view : list (Warehouse.aggregate K)) : Prop :=
  NoDup (Warehouse.key <$> view)
  ∧ ∀ a, a ∈ view ↔
      let subset := filter (λ s, key_of s = Some (Warehouse.key a)) sales in
      subset ≠ []
      ∧ Warehouse.num_sales a = Warehouse.COUNT subset
      ∧ Warehouse.total_quantity a =
          Warehouse.SUM Warehouse.fact_sales.quantity subset
      ∧ Warehouse.total_revenue a =
          Warehouse.SUM Warehouse.fact_sales.sale_amount subset.

(** A small warehouse: two books, four sales, one of them of a book that
    is not in [dim_book] and one without a region. *)
Definition demo_books : list Warehouse.dim_book.row :=
  [ {| Warehouse.dim_book.book_id := 1;
       Warehouse.dim_book.title := Some "Dune";
       Warehouse.dim_book.author := Some "Herbert";
       Warehouse.dim_book.isbn := None;
       Warehouse.dim_book.published_date := None;
       Warehouse.dim_book.publisher := None;
       Warehouse.dim_book.genre := Some "Science Fiction";
       Warehouse.dim_book.price := Some 999%Z |};
    {| Warehouse.dim_book.book_id := 2;
       Warehouse.dim_book.title := Some "Emma";
       Warehouse.dim_book.author := Some "Austen";
       Warehouse.dim_book.isbn := None;
       Warehouse.dim_book.published_date := None;
       Warehouse.dim_book.publisher := None;
       Warehouse.dim_book.genre := Some "Romance";
       Warehouse.dim_book.price := Some 550%Z |} ].

Definition demo_sale (id : Z) (book : Z) (qty : Z) (d : Z)
    (reg : option string) (amount : Z) : Warehouse.fact_sales.row :=
  {| Warehouse.fact_sales.sale_id := id;
     Warehouse.fact_sales.book_id := Some book;
     Warehouse.fact_sales.quantity := Some qty;
     Warehouse.fact_sales.sale_date :=
       Some {| Warehouse.on := {| Warehouse.year := 2024;
                                  Warehouse.month := 5;
                                  Warehouse.day := d |};
               Warehouse.seconds := 3600 |};
     Warehouse.fact_sales.customer_id := None;
     Warehouse.fact_sales.region := reg;
     Warehouse.fact_sales.sale_amount := Some amount |}.

Definition demo_sales : list Warehouse.fact_sales.row :=
  [ demo_sale 1 1 2 20 (Some "Europe") 1998;
    demo_sale 2 2 1 20 (Some "Asia") 550;
    demo_sale 3 1 1 21 (Some "Europe") 999;
    demo_sale 4 7 3 21 None 1200 ].

Definition demo_db : Warehouse.database :=
  {| Warehouse.dim_book := demo_books; Warehouse.fact_sales := demo_sales |}.

(** The small warehouse after both files were copied into it a second
    time without the tables being emptied in between: every row is there
    twice, [book_id] 1 and 2 included. *)
Definition reloaded_db : Warehouse.database :=
  {| Warehouse.dim_book := demo_books ++ demo_books;
     Warehouse.fact_sales := demo_sales ++ demo_sales |}.

(** *** The loader script *)


(** An environment in which every tool is installed and every call
    succeeds, on one and the same day. *)
Definition fair_weather (books : list Warehouse.dim_book.row)
    (sales : list Warehouse.fact_sales.row) : Loader.environment :=
  {| Loader.has_python := true; Loader.has_pip := true;
     Loader.typed_password := "secret";
     Loader.generated := Loader.Wrote books sales;
     Loader.upload_date := "2024/05/21"; Loader.load_date := "2024/05/21";
     Loader.upload_books_ok := true; Loader.upload_sales_ok := true;
     Loader.schema_ok := true; Loader.connect_ok := true;
     Loader.head_books_ok := true; Loader.head_sales_ok := true;
     Loader.copy_books_ok := true; Loader.copy_sales_ok := true |}.

(** A machine on which the script has never run. *)
Definition fresh_world : Loader.world :=
  {| Loader.books_file := None; Loader.sales_file := None;
     Loader.bucket := ∅; Loader.warehouse := None |}.

(** A warehouse that an earlier run has loaded with the demo rows. *)
Definition loaded_world : Loader.world :=
  {| Loader.books_file := Some (Loader.BooksCsv demo_books);
     Loader.sales_file := Some (Loader.SalesCsv demo_sales);
     Loader.bucket :=
       {[ Loader.books_key "2024/05/21" := Loader.BooksCsv demo_books;
          Loader.sales_key "2024/05/21" := Loader.SalesCsv demo_sales ]};
     Loader.warehouse := Some demo_db |}.

(** The same day, but the schema script fails (it cannot connect, or a
    statement is refused). *)
Definition schema_failure (books : list Warehouse.dim_book.row)
    (sales : list Warehouse.fact_sales.row) : Loader.environment :=
  {| Loader.has_python := true; Loader.has_pip := true;
     Loader.typed_password := "secret";
     Loader.generated := Loader.Wrote books sales;
     Loader.upload_date := "2024/05/21"; Loader.load_date := "2024/05/21";
     Loader.upload_books_ok := true; Loader.upload_sales_ok := true;
     Loader.schema_ok := false; Loader.connect_ok := true;
     Loader.head_books_ok := true; Loader.head_sales_ok := true;
     Loader.copy_books_ok := true; Loader.copy_sales_ok := true |}.

(** *** The generator *)

(** The value of a decimal in units of [10 ^ g], for [g] at or below its
    exponent. *)
Definition units (a : Generator.decimal) (g : Z) : Z :=
  (Generator.coefficient a * 10 ^ (Generator.exponent a - g))%Z.

(** What the random sources promise for one book: [random.uniform(4.99,
    59.99)] lies between its bounds, [random.choice] indexes its list. *)
Definition book_draws_ok (d : Generator.book_draws) : Prop :=
  (Generator.genre_index d < length Generator.book_genres)%nat
  ∧ Generator.le Generator.float_4_99 (Generator.price_draw d)
  ∧ Generator.le (Generator.price_draw d) Generator.float_59_99.


(** A book priced between $4.99 and $59.99. *)
Definition price_ok (b : Generator.book) : Prop :=
  (499 ≤ Generator.price b ≤ 5999)%Z.




(** One book, priced at the float 22.8, and two sales of it: the first
    with the discount that a run of the script drew, the second without. *)
Definition demo_book_draws : list Generator.book_draws :=
  [ {| Generator.title_draw := "The Road of Silence";
       Generator.author_draw := "A. Writer";
       Generator.isbn_digits := [9; 7; 8; 0; 1; 2; 3; 4; 5; 6; 7; 8]%Z;
       Generator.published_draw := "2015-03-14";
       Generator.publisher_draw := "Acme Press";
       Generator.genre_index := 1;
       Generator.price_draw :=
         {| Generator.coefficient :=
              22800000000000000710542735760100185871124267578125;
            Generator.exponent := -48 |} |} ].


Definition demo_sale_draw (roll : Q) (date : Z) : Generator.sale_draws :=
  {| Generator.book_index := 0;
     Generator.quantity_roll := 1 # 2;
     Generator.date_draw := date;
     Generator.uuid_bits := 5233100606242806050955395731361295;
     Generator.region_index := 2;
     Generator.discount_roll := roll;
     Generator.discount_draw :=
       {| Generator.coefficient :=
            29528034191195617896852354533621110022068023681640625;
          Generator.exponent := -53 |} |}.

Definition demo_sale_draws : list Generator.sale_draws :=
  [demo_sale_draw (1 # 10) 1690000000; demo_sale_draw (1 # 2) 1699999999].


(** *** The options of the script *)

(** The options that take a value, and the flags. *)
Definition value_options : list string :=
  ["--database"; "--user"; "--password"; "--iam-role"].
Definition flag_options : list string :=
  ["--skip-generate"; "--skip-upload"; "--skip-redshift"].

(** An environment in which the tools are installed and everything else
    fails: the generator dies at once, no upload, no connection. *)
Definition foul_weather : Loader.environment :=
  {| Loader.has_python := true; Loader.has_pip := true;
     Loader.typed_password := "";
     Loader.generated := Loader.Died None None;
     Loader.upload_date := "2024/05/21"; Loader.load_date := "2024/05/22";
     Loader.upload_books_ok := false; Loader.upload_sales_ok := false;
     Loader.schema_ok := false; Loader.connect_ok := false;
     Loader.head_books_ok := false; Loader.head_sales_ok := false;
     Loader.copy_books_ok := false; Loader.copy_sales_ok := false |}.

(** Fair weather, but the day changes between the upload and the load. *)
Definition over_midnight (books : list Warehouse.dim_book.row)
    (sales : list Warehouse.fact_sales.row) : Loader.environment :=
  {| Loader.has_python := true; Loader.has_pip := true;
     Loader.typed_password := "secret";
     Loader.generated := Loader.Wrote books sales;
     Loader.upload_date := "2024/05/21"; Loader.load_date := "2024/05/22";
     Loader.upload_books_ok := true; Loader.upload_sales_ok := true;
     Loader.schema_ok := true; Loader.connect_ok := true;
     Loader.head_books_ok := true; Loader.head_sales_ok := true;
     Loader.copy_books_ok := true; Loader.copy_sales_ok := true |}.

(** Settings with a role and no flag. *)
Definition load_settings : Loader.settings :=
  Loader.set_iam_role "arn:role" (Loader.defaults "my-bucket" "cluster").


(** *** Totals of the views *)

(** A nullable amount, null counting as nothing. *)
Definition known (x : option Z) : Z := default 0%Z x.

(** The amounts of a column that are not null. *)
Definition amounts {R} (column : R → option Z) (rows : list R) : list Z :=
  omap column rows.

(** The order of the rows of a view sorted by [total_revenue DESC]: no row
    before a row with a larger revenue, and no row with a revenue before a
    row whose revenue is null. *)
Definition ranked_by_revenue {K} (view : list (Warehouse.aggregate K))
  : Prop :=
  ∀ i j a b, (i < j)%nat → view !! i = Some a → view !! j = Some b →
    match Warehouse.total_revenue a, Warehouse.total_revenue b with
    | Some x, Some y => (y ≤ x)%Z
    | Some _, None => False
    | None, _ => True
    end.

(** The order of the rows of a view sorted by its date: no row before a
    row with an earlier date, and no row without a date before a row that
    has one. *)
Definition ranked_by_date
    (view : list (Warehouse.aggregate (option Warehouse.date))) : Prop :=
  ∀ i j a b, (i < j)%nat → view !! i = Some a → view !! j = Some b →
    match Warehouse.key a, Warehouse.key b with
    | Some x, Some y =>
        (Warehouse.year x < Warehouse.year y)%Z
        ∨ (Warehouse.year x = Warehouse.year y
           ∧ ((Warehouse.month x < Warehouse.month y)%Z
              ∨ (Warehouse.month x = Warehouse.month y
                 ∧ (Warehouse.day x ≤ Warehouse.day y)%Z)))
    | None, Some _ => False
    | _, None => True
    end.

(** The first day of the month of a date. *)
Definition first_of_month (d : Warehouse.date) : Warehouse.date :=
  {| Warehouse.year := Warehouse.year d; Warehouse.month := Warehouse.month d;
     Warehouse.day := 1 |}.


(** *** Books of the generator *)

(** What [random.randint(0, 9)], called twelve times, promises. *)
Definition isbn_draws_ok (ds : list Z) : Prop :=
  length ds = 12%nat ∧ Forall (λ d, 0 ≤ d ≤ 9)%Z ds.

(** The character of a decimal digit, and the text of a list of digits. *)
Definition digit_char (d : Z) : ascii := ascii_of_nat (48 + Z.to_nat d).
Definition digits_text (ds : list Z) : string :=
  string_of_list_ascii (digit_char <$> ds).


(** *** The performance check *)



(** *** Runs of the pages *)

(** The answer of the network to the request [c] of a run that started in
    the world [w], when the requests [before] of that run went out ahead
    of it. *)
Definition answer_to (w : world) (before : list request_config)
    (c : request_config) : net_outcome :=
  (network w (sent w ++ before) c).2.

(** What the plain wrapper makes of an answer: the body, or the error. *)
Definition settled (o : net_outcome) : completion value :=
  match o with
  | Resolved _ payload => Normal payload
  | Rejected e => Throw e
  end.

(** The bodies the timing interceptor of the optimized client lets
    through: those it leaves alone because they are falsy, and the objects
    and arrays, on which it can write. *)
Definition passes_timing (b : value) : Prop :=
  to_boolean b = false ∨ is_object b = true.

(** The time-series bodies the optimized dashboard can normalise: not
    [null] or [undefined], let through by the timing interceptor, and with
    a [period] that is an array or is missing or falsy. *)
Definition readable_series (b : value) : Prop :=
  is_nullish b = false
  ∧ passes_timing b
  ∧ (to_boolean (get_own b "period") = false
     ∨ ∃ es p, get_own b "period" = VArr es p).

(** The two messages of the dashboards. *)
Definition partial_message : string :=
  "Some dashboard data failed to load. You may see partial information.".
Definition failed_message : string :=
  "Failed to fetch dashboard data. Please try again later.".

(** A world without a server: every request is rejected. *)
Definition network_error : value := obj [("message", VStr "Network Error")].

Definition offline_world : world :=
  {| localStorage := ∅; now := 1000;
     network := λ _ _, (2000%Z, Rejected network_error);
     sent := []; console := [] |}.

(** A world whose server knows the summary and the time series only. *)
Definition late_failures_world : world :=
  {| localStorage := ∅; now := 1000;
     network := λ _ c,
       if String.eqb (url c) "/analytics/summary/"
          || String.eqb (url c) "/analytics/optimized-timeseries/"
       then (2000%Z, Resolved 200 (obj []))
       else (2000%Z, Rejected network_error);
     sent := []; console := [] |}.

(** A world whose server answers every request with the same body. *)
Definition echo_world (payload : value) : world :=
  {| localStorage := ∅; now := 1000;
     network := λ _ _, (2000%Z, Resolved 200 payload);
     sent := []; console := [] |}.

End Spec.

(* ===================================================================== *)
(** * Part II: properties                                                 *)
(* ===================================================================== *)

(** ** Time-series normalisation (Dashboard.jsx, DashboardOptimized.jsx) *)

Section TimeSeries.
Import JS Pages Spec.

Lemma get_own_array_truthy ts k es p :
  get_own ts k = VArr es p → to_boolean ts = true ∧ is_nullish ts = false.
Proof.
  destruct ts; simpl; try discriminate; auto.
  destruct (String.eqb k "length"); discriminate.
Qed.

Lemma get_own_delete ts k k' :
  k ≠ k' → get_own (delete_prop ts k') k = get_own ts k.
Proof.
  intros Hne. destruct ts; simpl; try reflexivity.
  - destruct (String.eqb k "length"); [reflexivity|].
    rewrite lookup_delete_ne by congruence. reflexivity.
  - rewrite lookup_delete_ne by congruence. reflexivity.
Qed.

Lemma to_boolean_delete ts k : to_boolean (delete_prop ts k) = to_boolean ts.
Proof. destruct ts; reflexivity. Qed.

Lemma field_value ts k f i :
  field_is ts k f →
  js_or (opt_index (get_own ts k) i) (num 0) = element_or_zero f i.
Proof.
  unfold field_is, element_or_zero, js_or, opt_index.
  destruct f as [es|]; simpl.
  - intros [p ->]. simpl. destruct (es !! i) as [v|]; simpl; reflexivity.
  - intros ->. reflexivity.
Qed.

Lemma formatPoint_delete ts i d :
  formatPoint (delete_prop ts "processing_info") i d = formatPoint ts i d.
Proof.
  unfold formatPoint. rewrite !get_own_delete by discriminate. reflexivity.
Qed.

Lemma formatTimeSeries_delete ts :
  formatTimeSeries (delete_prop ts "processing_info") = formatTimeSeries ts.
Proof.
  unfold formatTimeSeries.
  rewrite to_boolean_delete, get_own_delete by discriminate.
  destruct (to_boolean ts && to_boolean (get_own ts "period")); [|reflexivity].
  destruct (get_own ts "period"); try reflexivity.
  f_equal. apply imap_ext. intros. apply formatPoint_delete.
Qed.

Lemma formatTimeSeries_array ts per pp :
  get_own ts "period" = VArr per pp →
  formatTimeSeries ts = Normal (imap (formatPoint ts) per).
Proof.
  intros H. destruct (get_own_array_truthy _ _ _ _ H) as [Ht _].
  unfold formatTimeSeries. rewrite H, Ht. reflexivity.
Qed.

Lemma formatTimeSeries_no_period ts :
  to_boolean ts = false ∨ to_boolean (get_own ts "period") = false →
  formatTimeSeries ts = Normal [].
Proof.
  unfold formatTimeSeries. intros [-> | ->]; [reflexivity|].
  rewrite andb_false_r. reflexivity.
Qed.

(** What the optimized page does with a body that is an object or any other
    value on which a property can be read. *)
Lemma optimized_processTimeSeries ts s :
  is_nullish ts = false →
  ∃ s', DashboardOptimized.processTimeSeries ts s =
          match formatTimeSeries ts with
          | Normal series =>
              (DashboardOptimized.setTimeSeriesData series s', Normal tt)
          | Throw e => (s', Throw e)
          end
        ∧ DashboardOptimized.timeRange s' = DashboardOptimized.timeRange s.
Proof.
  intros Hn. unfold DashboardOptimized.processTimeSeries, get_prop.
  rewrite Hn.
  destruct (to_boolean (get_own ts "processing_info")).
  - rewrite formatTimeSeries_delete.
    exists (DashboardOptimized.setProcessingInfo
              (get_own ts "processing_info") s).
    split; [|reflexivity]. destruct (formatTimeSeries ts); reflexivity.
  - exists s. split; [|reflexivity].
    destruct (formatTimeSeries ts); reflexivity.
Qed.

(** C1 (as amended).  When the body of a time-series response has a
    [period] array, both dashboards set the chart series to exactly one
    record per element of [period]: the i-th record pairs the i-th period
    value with the i-th elements of [revenue], [books_sold] and
    [num_sales], with 0 in the place of every element that is missing or
    falsy.  When the body is falsy, or its [period] is missing or falsy, the
    plain dashboard sets the series to the empty list, and so does the
    optimized dashboard for every body that is not [null] or [undefined]. *)
Theorem C1_time_series_normalisation :
  (∀ ts per pp rv bk ns s so,
     get_own ts "period" = VArr per pp →
     field_is ts "revenue" rv →
     field_is ts "books_sold" bk →
     field_is ts "num_sales" ns →
     ∃ series,
       formatTimeSeries ts = Normal series
       ∧ Dashboard.timeSeriesData
           (Dashboard.processTimeSeries (Normal ts) s).1 = series
       ∧ DashboardOptimized.timeSeriesData
           (DashboardOptimized.processTimeSeries ts so).1 = series
       ∧ length series = length per
       ∧ ∀ i d, per !! i = Some d →
           series !! i = Some {| date := d;
                                 revenue := element_or_zero rv i;
                                 books := element_or_zero bk i;
                                 sales := element_or_zero ns i |})
  ∧ (∀ ts s so,
       to_boolean ts = false ∨ to_boolean (get_own ts "period") = false →
       formatTimeSeries ts = Normal []
       ∧ Dashboard.timeSeriesData
           (Dashboard.processTimeSeries (Normal ts) s).1 = []
       ∧ (is_nullish ts = false →
          DashboardOptimized.timeSeriesData
            (DashboardOptimized.processTimeSeries ts so).1 = [])).
Proof.
  split.
  - intros ts per pp rv bk ns s so Hper Hrv Hbk Hns.
    pose proof (formatTimeSeries_array _ _ _ Hper) as Hfmt.
    destruct (get_own_array_truthy _ _ _ _ Hper) as [_ Hnn].
    exists (imap (formatPoint ts) per). split; [exact Hfmt|].
    split; [unfold Dashboard.processTimeSeries; rewrite Hfmt; reflexivity|].
    split.
    { destruct (optimized_processTimeSeries ts so Hnn) as (s' & -> & _).
      rewrite Hfmt. reflexivity. }
    split; [apply length_imap|].
    intros i d Hi. rewrite list_lookup_imap, Hi. simpl.
    unfold formatPoint.
    rewrite (field_value _ _ _ i Hrv), (field_value _ _ _ i Hbk),
      (field_value _ _ _ i Hns). reflexivity.
  - intros ts s so H.
    pose proof (formatTimeSeries_no_period _ H) as Hfmt.
    split; [exact Hfmt|]. split.
    + unfold Dashboard.processTimeSeries. rewrite Hfmt. reflexivity.
    + intros Hnn.
      destruct (optimized_processTimeSeries ts so Hnn) as (s' & -> & _).
      rewrite Hfmt. reflexivity.
Qed.

(** At a body with a period array and three one-element series. *)
Lemma C1_time_series_normalisation_witness :
  ∃ series,
    formatTimeSeries falsy_revenue_body = Normal series
    ∧ length series = 1
    ∧ series !! 0 = Some {| date := VStr "2024-01-01"; revenue := num 0;
                            books := num 3; sales := num 1 |}.
Proof.
  destruct (proj1 C1_time_series_normalisation falsy_revenue_body
              [VStr "2024-01-01"] ∅ (Some [VStr ""]) (Some [num 3])
              (Some [num 1]) Dashboard.initial DashboardOptimized.initial)
    as (series & H1 & _ & _ & H2 & H3).
  - reflexivity.
  - exists ∅. reflexivity.
  - exists ∅. reflexivity.
  - exists ∅. reflexivity.
  - exists series. split; [exact H1|]. split; [exact H2|].
    exact (H3 0 (VStr "2024-01-01") eq_refl).
Defined.

(** The claim as first stated keeps every element that is present.  The
    body [falsy_revenue_body] has the empty string as element 0 of
    [revenue]; the record built for it carries 0 instead. *)
Lemma C1_counterexample_falsy_element :
  get_own falsy_revenue_body "period" = arr [VStr "2024-01-01"]
  ∧ field_is falsy_revenue_body "revenue" (Some [VStr ""])
  ∧ formatTimeSeries falsy_revenue_body =
      Normal [{| date := VStr "2024-01-01"; revenue := num 0;
                 books := num 3; sales := num 1 |}]
  ∧ element_as_is (Some [VStr ""]) 0 = VStr ""
  ∧ num 0 ≠ element_as_is (Some [VStr ""]) 0.
Proof.
  split; [reflexivity|]. split; [exists ∅; reflexivity|].
  split; [reflexivity|]. split; [reflexivity|]. discriminate.
Qed.

End TimeSeries.

(** ** The REST client wrappers (optimizedAnalyticsService.js) *)

Section Client.
Import JS Axios Services Spec.

Lemma authInterceptor_run c w :
  authInterceptor c w =
    (Normal (if token_truthy (localStorage w !! "authToken")
             then with_headers
                    (<["Authorization" :=
                         "Bearer " +:+ default "" (localStorage w !! "authToken")]>
                       (headers c)) c
             else c), w).
Proof.
  unfold authInterceptor, bind, localStorage_getItem. simpl.
  destruct (token_truthy _); reflexivity.
Qed.

Lemma token_truthy_bearer storage :
  bearer storage =
    if token_truthy (storage !! "authToken")
    then Some ("Bearer " +:+ default "" (storage !! "authToken"))
    else None.
Proof.
  unfold bearer, token_truthy.
  destruct (storage !! "authToken") as [t|]; [|reflexivity].
  simpl. destruct (String.eqb t ""); reflexivity.
Qed.

(** The request interceptors never fail and never touch the world; they
    leave everything but [headers.Authorization] and [metadata] alone. *)
Lemma requestInterceptors_run i c w :
  ∃ c', requestInterceptors i c w = (Normal c', w)
    ∧ method c' = method c ∧ baseURL c' = baseURL c ∧ url c' = url c
    ∧ params c' = params c ∧ body c' = body c ∧ timeout c' = timeout c
    ∧ metadata c' = match i with
                    | Optimized => Some (now w)
                    | Plain => metadata c
                    end
    ∧ (∀ k, k ≠ "Authorization" → headers c' !! k = headers c !! k)
    ∧ headers c' !! "Authorization" =
        match bearer (localStorage w) with
        | Some b => Some b
        | None => headers c !! "Authorization"
        end.
Proof.
  assert (Hauth : ∀ c0, ∃ c',
    authInterceptor c0 w = (Normal c', w)
    ∧ method c' = method c0 ∧ baseURL c' = baseURL c0 ∧ url c' = url c0
    ∧ params c' = params c0 ∧ body c' = body c0 ∧ timeout c' = timeout c0
    ∧ metadata c' = metadata c0
    ∧ (∀ k, k ≠ "Authorization" → headers c' !! k = headers c0 !! k)
    ∧ headers c' !! "Authorization" =
        match bearer (localStorage w) with
        | Some b => Some b
        | None => headers c0 !! "Authorization"
        end).
  { intros c0. rewrite authInterceptor_run, token_truthy_bearer.
    destruct (token_truthy _); eexists; (split; [reflexivity|]);
      repeat (split; [reflexivity|]); simpl.
    - split; [|apply lookup_insert_eq].
      intros k Hk. apply lookup_insert_ne. congruence.
    - split; reflexivity. }
  destruct i; simpl.
  - unfold bind, timingRequestInterceptor, Date_now, ret. simpl.
    destruct (Hauth (with_metadata (Some (now w)) c)) as (c' & -> & H).
    exists c'. split; [reflexivity|]. exact H.
  - apply Hauth.
Qed.

Lemma timingResponseInterceptor_world r w :
  (timingResponseInterceptor r w).2 = w.
Proof.
  unfold timingResponseInterceptor, bind, Date_now, ret, throw, lift. simpl.
  destruct (metadata (config r)); simpl; [|reflexivity].
  destruct (to_boolean (data r)); simpl; [|reflexivity].
  destruct (get_prop (data r) "processing_info"); simpl; [|reflexivity].
  destruct (to_boolean a); simpl; [reflexivity|].
  destruct (set_prop _ _ _); reflexivity.
Qed.

Lemma responseInterceptors_world i r w : (responseInterceptors i r w).2 = w.
Proof. destruct i; [apply timingResponseInterceptor_world | reflexivity]. Qed.

(** One call of an instance: the configuration goes through the request
    interceptors, is put on the wire exactly once, and the answer goes
    through the response interceptors. *)
Lemma request_run i c w :
  ∃ c', requestInterceptors i c w = (Normal c', w)
    ∧ request i c w =
        match network w (sent w) c' with
        | (arrival, Resolved st payload) =>
            responseInterceptors i
              {| data := payload; status := st; config := c' |}
              (answered c' arrival w)
        | (arrival, Rejected e) => (Throw e, answered c' arrival w)
        end
    ∧ (request i c w).2 = answered c' (network w (sent w) c').1 w.
Proof.
  destruct (requestInterceptors_run i c w) as (c' & Hc' & _).
  exists c'. split; [exact Hc'|].
  assert (Heq : request i c w =
        match network w (sent w) c' with
        | (arrival, Resolved st payload) =>
            responseInterceptors i
              {| data := payload; status := st; config := c' |}
              (answered c' arrival w)
        | (arrival, Rejected e) => (Throw e, answered c' arrival w)
        end).
  { unfold request, bind at 1. rewrite Hc'. unfold bind, dispatch.
    destruct (network w (sent w) c') as [arrival [st payload|e]];
      reflexivity. }
  split; [exact Heq|]. rewrite Heq.
  destruct (network w (sent w) c') as [arrival [st payload|e]]; simpl.
  - pose proof (responseInterceptors_world i
      {| data := payload; status := st; config := c' |}
      (answered c' arrival w)) as Hw.
    destruct (responseInterceptors _ _ _). exact Hw.
  - reflexivity.
Qed.

(** The [try]/[catch] shape shared by all operations. *)
Lemma wrapper_run (call : M response) message w :
  try_catch (let* response := call in ret (data response))
    (λ error, console_error message error ;; throw error) w =
  match call w with
  | (Normal r, w1) => (Normal (data r), w1)
  | (Throw e, w1) => (Throw e, logged message e w1)
  end.
Proof.
  unfold try_catch, bind. destruct (call w) as [[r|e] w1]; reflexivity.
Qed.

Lemma default_arg_or_default dflt args n :
  default_arg dflt (arg args n) = or_default dflt args n.
Proof.
  unfold default_arg, arg, or_default.
  destruct (args !! n) as [v|]; simpl; [destruct v|]; reflexivity.
Qed.

Lemma invoke_unfold i op args :
  invoke i op args =
    try_catch (let* response := request i (call_config i op args) in
               ret (data response))
      (λ error, console_error (label op) error ;; throw error).
Proof.
  destruct i, op; simpl;
    unfold optimizedAnalyticsService.getDashboardSummary,
      optimizedAnalyticsService.getSalesTimeSeries,
      optimizedAnalyticsService.getTopBooks,
      optimizedAnalyticsService.getSalesByRegion,
      optimizedAnalyticsService.getSalesByGenre,
      optimizedAnalyticsService.generateTestData,
      analyticsService.getDashboardSummary,
      analyticsService.getSalesTimeSeries,
      analyticsService.getTopBooks,
      analyticsService.getSalesByRegion,
      analyticsService.getSalesByGenre,
      analyticsService.generateTestData, get, post, instance_defaults,
      call_config, obj;
    rewrite ?default_arg_or_default; simpl; reflexivity.
Qed.


(** Every operation of the two wrappers makes one call of its axios
    instance.  When that call resolves, the operation returns the body of
    the response and does nothing else; when it rejects, the operation logs
    the error under its own message and rethrows the very same error.  In
    both cases exactly one request went on the wire: there is no retry and
    no fallback value.  Seen from the wire: a request that the transport
    rejects makes the operation throw the transport's error, and a request
    that it resolves makes the plain wrapper return the transport's body. *)
Lemma operation_runs_its_request_once i op args w :
  invoke i op args w =
    match request i (call_config i op args) w with
    | (Normal r, w1) => (Normal (data r), w1)
    | (Throw e, w1) => (Throw e, logged (label op) e w1)
    end
  ∧ ∃ c, requestInterceptors i (call_config i op args) w = (Normal c, w)
      ∧ sent (invoke i op args w).2 = sent w ++ [c]
      ∧ match network w (sent w) c with
        | (arrival, Rejected e) =>
            invoke i op args w =
              (Throw e, logged (label op) e (answered c arrival w))
        | (arrival, Resolved st payload) =>
            match i with
            | Plain =>
                invoke i op args w = (Normal payload, answered c arrival w)
            | Optimized =>
                match timingResponseInterceptor
                        {| data := payload; status := st; config := c |}
                        (answered c arrival w) with
                | (Normal r, w1) => invoke i op args w = (Normal (data r), w1)
                | (Throw e, w1) =>
                    invoke i op args w = (Throw e, logged (label op) e w1)
                end
            end
        end.
Proof.
  rewrite invoke_unfold, wrapper_run. split; [reflexivity|].
  destruct (request_run i (call_config i op args) w) as (c & Hc & Hreq & Hw).
  exists c. split; [exact Hc|]. split.
  - destruct (request i (call_config i op args) w) as [[r|e] w1];
      simpl in Hw; subst w1; reflexivity.
  - rewrite Hreq.
    destruct (network w (sent w) c) as [arrival [st payload|e]];
      [|reflexivity].
    destruct i; simpl; [|reflexivity].
    destruct (timingResponseInterceptor _ _) as [[r|e] w1]; reflexivity.
Qed.


(** The request an operation puts on the wire. *)
Lemma invoke_sent i op args w :
  ∃ c, sent (invoke i op args w).2 = sent w ++ [c]
    ∧ method c = verb op ∧ full_path c = endpoint i op
    ∧ params c = query i op args ∧ body c = payload_of op args
    ∧ headers c !! "Authorization" = bearer (localStorage w).
Proof.
  destruct (request_run i (call_config i op args) w) as (c & Hc & _ & Hw).
  assert (Hsent : sent (invoke i op args w).2 = sent w ++ [c]).
  { rewrite invoke_unfold, wrapper_run.
    destruct (request i (call_config i op args) w) as [[r|e] w1];
      simpl in Hw; subst w1; reflexivity. }
  destruct (requestInterceptors_run i (call_config i op args) w)
    as (c' & Hc' & Hm & Hb & Hu & Hp & Hbd & _ & _ & _ & Hauth).
  assert (c' = c) as -> by congruence.
  exists c. split; [exact Hsent|].
  split; [exact Hm|]. split.
  { unfold full_path. rewrite Hb, Hu. destruct i, op; reflexivity. }
  split; [exact Hp|]. split; [exact Hbd|].
  rewrite Hauth. destruct (bearer (localStorage w)); reflexivity.
Qed.

(** C8.  The API surface has one operation for each of the five aggregates
    (summary, time series, top books, sales by region, sales by genre).
    Each of them sends one GET request; the five paths of a wrapper are
    pairwise distinct and all lie below /api/analytics/; the query carries
    the arguments of the call, with [interval] defaulting to ['day'] in the
    plain wrapper and to ['auto'] in the optimized one, [days] to 30 and
    [limit] to 10. *)
Theorem C8_api_surface :
  NoDup aggregate_operations
  ∧ (∀ i, NoDup (endpoint i <$> aggregate_operations))
  ∧ (∀ i, Forall (λ op, String.prefix "/api/analytics/" (endpoint i op) = true)
            aggregate_operations)
  ∧ (∀ i args w,
       Forall (λ op, ∃ c, sent (invoke i op args w).2 = sent w ++ [c]
                        ∧ method c = "get"
                        ∧ full_path c = endpoint i op
                        ∧ params c = query i op args)
         aggregate_operations)
  ∧ query Plain GetSalesTimeSeries [] =
      {[ "interval" := VStr "day"; "days" := num 30 ]}
  ∧ query Optimized GetSalesTimeSeries [] =
      {[ "interval" := VStr "auto"; "days" := num 30 ]}
  ∧ (∀ i interval days,
       interval ≠ VUndef → days ≠ VUndef →
       query i GetSalesTimeSeries [interval; days] =
         {[ "interval" := interval; "days" := days ]})
  ∧ (∀ i, query i GetTopBooks [] = {[ "limit" := num 10; "days" := num 30 ]})
  ∧ (∀ i, query i GetSalesByRegion [] = {[ "days" := num 30 ]})
  ∧ (∀ i, query i GetSalesByGenre [] = {[ "days" := num 30 ]}).
Proof.
  split.
  { apply (bool_decide_unpack _). reflexivity. }
  split.
  { intros []; apply (bool_decide_unpack _); reflexivity. }
  split.
  { intros []; repeat constructor. }
  split.
  { intros i args w. unfold aggregate_operations.
    repeat constructor;
      match goal with
      | |- ∃ c, sent (invoke _ ?op _ _).2 = _ ∧ _ =>
          destruct (invoke_sent i op args w) as (c & H1 & H2 & H3 & H4 & _);
          exists c; repeat split; assumption
      end. }
  repeat split; try reflexivity.
  intros i interval days Hi Hd. simpl. unfold or_default. simpl.
  destruct interval, days; congruence.
Qed.

(** The query of a call that passes both arguments. *)
Lemma C8_api_surface_witness :
  query Plain GetSalesTimeSeries [VStr "week"; num 90] =
    {[ "interval" := VStr "week"; "days" := num 90 ]}.
Proof.
  apply (proj1 (proj2 (proj2 (proj2 (proj2 (proj2 (proj2
           C8_api_surface))))))); discriminate.
Defined.

(** C10 (as amended).  The auth interceptor sets [headers.Authorization] to
    'Bearer ' followed by the stored token exactly when [localStorage]
    holds a non-empty [authToken], and otherwise returns the configuration
    as it came; every other header and every other field of the
    configuration is unchanged in both cases.  Hence every request that
    either instance puts on the wire carries that header exactly when a
    non-empty token is stored, and none otherwise. *)
Theorem C10_authorization_header :
  (∀ c w, ∃ c',
     authInterceptor c w = (Normal c', w)
     ∧ method c' = method c ∧ baseURL c' = baseURL c ∧ url c' = url c
     ∧ params c' = params c ∧ body c' = body c ∧ timeout c' = timeout c
     ∧ metadata c' = metadata c
     ∧ (∀ k, k ≠ "Authorization" → headers c' !! k = headers c !! k)
     ∧ headers c' !! "Authorization" =
         match bearer (localStorage w) with
         | Some b => Some b
         | None => headers c !! "Authorization"
         end
     ∧ (bearer (localStorage w) = None → c' = c))
  ∧ (∀ i meth path ps payload w, ∃ c,
       sent (request i (instance_defaults i meth path ps payload) w).2 =
         sent w ++ [c]
       ∧ headers c !! "Authorization" = bearer (localStorage w))
  ∧ (∀ storage token,
       bearer storage = Some ("Bearer " +:+ token) ↔
       storage !! "authToken" = Some token ∧ token ≠ "").
Proof.
  split; [|split].
  - intros c w.
    destruct (requestInterceptors_run Plain c w) as (c' & H & Hrest).
    exists c'. split; [exact H|].
    destruct Hrest as (H1 & H2 & H3 & H4 & H5 & H6 & H7 & H8 & H9).
    repeat (split; [assumption|]).
    intros Hnone. simpl in H. rewrite authInterceptor_run in H.
    rewrite token_truthy_bearer in Hnone.
    destruct (token_truthy _); [discriminate|]. congruence.
  - intros i meth path ps payload w.
    destruct (request_run i (instance_defaults i meth path ps payload) w)
      as (c & Hc & _ & Hw).
    exists c. split; [rewrite Hw; reflexivity|].
    destruct (requestInterceptors_run i
                (instance_defaults i meth path ps payload) w)
      as (c' & Hc' & _ & _ & _ & _ & _ & _ & _ & _ & Hauth).
    assert (c' = c) as -> by congruence.
    rewrite Hauth. destruct (bearer (localStorage w)); reflexivity.
  - intros storage token. unfold bearer.
    destruct (storage !! "authToken") as [t|]; [|split; [discriminate|]].
    + destruct (String.eqb_spec t "") as [->|Hne].
      * split; [discriminate|]. intros [H1 H2]. congruence.
      * split.
        -- intros H. injection H as H. change (t = token) in H.
           subst t. auto.
        -- intros [H1 _]. congruence.
    + intros [H _]. discriminate.
Qed.

(** With no token stored the interceptor hands the configuration back. *)
Lemma C10_authorization_header_witness :
  ∃ c', authInterceptor (call_config Plain GetDashboardSummary [])
          (quiet_world ∅) = (Normal c', quiet_world ∅)
        ∧ c' = call_config Plain GetDashboardSummary [].
Proof.
  destruct (proj1 C10_authorization_header
              (call_config Plain GetDashboardSummary []) (quiet_world ∅))
    as (c' & H & _ & _ & _ & _ & _ & _ & _ & _ & _ & Hsame).
  exists c'. split; [exact H|]. apply Hsame. reflexivity.
Defined.

(** The claim as first stated ties the header to [localStorage] holding an
    [authToken].  With the empty string stored under that key the storage
    does hold one, and the request goes out without the header. *)
Lemma C10_counterexample_empty_token :
  is_Some (empty_token_storage !! "authToken")
  ∧ ∃ c, sent (invoke Plain GetDashboardSummary []
                 (quiet_world empty_token_storage)).2 = [c]
       ∧ headers c !! "Authorization" = None.
Proof.
  split; [eexists; reflexivity|].
  eexists. split; reflexivity.
Qed.

Lemma timingResponseInterceptor_run r w t0 :
  metadata (config r) = Some t0 →
  timingResponseInterceptor r w =
    if to_boolean (data r)
       && negb (to_boolean (get_own (data r) "processing_info"))
    then match set_prop (data r) "processing_info"
                 (processing_info_of (now w - t0)) with
         | Normal d => (Normal (with_data d r), w)
         | Throw e => (Throw e, w)
         end
    else (Normal r, w).
Proof.
  intros Hm.
  unfold timingResponseInterceptor, bind, Date_now, ret, throw, lift.
  simpl. rewrite Hm. simpl.
  destruct (to_boolean (data r)) eqn:Ht; simpl; [|reflexivity].
  unfold get_prop.
  replace (is_nullish (data r)) with false
    by (destruct (data r); simpl in *; congruence).
  destruct (to_boolean (get_own (data r) "processing_info")); simpl;
    [reflexivity|].
  destruct (set_prop _ _ _); reflexivity.
Qed.

Lemma response_status_config r w t0 r' w' :
  metadata (config r) = Some t0 →
  timingResponseInterceptor r w = (Normal r', w') →
  status r' = status r ∧ config r' = config r.
Proof.
  intros Hm. rewrite (timingResponseInterceptor_run _ _ _ Hm).
  destruct (_ && _).
  - destruct (set_prop _ _ _); [|discriminate].
    intros [= <- _]. split; reflexivity.
  - intros [= <- _]. split; reflexivity.
Qed.

(** C4 (as amended).  The caching indication is a client-side timestamp
    annotation.  On a successful response whose data is an object or an
    array and whose [processing_info] is missing or falsy, the response
    interceptor writes [processing_info] with [processing_time_ms] equal to
    the time between the start of the request and the arrival of the
    response and with [cached] false, and leaves every other property and
    every element of the data as it was.  A response whose data is falsy,
    or whose data carries a truthy [processing_info], passes through
    unchanged.  Every response a call returns is the answer of the
    transport to a request that this call has put on the wire. *)
Theorem C4_timing_annotation :
  (∀ r w t0,
     metadata (config r) = Some t0 →
     is_object (data r) = true →
     to_boolean (get_own (data r) "processing_info") = false →
     timingResponseInterceptor r w =
       (Normal (with_data (annotate (now w - t0) (data r)) r), w)
     ∧ get_own (annotate (now w - t0) (data r)) "processing_info" =
         obj [("processing_time_ms", num (now w - t0));
              ("cached", VBool false)]
     ∧ (∀ k, k ≠ "processing_info" →
          get_own (annotate (now w - t0) (data r)) k = get_own (data r) k)
     ∧ (∀ es p, data r = VArr es p →
          ∃ p', annotate (now w - t0) (data r) = VArr es p'))
  ∧ (∀ r w t0,
       metadata (config r) = Some t0 →
       to_boolean (data r) = false
       ∨ to_boolean (get_own (data r) "processing_info") = true →
       timingResponseInterceptor r w = (Normal r, w))
  ∧ (∀ meth path ps payload w, ∃ c,
       requestInterceptors Optimized
         (instance_defaults Optimized meth path ps payload) w = (Normal c, w)
       ∧ metadata c = Some (now w)
       ∧ ∀ arrival st answer,
           network w (sent w) c = (arrival, Resolved st answer) →
           is_object answer = true →
           to_boolean (get_own answer "processing_info") = false →
           request Optimized
             (instance_defaults Optimized meth path ps payload) w =
             (Normal {| data := annotate (arrival - now w) answer;
                        status := st; config := c |},
              answered c arrival w))
  ∧ (∀ i c w r w1,
       request i c w = (Normal r, w1) →
       ∃ c' arrival answer,
         sent w1 = sent w ++ [c']
         ∧ network w (sent w) c' = (arrival, Resolved (status r) answer)
         ∧ config r = c').
Proof.
  split; [|split; [|split]].
  - intros r w t0 Hm Hobj Hpi.
    split.
    { rewrite (timingResponseInterceptor_run _ _ _ Hm), Hpi.
      destruct (data r); simpl in *; try discriminate; reflexivity. }
    split.
    { destruct (data r); simpl in *; try discriminate;
        rewrite lookup_insert_eq; reflexivity. }
    split.
    { intros k Hk. destruct (data r); simpl in *; try discriminate.
      - destruct (String.eqb k "length"); [reflexivity|].
        rewrite lookup_insert_ne by congruence. reflexivity.
      - rewrite lookup_insert_ne by congruence. reflexivity. }
    intros es p ->. eexists. reflexivity.
  - intros r w t0 Hm H.
    rewrite (timingResponseInterceptor_run _ _ _ Hm).
    destruct H as [-> | ->]; [reflexivity|].
    rewrite andb_false_r. reflexivity.
  - intros meth path ps payload w.
    destruct (request_run Optimized
                (instance_defaults Optimized meth path ps payload) w)
      as (c & Hc & Hreq & _).
    destruct (requestInterceptors_run Optimized
                (instance_defaults Optimized meth path ps payload) w)
      as (c' & Hc' & _ & _ & _ & _ & _ & _ & Hmeta & _).
    assert (c' = c) as -> by congruence.
    exists c. split; [exact Hc|]. split; [exact Hmeta|].
    intros arrival st answer Hnet Hobj Hpi.
    rewrite Hreq, Hnet. simpl.
    rewrite (timingResponseInterceptor_run _ _ (now w)) by exact Hmeta.
    simpl. rewrite Hpi.
    destruct answer; simpl in *; try discriminate; reflexivity.
  - intros i c w r w1 Hreq.
    destruct (request_run i c w) as (c' & Hc' & Hrun & Hw).
    rewrite Hreq in Hrun, Hw. simpl in Hw. subst w1.
    destruct (requestInterceptors_run i c w)
      as (c2 & Hc2 & _ & _ & _ & _ & _ & _ & Hmeta & _).
    assert (c2 = c') as -> by congruence.
    exists c'.
    destruct (network w (sent w) c') as [arrival [st answer|e]] eqn:Hnet;
      [|discriminate].
    exists arrival, answer. split; [reflexivity|].
    destruct i; simpl in Hrun.
    + symmetry in Hrun.
      destruct (response_status_config
                  {| data := answer; status := st; config := c' |}
                  _ (now w) _ _ Hmeta Hrun) as [Hs Hcfg].
      simpl in Hs, Hcfg. rewrite Hs. auto.
    + injection Hrun as ->. simpl. auto.
Qed.

(** A response that arrives at 1000 ms, 600 ms after its request started. *)
Lemma C4_timing_annotation_witness :
  timingResponseInterceptor summary_response (quiet_world ∅) =
    (Normal (with_data (obj [("total_sales", num 5);
                             ("processing_info",
                              obj [("processing_time_ms", num 600);
                                   ("cached", VBool false)])])
               summary_response),
     quiet_world ∅).
Proof.
  destruct (proj1 C4_timing_annotation summary_response (quiet_world ∅)
              400%Z eq_refl eq_refl eq_refl) as [H _].
  exact H.
Defined.

(** The claim as first stated has the interceptor annotate every successful
    response whose data lacks [processing_info].  An empty 204 response has
    the empty string as data; it lacks the field, and the call returns it
    without any annotation. *)
Lemma C4_counterexample_empty_body :
  ∃ r w',
    get Optimized "/analytics/summary/" ∅ (quiet_world ∅) = (Normal r, w')
    ∧ status r = 204%Z
    ∧ data r = VStr ""
    ∧ get_own (data r) "processing_info" = VUndef.
Proof. do 2 eexists. repeat split; reflexivity. Qed.

(** Outside the amended claim: a truthy primitive body (a plain-text
    answer) cannot take the annotation; the assignment throws in strict
    mode and the call rejects. *)
Lemma primitive_body_rejects :
  ∃ e w',
    timingResponseInterceptor
      {| data := VStr "OK"; status := 200;
         config := config summary_response |} (quiet_world ∅) = (Throw e, w').
Proof. do 2 eexists. reflexivity. Qed.

(** C5.  The claim at a request that succeeds with a body that is a truthy
    primitive (a non-empty text, a number other than zero, [true]).  Each
    operation puts one request on the wire.  When the answer is such a body
    the plain wrapper returns it, as the claim says; the optimized wrapper
    does not: its response interceptor assigns [processing_info] on the
    primitive, the assignment throws, and the operation logs that error
    under its own message and throws it. *)
Theorem C5_truthy_primitive_body_is_thrown i op args w :
  ∃ c, sent (invoke i op args w).2 = sent w ++ [c]
     ∧ ∀ st b,
         answer_to w [] c = Resolved st b →
         to_boolean b = true → is_object b = false →
         match i with
         | Plain =>
             invoke i op args w = (Normal b, answered c (now (invoke i op args w).2) w)
         | Optimized =>
             ∃ e, invoke i op args w =
                    (Throw e,
                     logged (label op) e
                       (answered c (now (invoke i op args w).2) w))
                  ∧ e = TypeError
                          "Cannot create property on a primitive: processing_info"
         end.
Proof.
  destruct (request_run i (call_config i op args) w) as (c & Hc & Hreq & Hw).
  destruct (requestInterceptors_run i (call_config i op args) w)
    as (c' & Hc' & _ & _ & _ & _ & _ & _ & Hmeta & _).
  assert (c' = c) as -> by congruence.
  exists c. rewrite invoke_unfold, wrapper_run. split.
  { destruct (request i (call_config i op args) w) as [[r|e] w1];
      simpl in Hw; subst w1; reflexivity. }
  intros st b Ha Ht Ho. unfold answer_to in Ha. rewrite app_nil_r in Ha.
  rewrite Hreq. destruct (network w (sent w) c) as [t o]. simpl in Ha.
  subst o. destruct i.
  - cbn [responseInterceptors].
    rewrite (timingResponseInterceptor_run _ _ (now w)) by exact Hmeta.
    cbn [data]. rewrite Ht.
    destruct b as [| |[|]|n|t'|es p|m]; simpl in Ht, Ho; try discriminate;
      cbn; eexists; split; reflexivity.
  - reflexivity.
Qed.

(** The summary operation of each wrapper, with a server that answers 200
    and the text OK. *)
Lemma C5_truthy_primitive_body_is_thrown_witness :
  (invoke Plain GetDashboardSummary [] (echo_world (VStr "OK"))).1 =
    Normal (VStr "OK")
  ∧ (invoke Optimized GetDashboardSummary [] (echo_world (VStr "OK"))).1 =
      Throw (TypeError
               "Cannot create property on a primitive: processing_info")
  ∧ length (sent (invoke Optimized GetDashboardSummary []
                    (echo_world (VStr "OK"))).2) = 1%nat
  ∧ console (invoke Optimized GetDashboardSummary []
               (echo_world (VStr "OK"))).2 =
      [("Error fetching dashboard summary:",
        TypeError "Cannot create property on a primitive: processing_info")].
Proof.
  destruct (C5_truthy_primitive_body_is_thrown Plain GetDashboardSummary []
              (echo_world (VStr "OK"))) as (c & _ & Hplain).
  destruct (C5_truthy_primitive_body_is_thrown Optimized GetDashboardSummary
              [] (echo_world (VStr "OK"))) as (c' & Hsent & Hopt).
  specialize (Hplain 200%Z (VStr "OK") eq_refl eq_refl eq_refl).
  destruct (Hopt 200%Z (VStr "OK") eq_refl eq_refl eq_refl) as (e & He & ->).
  split; [rewrite Hplain; reflexivity|].
  split; [rewrite He; reflexivity|].
  split; [rewrite Hsent; reflexivity|].
  rewrite He. reflexivity.
Defined.

(** One operation seen from the wire, for both wrappers. *)
Lemma invoke_wire i op args w :
  ∃ c, method c = verb op ∧ full_path c = endpoint i op
     ∧ params c = query i op args ∧ body c = payload_of op args
     ∧ sent (invoke i op args w).2 = sent w ++ [c]
     ∧ network (invoke i op args w).2 = network w
     ∧ (∀ e, (network w (sent w) c).2 = Rejected e →
          (invoke i op args w).1 = Throw e
          ∧ console (invoke i op args w).2 = console w ++ [(label op, e)])
     ∧ (∀ v, (invoke i op args w).1 = Normal v →
          console (invoke i op args w).2 = console w
          ∧ ∃ st payload, (network w (sent w) c).2 = Resolved st payload)
     ∧ (i = Plain → (invoke i op args w).1 = settled (network w (sent w) c).2).
Proof.
  destruct (request_run i (call_config i op args) w) as (c & Hc & Hreq & Hw).
  destruct (requestInterceptors_run i (call_config i op args) w)
    as (c' & Hc' & Hm & Hb & Hu & Hp & Hbd & _).
  assert (c' = c) as -> by congruence.
  exists c. split; [exact Hm|].
  split; [unfold full_path; rewrite Hb, Hu; destruct i, op; reflexivity|].
  split; [exact Hp|]. split; [exact Hbd|].
  rewrite invoke_unfold, wrapper_run.
  destruct (request i (call_config i op args) w) as [[r|e] w1] eqn:Hrun;
    simpl in Hw; subst w1; cbn [fst snd].
  - split; [reflexivity|]. split; [reflexivity|].
    destruct (network w (sent w) c) as [t [st payload|e]]; cbn [fst snd].
    + split; [discriminate|]. split; [intros; split; eauto|].
      intros Hi. subst i. simpl in Hreq. injection Hreq as ->. reflexivity.
    + discriminate.
  - split; [reflexivity|]. split; [reflexivity|].
    destruct (network w (sent w) c) as [t [st payload|e']]; cbn [fst snd].
    + split; [discriminate|]. split; [discriminate|].
      intros Hi. subst i. simpl in Hreq. discriminate.
    + injection Hreq as <-.
      split; [intros ? [= <-]; split; reflexivity|].
      split; [discriminate|]. reflexivity.
Qed.

End Client.

(** ** Time-range selection (TimeRangeSelector.jsx, Dashboard.jsx) *)

Section Selection.
Import JS Axios Services Pages Spec.

Lemma settle_run {A} (m : M A) w :
  settle m w = (Normal (m w).1, (m w).2).
Proof. unfold settle. destruct (m w). reflexivity. Qed.

(** What the rest of the [try] block of the plain dashboard can do: it
    keeps the selected range and sends nothing. *)
Lemma processResults_quiet r0 r1 r2 r3 s handler_state w :
  ∃ s' w',
    try_catch (Dashboard.processResults r0 r1 r2 r3 s).1
      (λ err, console_error "Error fetching dashboard data:" err ;;
              ret (Dashboard.setError handler_state
                     (Dashboard.processResults r0 r1 r2 r3 s).2)) w =
      (Normal s', w')
    ∧ sent w' = sent w
    ∧ Dashboard.timeRange s' = Dashboard.timeRange s.
Proof.
  unfold Dashboard.processResults, Dashboard.processTimeSeries.
  destruct r0, r1, r2, r3; simpl;
    repeat match goal with
           | |- context [formatTimeSeries ?x] => destruct (formatTimeSeries x)
           | |- context [sliceFirstFive ?x] => destruct (sliceFirstFive x)
           end; simpl; do 2 eexists; (split; [reflexivity|]);
    split; reflexivity.
Qed.

(** One run of the effect of the plain dashboard: four requests, in the
    order of the calls, each with the selected range as [days] where the
    endpoint takes one. *)
Lemma Dashboard_fetchData_run s w :
  ∃ c0 c1 c2 c3 s' w',
    Dashboard.fetchData s w = (Normal s', w')
    ∧ sent w' = sent w ++ [c0; c1; c2; c3]
    ∧ Dashboard.timeRange s' = Dashboard.timeRange s
    ∧ is_request c0 "/api/analytics/summary/" ∅
    ∧ is_request c1 "/api/analytics/timeseries/"
        {[ "interval" := VStr "day"; "days" := num (Dashboard.timeRange s) ]}
    ∧ is_request c2 "/api/analytics/top-books/"
        {[ "limit" := num 5; "days" := num (Dashboard.timeRange s) ]}
    ∧ is_request c3 "/api/analytics/sales-by-genre/"
        {[ "days" := num (Dashboard.timeRange s) ]}.
Proof.
  set (tr := Dashboard.timeRange s).
  destruct (invoke_sent Plain GetDashboardSummary [] w)
    as (c0 & S0 & M0 & P0 & Q0 & _).
  set (w1 := (invoke Plain GetDashboardSummary [] w).2) in *.
  destruct (invoke_sent Plain GetSalesTimeSeries [VStr "day"; num tr] w1)
    as (c1 & S1 & M1 & P1 & Q1 & _).
  set (w2 := (invoke Plain GetSalesTimeSeries [VStr "day"; num tr] w1).2) in *.
  destruct (invoke_sent Plain GetTopBooks [num 5; num tr] w2)
    as (c2 & S2 & M2 & P2 & Q2 & _).
  set (w3 := (invoke Plain GetTopBooks [num 5; num tr] w2).2) in *.
  destruct (invoke_sent Plain GetSalesByGenre [num tr] w3)
    as (c3 & S3 & M3 & P3 & Q3 & _).
  set (w4 := (invoke Plain GetSalesByGenre [num tr] w3).2) in *.
  exists c0, c1, c2, c3.
  destruct (processResults_quiet
              (invoke Plain GetDashboardSummary [] w).1
              (invoke Plain GetSalesTimeSeries [VStr "day"; num tr] w1).1
              (invoke Plain GetTopBooks [num 5; num tr] w2).1
              (invoke Plain GetSalesByGenre [num tr] w3).1
              (Dashboard.setLoading true s)
              (Some "Failed to fetch dashboard data. Please try again later.")
              w4) as (s' & w' & Hrest & Hsent & Htr).
  exists (Dashboard.setLoading false s'), w'.
  split.
  { unfold Dashboard.fetchData, bind.
    change (analyticsService.getDashboardSummary)
      with (invoke Plain GetDashboardSummary []).
    rewrite settle_run. fold w1.
    change (analyticsService.getSalesTimeSeries (VStr "day")
              (num (Dashboard.timeRange (Dashboard.setLoading true s))))
      with (invoke Plain GetSalesTimeSeries [VStr "day"; num tr]).
    rewrite settle_run. fold w2.
    change (analyticsService.getTopBooks (num 5)
              (num (Dashboard.timeRange (Dashboard.setLoading true s))))
      with (invoke Plain GetTopBooks [num 5; num tr]).
    rewrite settle_run. fold w3.
    change (analyticsService.getSalesByGenre
              (num (Dashboard.timeRange (Dashboard.setLoading true s))))
      with (invoke Plain GetSalesByGenre [num tr]).
    rewrite settle_run. fold w4.
    destruct (Dashboard.processResults _ _ _ _ _) as [rest kept].
    simpl in Hrest. unfold bind in Hrest. rewrite Hrest. reflexivity. }
  split.
  { rewrite Hsent, S3, S2, S1, S0. rewrite <- !app_assoc. reflexivity. }
  split; [exact Htr|].
  repeat split; assumption.
Qed.

Lemma optimized_processTimeSeries_range ts s :
  DashboardOptimized.timeRange (DashboardOptimized.processTimeSeries ts s).1 =
    DashboardOptimized.timeRange s.
Proof.
  unfold DashboardOptimized.processTimeSeries.
  destruct (get_prop ts "processing_info") as [info|e]; [|reflexivity].
  destruct (to_boolean info);
    match goal with
    | |- context [formatTimeSeries ?x] => destruct (formatTimeSeries x)
    end; reflexivity.
Qed.

Lemma optimized_processRemaining_range r0 r1 s :
  DashboardOptimized.timeRange (DashboardOptimized.processRemaining r0 r1 s) =
    DashboardOptimized.timeRange s
  ∧ DashboardOptimized.error (DashboardOptimized.processRemaining r0 r1 s) =
      DashboardOptimized.error s.
Proof.
  unfold DashboardOptimized.processRemaining.
  destruct r0, r1; simpl;
    repeat match goal with
           | |- context [sliceFirstFive ?x] => destruct (sliceFirstFive x)
           end; split; reflexivity.
Qed.

(** One run of the effect of the optimized dashboard: the summary request
    always goes out; the time-series request follows when the summary
    arrived; the top-books and genre requests follow when the time series
    arrived and was normalised, which is also exactly when the run ends
    without an error message. *)
Lemma DashboardOptimized_fetchData_run s w :
  ∃ c0 rest s' w',
    DashboardOptimized.fetchData s w = (Normal s', w')
    ∧ sent w' = sent w ++ c0 :: rest
    ∧ DashboardOptimized.timeRange s' = DashboardOptimized.timeRange s
    ∧ is_request c0 "/api/analytics/summary/" ∅
    ∧ match rest with
      | [] => DashboardOptimized.error s' ≠ None
      | [c1] =>
          DashboardOptimized.error s' ≠ None
          ∧ is_request c1 "/api/analytics/optimized-timeseries/"
              {[ "interval" := VStr (DashboardOptimized.intervalMode s);
                 "days" := num (DashboardOptimized.timeRange s) ]}
      | [c1; c2; c3] =>
          DashboardOptimized.error s' = None
          ∧ is_request c1 "/api/analytics/optimized-timeseries/"
              {[ "interval" := VStr (DashboardOptimized.intervalMode s);
                 "days" := num (DashboardOptimized.timeRange s) ]}
          ∧ is_request c2 "/api/analytics/top-books/"
              {[ "limit" := num 5;
                 "days" := num (DashboardOptimized.timeRange s) ]}
          ∧ is_request c3 "/api/analytics/sales-by-genre/"
              {[ "days" := num (DashboardOptimized.timeRange s) ]}
      | _ => False
      end.
Proof.
  set (tr := DashboardOptimized.timeRange s).
  set (im := DashboardOptimized.intervalMode s).
  destruct (invoke_sent Optimized GetDashboardSummary [] w)
    as (c0 & S0 & M0 & P0 & Q0 & _).
  exists c0.
  unfold DashboardOptimized.fetchData, bind.
  change (optimizedAnalyticsService.getDashboardSummary)
    with (invoke Optimized GetDashboardSummary []).
  rewrite settle_run.
  destruct (invoke Optimized GetDashboardSummary [] w) as [[r0|e0] w1];
    simpl in S0; cbn [fst snd].
  2:{ exists [], (DashboardOptimized.setLoading false
                    (DashboardOptimized.setError
                       (Some "Failed to fetch dashboard data. Please try again later.")
                       (DashboardOptimized.setLoading true s))),
        (logged "Error fetching dashboard data:" e0 w1).
      split; [reflexivity|]. split; [exact S0|]. split; [reflexivity|].
      split; [repeat split; assumption|]. discriminate. }
  destruct (invoke_sent Optimized GetSalesTimeSeries [VStr im; num tr] w1)
    as (c1 & S1 & M1 & P1 & Q1 & _).
  change (optimizedAnalyticsService.getSalesTimeSeries
            (VStr (DashboardOptimized.intervalMode
                     (DashboardOptimized.setSummary r0
                        (DashboardOptimized.setLoading true s))))
            (num (DashboardOptimized.timeRange
                    (DashboardOptimized.setLoading true s))))
    with (invoke Optimized GetSalesTimeSeries [VStr im; num tr]).
  rewrite settle_run.
  destruct (invoke Optimized GetSalesTimeSeries [VStr im; num tr] w1)
    as [[r1|e1] w2]; simpl in S1; cbn [fst snd].
  2:{ exists [c1], (DashboardOptimized.setLoading false
                    (DashboardOptimized.setError
                       (Some "Failed to fetch dashboard data. Please try again later.")
                       (DashboardOptimized.setSummary r0
                          (DashboardOptimized.setLoading true s)))),
        (logged "Error fetching dashboard data:" e1 w2).
      split; [reflexivity|].
      split; [simpl; rewrite S1, S0, <- app_assoc; reflexivity|].
      split; [reflexivity|].
      split; [repeat split; assumption|].
      split; [discriminate|repeat split; assumption]. }
  pose proof (optimized_processTimeSeries_range r1
                (DashboardOptimized.setSummary r0
                   (DashboardOptimized.setLoading true s))) as Hrange.
  destruct (DashboardOptimized.processTimeSeries r1 _) as [s1 [[]|e]];
    simpl in Hrange.
  2:{ exists [c1], (DashboardOptimized.setLoading false
                    (DashboardOptimized.setError
                       (Some "Failed to fetch dashboard data. Please try again later.")
                       s1)),
        (logged "Error fetching dashboard data:" e w2).
      split; [reflexivity|].
      split; [simpl; rewrite S1, S0, <- app_assoc; reflexivity|].
      split; [exact Hrange|].
      split; [repeat split; assumption|].
      split; [discriminate|repeat split; assumption]. }
  destruct (invoke_sent Optimized GetTopBooks [num 5; num tr] w2)
    as (c2 & S2 & M2 & P2 & Q2 & _).
  change (optimizedAnalyticsService.getTopBooks (num 5)
            (num (DashboardOptimized.timeRange
                    (DashboardOptimized.setLoading true s))))
    with (invoke Optimized GetTopBooks [num 5; num tr]).
  rewrite settle_run.
  set (w3 := (invoke Optimized GetTopBooks [num 5; num tr] w2).2) in *.
  destruct (invoke_sent Optimized GetSalesByGenre [num tr] w3)
    as (c3 & S3 & M3 & P3 & Q3 & _).
  change (optimizedAnalyticsService.getSalesByGenre
            (num (DashboardOptimized.timeRange
                    (DashboardOptimized.setLoading true s))))
    with (invoke Optimized GetSalesByGenre [num tr]).
  rewrite settle_run.
  set (w4 := (invoke Optimized GetSalesByGenre [num tr] w3).2) in *.
  destruct (optimized_processRemaining_range
              (invoke Optimized GetTopBooks [num 5; num tr] w2).1
              (invoke Optimized GetSalesByGenre [num tr] w3).1
              (DashboardOptimized.setLoading false
                 (DashboardOptimized.setError None s1))) as [Htr Herr].
  exists [c1; c2; c3]. do 2 eexists.
  split; [reflexivity|].
  split; [rewrite S3, S2, S1, S0, <- !app_assoc; reflexivity|].
  split; [rewrite Htr; exact Hrange|].
  split; [repeat split; assumption|].
  split; [rewrite Herr; reflexivity|].
  repeat split; assumption.
Qed.

(** The effect of the optimized dashboard, call by call. *)
Lemma DashboardOptimized_fetchData_unfold s w :
  DashboardOptimized.fetchData s w =
    let tr := num (DashboardOptimized.timeRange s) in
    let s0 := DashboardOptimized.setLoading true s in
    match invoke Optimized GetDashboardSummary [] w with
    | (Throw err, w1) => DashboardOptimized.failed err s0 w1
    | (Normal summaryData, w1) =>
        let s1 := DashboardOptimized.setSummary summaryData s0 in
        match invoke Optimized GetSalesTimeSeries
                [VStr (DashboardOptimized.intervalMode s); tr] w1 with
        | (Throw err, w2) => DashboardOptimized.failed err s1 w2
        | (Normal timeSeries, w2) =>
            match DashboardOptimized.processTimeSeries timeSeries s1 with
            | (s2, Throw err) => DashboardOptimized.failed err s2 w2
            | (s2, Normal _) =>
                let m2 := invoke Optimized GetTopBooks [num 5; tr] w2 in
                let m3 := invoke Optimized GetSalesByGenre [tr] m2.2 in
                (Normal (DashboardOptimized.processRemaining m2.1 m3.1
                           (DashboardOptimized.setLoading false
                              (DashboardOptimized.setError None s2))),
                 m3.2)
            end
        end
    end.
Proof.
  unfold DashboardOptimized.fetchData. unfold bind at 1.
  change (optimizedAnalyticsService.getDashboardSummary)
    with (invoke Optimized GetDashboardSummary []).
  rewrite settle_run. cbv zeta.
  destruct (invoke Optimized GetDashboardSummary [] w) as [[v0|e0] w1];
    cbn [fst snd]; [|reflexivity].
  unfold bind at 1.
  change (optimizedAnalyticsService.getSalesTimeSeries
            (VStr (DashboardOptimized.intervalMode
                     (DashboardOptimized.setSummary v0
                        (DashboardOptimized.setLoading true s))))
            (num (DashboardOptimized.timeRange
                    (DashboardOptimized.setLoading true s))))
    with (invoke Optimized GetSalesTimeSeries
            [VStr (DashboardOptimized.intervalMode s);
             num (DashboardOptimized.timeRange s)]).
  rewrite settle_run.
  destruct (invoke Optimized GetSalesTimeSeries _ w1) as [[v1|e1] w2];
    cbn [fst snd]; [|reflexivity].
  destruct (DashboardOptimized.processTimeSeries v1 _) as [s2 [[]|e]];
    [|reflexivity].
  unfold bind at 1.
  change (optimizedAnalyticsService.getTopBooks (num 5)
            (num (DashboardOptimized.timeRange
                    (DashboardOptimized.setLoading true s))))
    with (invoke Optimized GetTopBooks
            [num 5; num (DashboardOptimized.timeRange s)]).
  rewrite settle_run. unfold bind at 1.
  change (optimizedAnalyticsService.getSalesByGenre
            (num (DashboardOptimized.timeRange
                    (DashboardOptimized.setLoading true s))))
    with (invoke Optimized GetSalesByGenre
            [num (DashboardOptimized.timeRange s)]).
  rewrite settle_run. reflexivity.
Qed.

(** What the normalisation of the optimized dashboard leaves alone. *)
Lemma optimized_processTimeSeries_frame ts s :
  let s' := (DashboardOptimized.processTimeSeries ts s).1 in
  DashboardOptimized.timeRange s' = DashboardOptimized.timeRange s
  ∧ DashboardOptimized.intervalMode s' = DashboardOptimized.intervalMode s
  ∧ DashboardOptimized.loading s' = DashboardOptimized.loading s
  ∧ DashboardOptimized.error s' = DashboardOptimized.error s
  ∧ DashboardOptimized.summary s' = DashboardOptimized.summary s
  ∧ DashboardOptimized.topBooks s' = DashboardOptimized.topBooks s
  ∧ DashboardOptimized.genreData s' = DashboardOptimized.genreData s.
Proof.
  unfold DashboardOptimized.processTimeSeries.
  destruct (get_prop ts "processing_info") as [info|e];
    [|repeat split; reflexivity].
  destruct (to_boolean info);
    match goal with
    | |- context [formatTimeSeries ?x] => destruct (formatTimeSeries x)
    end; repeat split; reflexivity.
Qed.

Lemma optimized_processRemaining_frame r0 r1 s :
  let s' := DashboardOptimized.processRemaining r0 r1 s in
  DashboardOptimized.timeRange s' = DashboardOptimized.timeRange s
  ∧ DashboardOptimized.intervalMode s' = DashboardOptimized.intervalMode s
  ∧ DashboardOptimized.loading s' = DashboardOptimized.loading s
  ∧ DashboardOptimized.error s' = DashboardOptimized.error s
  ∧ (∀ e, r0 = Throw e →
       DashboardOptimized.topBooks s' = DashboardOptimized.topBooks s)
  ∧ (∀ e, r1 = Throw e →
       DashboardOptimized.genreData s' = DashboardOptimized.genreData s).
Proof.
  unfold DashboardOptimized.processRemaining.
  destruct r0, r1; simpl;
    repeat match goal with
           | |- context [sliceFirstFive ?x] => destruct (sliceFirstFive x)
           end;
    (split; [reflexivity|]); (split; [reflexivity|]);
    (split; [reflexivity|]); (split; [reflexivity|]);
    split; intros; first [reflexivity|discriminate].
Qed.

(** One operation of the optimized wrapper whose request is answered with
    a body that the timing interceptor lets through: the operation returns
    the body, with or without the annotation. *)
Lemma optimized_invoke_answered op args w :
  ∃ c, method c = verb op ∧ full_path c = endpoint Optimized op
     ∧ params c = query Optimized op args
     ∧ sent (invoke Optimized op args w).2 = sent w ++ [c]
     ∧ network (invoke Optimized op args w).2 = network w
     ∧ ∀ st b,
         (network w (sent w) c).2 = Resolved st b → passes_timing b →
         ∃ b', (invoke Optimized op args w).1 = Normal b'
             ∧ is_nullish b' = is_nullish b
             ∧ get_own b' "period" = get_own b "period".
Proof.
  destruct (request_run Optimized (call_config Optimized op args) w)
    as (c & Hc & Hreq & Hw).
  destruct (requestInterceptors_run Optimized
              (call_config Optimized op args) w)
    as (c' & Hc' & Hm & Hb & Hu & Hp & _ & _ & Hmeta & _).
  assert (c' = c) as -> by congruence.
  exists c. split; [exact Hm|].
  split; [unfold full_path; rewrite Hb, Hu; destruct op; reflexivity|].
  split; [exact Hp|].
  rewrite invoke_unfold, wrapper_run.
  split.
  { destruct (request Optimized _ w) as [[r|e] w1]; simpl in Hw; subst w1;
      reflexivity. }
  split.
  { destruct (request Optimized _ w) as [[r|e] w1]; simpl in Hw; subst w1;
      reflexivity. }
  intros st b Ha Hpass. rewrite Hreq.
  destruct (network w (sent w) c) as [t o]. simpl in Ha. subst o.
  cbn [responseInterceptors].
  rewrite (timingResponseInterceptor_run _ _ (now w)) by exact Hmeta.
  cbn [data].
  destruct (to_boolean b && negb (to_boolean (get_own b "processing_info")))
    eqn:Hguard.
  - apply andb_true_iff in Hguard as [Ht _].
    destruct Hpass as [Hf|Ho]; [congruence|].
    destruct b as [| |?|?|?|es p|m]; try discriminate Ho; cbn.
    + eexists. split; [reflexivity|]. split; [reflexivity|].
      cbn. rewrite lookup_insert_ne by discriminate. reflexivity.
    + eexists. split; [reflexivity|]. split; [reflexivity|].
      cbn. rewrite lookup_insert_ne by discriminate. reflexivity.
  - exists b. repeat split; reflexivity.
Qed.

(** The requests of one run of the optimized dashboard are a chain: the
    time-series request follows an answered summary request, and the
    top-books and genre requests follow a time-series request that was
    answered with a body the page can normalise. *)
Lemma DashboardOptimized_fetchData_chain s w :
  ∃ c0 rest s' w',
    DashboardOptimized.fetchData s w = (Normal s', w')
    ∧ sent w' = sent w ++ c0 :: rest
    ∧ ∀ st0 b0,
        answer_to w [] c0 = Resolved st0 b0 → passes_timing b0 →
        ∃ c1 rest',
          rest = c1 :: rest'
          ∧ is_request c1 "/api/analytics/optimized-timeseries/"
              {[ "interval" := VStr (DashboardOptimized.intervalMode s);
                 "days" := num (DashboardOptimized.timeRange s) ]}
          ∧ ∀ st1 b1,
              answer_to w [c0] c1 = Resolved st1 b1 → readable_series b1 →
              ∃ c2 c3,
                rest' = [c2; c3]
                ∧ is_request c2 "/api/analytics/top-books/"
                    {[ "limit" := num 5;
                       "days" := num (DashboardOptimized.timeRange s) ]}
                ∧ is_request c3 "/api/analytics/sales-by-genre/"
                    {[ "days" := num (DashboardOptimized.timeRange s) ]}.
Proof.
  set (tr := num (DashboardOptimized.timeRange s)).
  destruct (optimized_invoke_answered GetDashboardSummary [] w)
    as (c0 & M0 & P0 & Q0 & S0 & N0 & A0).
  exists c0. rewrite DashboardOptimized_fetchData_unfold. cbv zeta.
  unfold answer_to. rewrite app_nil_r.
  destruct (invoke Optimized GetDashboardSummary [] w) as [[v0|e0] w1];
    cbn [fst snd] in *.
  2:{ exists []. do 2 eexists. split; [reflexivity|]. split; [exact S0|].
      intros st0 b0 Ha Hp. destruct (A0 _ _ Ha Hp) as (b' & Hb' & _).
      discriminate. }
  destruct (optimized_invoke_answered GetSalesTimeSeries
              [VStr (DashboardOptimized.intervalMode s); tr] w1)
    as (c1 & M1 & P1 & Q1 & S1 & N1 & A1).
  rewrite N0, S0 in A1. fold tr.
  destruct (invoke Optimized GetSalesTimeSeries
              [VStr (DashboardOptimized.intervalMode s); tr] w1)
    as [[v1|e1] w2]; cbn [fst snd] in *.
  2:{ exists [c1]. do 2 eexists. split; [reflexivity|].
      split; [cbn; rewrite S1, S0, <- app_assoc; reflexivity|].
      intros _ _ _ _. exists c1, []. split; [reflexivity|].
      split; [repeat split; assumption|].
      intros st1 b1 Ha (_ & Hp & _). destruct (A1 _ _ Ha Hp) as (b' & Hb' & _).
      discriminate. }
  destruct (DashboardOptimized.processTimeSeries v1 _) as [s2 [[]|e]]
    eqn:Hpt.
  2:{ exists [c1]. do 2 eexists. split; [reflexivity|].
      split; [cbn; rewrite S1, S0, <- app_assoc; reflexivity|].
      intros _ _ _ _. exists c1, []. split; [reflexivity|].
      split; [repeat split; assumption|].
      intros st1 b1 Ha (Hnn & Hp & Hperiod).
      destruct (A1 _ _ Ha Hp) as (b' & [= <-] & Hnull & Hper).
      rewrite <- Hnull in Hnn. rewrite <- Hper in Hperiod.
      destruct (optimized_processTimeSeries v1
                  (DashboardOptimized.setSummary v0
                     (DashboardOptimized.setLoading true s)) Hnn)
        as (s3 & Heq & _).
      rewrite Heq in Hpt.
      destruct Hperiod as [Hfalsy|(es & p & Harr)].
      - rewrite (formatTimeSeries_no_period v1 (or_intror Hfalsy)) in Hpt.
        discriminate.
      - rewrite (formatTimeSeries_array v1 es p Harr) in Hpt.
        discriminate. }
  destruct (invoke_sent Optimized GetTopBooks [num 5; tr] w2)
    as (c2 & S2 & M2 & P2 & Q2 & _).
  set (m2 := invoke Optimized GetTopBooks [num 5; tr] w2) in *.
  destruct (invoke_sent Optimized GetSalesByGenre [tr] m2.2)
    as (c3 & S3 & M3 & P3 & Q3 & _).
  exists [c1; c2; c3]. do 2 eexists. split; [reflexivity|].
  split; [rewrite S3, S2, S1, S0, <- !app_assoc; reflexivity|].
  intros _ _ _ _. exists c1, [c2; c3]. split; [reflexivity|].
  split; [repeat split; assumption|].
  intros _ _ _ _. exists c2, c3. split; [reflexivity|].
  split; repeat split; assumption.
Qed.

Lemma days_is_of_query v c path (q : gmap string value) :
  is_request c path q →
  q !! "days" = None ∨ q !! "days" = Some (num v) →
  days_is v c.
Proof.
  intros (_ & _ & Hq) H d Hd. rewrite Hq in Hd.
  destruct H as [H|H]; rewrite H in Hd; congruence.
Qed.

(** C7 (as amended).  The standard selector offers exactly 7, 30, 90 and
    365 days, the optimized selector exactly 7, 30, 90, 180, 365 and 730
    days, and both dashboards start at 30.  Selecting a range other than
    the current one makes the dashboard run its effect again with the new
    range.  The plain dashboard sends its four requests again.  The
    optimized dashboard sends the summary request again; the time-series
    request follows when the summary request is answered with a body that
    is an object, an array or falsy; the top-books and genre requests follow
    when the time-series request is answered with such a body that is not
    [null] or [undefined] and whose [period] is an array or is missing or
    falsy; and a run that ends without a message has sent all four.  Every
    one of these requests that has a [days] parameter carries the selected
    range. *)
Theorem C7_time_range_selection :
  (TimeRangeSelector.ranges).*1 = [7; 30; 90; 365]%Z
  ∧ (OptimizedTimeRangeSelector.ranges).*1 = [7; 30; 90; 180; 365; 730]%Z
  ∧ Dashboard.timeRange Dashboard.initial = 30%Z
  ∧ DashboardOptimized.timeRange DashboardOptimized.initial = 30%Z
  ∧ (∀ v s w,
       v ≠ Dashboard.timeRange s →
       ∃ c0 c1 c2 c3 s' w',
         Dashboard.selectRange v s w = (Normal s', w')
         ∧ Dashboard.timeRange s' = v
         ∧ sent w' = sent w ++ [c0; c1; c2; c3]
         ∧ is_request c0 "/api/analytics/summary/" ∅
         ∧ is_request c1 "/api/analytics/timeseries/"
             {[ "interval" := VStr "day"; "days" := num v ]}
         ∧ is_request c2 "/api/analytics/top-books/"
             {[ "limit" := num 5; "days" := num v ]}
         ∧ is_request c3 "/api/analytics/sales-by-genre/"
             {[ "days" := num v ]}
         ∧ Forall (days_is v) [c0; c1; c2; c3])
  ∧ (∀ v s w,
       v ≠ DashboardOptimized.timeRange s →
       ∃ c0 rest s' w',
         DashboardOptimized.selectRange v s w = (Normal s', w')
         ∧ DashboardOptimized.timeRange s' = v
         ∧ sent w' = sent w ++ c0 :: rest
         ∧ is_request c0 "/api/analytics/summary/" ∅
         ∧ Forall (days_is v) (c0 :: rest)
         ∧ (DashboardOptimized.error s' = None →
            ∃ c1 c2 c3,
              rest = [c1; c2; c3]
              ∧ is_request c1 "/api/analytics/optimized-timeseries/"
                  {[ "interval" := VStr (DashboardOptimized.intervalMode s);
                     "days" := num v ]}
              ∧ is_request c2 "/api/analytics/top-books/"
                  {[ "limit" := num 5; "days" := num v ]}
              ∧ is_request c3 "/api/analytics/sales-by-genre/"
                  {[ "days" := num v ]})
         ∧ (∀ st0 b0,
              answer_to w [] c0 = Resolved st0 b0 → passes_timing b0 →
              ∃ c1 rest',
                rest = c1 :: rest'
                ∧ is_request c1 "/api/analytics/optimized-timeseries/"
                    {[ "interval" := VStr (DashboardOptimized.intervalMode s);
                       "days" := num v ]}
                ∧ ∀ st1 b1,
                    answer_to w [c0] c1 = Resolved st1 b1 →
                    readable_series b1 →
                    ∃ c2 c3,
                      rest' = [c2; c3]
                      ∧ is_request c2 "/api/analytics/top-books/"
                          {[ "limit" := num 5; "days" := num v ]}
                      ∧ is_request c3 "/api/analytics/sales-by-genre/"
                          {[ "days" := num v ]})).
Proof.
  split; [reflexivity|]. split; [reflexivity|].
  split; [reflexivity|]. split; [reflexivity|]. split.
  - intros v s w Hv.
    destruct (Dashboard_fetchData_run (Dashboard.setTimeRange v s) w)
      as (c0 & c1 & c2 & c3 & s' & w' & Hrun & Hsent & Htr
          & R0 & R1 & R2 & R3).
    simpl in Htr, R1, R2, R3.
    exists c0, c1, c2, c3, s', w'.
    split.
    { unfold Dashboard.selectRange.
      destruct (Z.eqb_spec (Dashboard.timeRange s) v); [congruence|].
      exact Hrun. }
    split; [exact Htr|]. split; [exact Hsent|].
    repeat (split; [assumption|]).
    repeat constructor;
      (eapply days_is_of_query; [eassumption|]); auto.
  - intros v s w Hv.
    destruct (DashboardOptimized_fetchData_run
                (DashboardOptimized.setTimeRange v s) w)
      as (c0 & rest & s' & w' & Hrun & Hsent & Htr & R0 & Hrest).
    destruct (DashboardOptimized_fetchData_chain
                (DashboardOptimized.setTimeRange v s) w)
      as (k0 & krest & ks & kw & Krun & Ksent & Kchain).
    rewrite Hrun in Krun. injection Krun as <- <-.
    rewrite Hsent in Ksent. apply app_inv_head in Ksent.
    injection Ksent as <- <-.
    simpl in Htr, Hrest, Kchain.
    exists c0, rest, s', w'.
    split.
    { unfold DashboardOptimized.selectRange.
      destruct (Z.eqb_spec (DashboardOptimized.timeRange s) v);
        [congruence|].
      exact Hrun. }
    split; [exact Htr|]. split; [exact Hsent|]. split; [exact R0|].
    assert (Hdays : Forall (days_is v) (c0 :: rest)
                    ∧ (DashboardOptimized.error s' = None →
                       ∃ c1 c2 c3,
                         rest = [c1; c2; c3]
                         ∧ is_request c1 "/api/analytics/optimized-timeseries/"
                             {[ "interval" :=
                                  VStr (DashboardOptimized.intervalMode s);
                                "days" := num v ]}
                         ∧ is_request c2 "/api/analytics/top-books/"
                             {[ "limit" := num 5; "days" := num v ]}
                         ∧ is_request c3 "/api/analytics/sales-by-genre/"
                             {[ "days" := num v ]})).
    { clear Kchain.
      destruct rest as [|c1 [|c2 [|c3 [|c4 rest]]]]; try contradiction.
      + split; [|congruence].
        repeat constructor. eapply days_is_of_query; [eassumption|]; auto.
      + destruct Hrest as [Herr R1]. split; [|congruence].
        repeat constructor;
          (eapply days_is_of_query; [eassumption|]); auto.
      + destruct Hrest as (Herr & R1 & R2 & R3). split.
        * repeat constructor;
            (eapply days_is_of_query; [eassumption|]); auto.
        * intros _. exists c1, c2, c3. auto. }
    destruct Hdays as [Hall Hnone].
    split; [exact Hall|]. split; [exact Hnone|]. exact Kchain.
Qed.

(** Selecting 90 days on the freshly mounted dashboards, with a server that
    answers every request with an empty object. *)
Lemma C7_time_range_selection_witness :
  (∃ c0 c1 c2 c3 s' w',
     Dashboard.selectRange 90 Dashboard.initial (echo_world (obj [])) =
       (Normal s', w')
     ∧ Dashboard.timeRange s' = 90%Z
     ∧ sent w' = [c0; c1; c2; c3]
     ∧ Forall (days_is 90) [c0; c1; c2; c3])
  ∧ (∃ c0 c1 c2 c3 s' w',
       DashboardOptimized.selectRange 90 DashboardOptimized.initial
         (echo_world (obj [])) = (Normal s', w')
       ∧ DashboardOptimized.timeRange s' = 90%Z
       ∧ sent w' = [c0; c1; c2; c3]
       ∧ params c1 = {[ "interval" := VStr "auto"; "days" := num 90 ]}
       ∧ params c2 = {[ "limit" := num 5; "days" := num 90 ]}
       ∧ params c3 = {[ "days" := num 90 ]}).
Proof.
  destruct C7_time_range_selection as (_ & _ & _ & _ & Hplain & Hopt).
  split.
  - destruct (Hplain 90%Z Dashboard.initial (echo_world (obj [])))
      as (c0 & c1 & c2 & c3 & s' & w' & H1 & H2 & H3 & _ & _ & _ & _ & H4).
    + discriminate.
    + exists c0, c1, c2, c3, s', w'. auto.
  - destruct (Hopt 90%Z DashboardOptimized.initial (echo_world (obj [])))
      as (c0 & rest & s' & w' & H1 & H2 & H3 & _ & _ & _ & Hchain).
    + discriminate.
    + destruct (Hchain 200%Z (obj []) eq_refl (or_intror eq_refl))
        as (c1 & rest' & -> & (_ & _ & Q1) & Hnext).
      destruct (Hnext 200%Z (obj []) eq_refl)
        as (c2 & c3 & -> & (_ & _ & Q2) & (_ & _ & Q3)).
      { split; [reflexivity|]. split; [right; reflexivity|].
        left. reflexivity. }
      exists c0, c1, c2, c3, s', w'. auto 10.
Defined.

(** The claim as first stated has the dashboard send its data requests
    again whenever the selection changes.  Without a server the optimized
    dashboard sends the summary request, which has no parameter, and stops
    there: no request carries the range that was selected. *)
Lemma C7_counterexample_offline :
  ∃ c0 s' w',
    DashboardOptimized.selectRange 90 DashboardOptimized.initial
      offline_world = (Normal s', w')
    ∧ DashboardOptimized.timeRange s' = 90%Z
    ∧ sent w' = [c0]
    ∧ url c0 = "/analytics/summary/"
    ∧ params c0 = ∅
    ∧ ¬ Exists (λ c, params c !! "days" = Some (num 90)) (sent w').
Proof.
  do 3 eexists. split; [reflexivity|]. split; [reflexivity|].
  split; [reflexivity|]. split; [reflexivity|]. split; [reflexivity|].
  cbn. intros H. apply Exists_cons in H as [H|H]; [discriminate|].
  apply Exists_nil in H. exact H.
Qed.


End Selection.

(** ** Guarded divisions (SalesByGenre.jsx, SalesByRegion.jsx,
       DashboardOptimized.jsx) *)

Section Divisions.
Import JS Pages Spec.
Variable string_to_number : string → jsnum.
Variable number_to_string : jsnum → string.

Abbreviation to_number := (to_number string_to_number number_to_string).
Abbreviation js_div := (js_div string_to_number number_to_string).
Abbreviation gt_zero := (gt_zero string_to_number number_to_string).

Lemma positive_not_zero q : is_positive q = true → is_zero q = false.
Proof.
  unfold is_positive, is_zero. intros H.
  apply Z.ltb_lt in H. apply Z.eqb_neq. lia.
Qed.

(** A value that passes the test [v > 0] converts to a number that is not
    zero. *)
Lemma gt_zero_divisor v :
  gt_zero v = true → ∃ q, to_number v = Fin q ∧ is_zero q = false.
Proof.
  unfold JS.gt_zero. destruct (to_number v) as [|q]; [discriminate|].
  intros H. exists q. split; [reflexivity|]. apply positive_not_zero, H.
Qed.

Lemma js_div_guarded a v :
  gt_zero v = true →
  ∃ q, to_number v = Fin q ∧ is_zero q = false
     ∧ js_div a v = Quotient (match to_number a with
                             | Fin n => Fin (n / q)
                             | NaN => NaN
                             end).
Proof.
  intros H. destruct (gt_zero_divisor v H) as (q & Hq & Hz).
  exists q. split; [exact Hq|]. split; [exact Hz|].
  unfold JS.js_div, num_div. rewrite Hq, Hz.
  destruct (to_number a); reflexivity.
Qed.

Lemma js_div_by_length a (n : nat) :
  (0 < n)%nat →
  js_div a (num (Z.of_nat n)) =
    Quotient (match to_number a with
              | Fin x => Fin (x / inject_Z (Z.of_nat n))
              | NaN => NaN
              end).
Proof.
  intros H. unfold JS.js_div, num_div, num. simpl.
  replace (is_zero (inject_Z (Z.of_nat n))) with false.
  - destruct (to_number a); reflexivity.
  - unfold is_zero. simpl. symmetry. apply Z.eqb_neq. lia.
Qed.

(** C9.  No division that the pages perform on fetched data can meet a
    zero divisor.  The average revenue per book of a genre row (and of a
    region row) is [revenue / books_sold] exactly when [books_sold > 0]
    holds, with a divisor that is then a number other than zero, and is 0
    otherwise.  The average reference line exists only for a non-empty
    series and divides by its length.  The tick interval divides by the
    constant 12 and the colour index takes a remainder by the length of a
    non-empty constant table. *)
Theorem C9_divisions_guarded :
  (∀ row books_sold,
     get_prop row "books_sold" = Normal books_sold →
     (gt_zero books_sold = false →
      genreAvgRevenuePerBook string_to_number number_to_string row =
        Normal (Quotient (Fin 0))
      ∧ regionAvgRevenuePerBook string_to_number number_to_string row =
          Normal (Quotient (Fin 0)))
     ∧ (gt_zero books_sold = true →
        ∃ q, to_number books_sold = Fin q ∧ is_zero q = false
           ∧ genreAvgRevenuePerBook string_to_number number_to_string row =
               Normal (js_div (get_own row "revenue") books_sold)
           ∧ regionAvgRevenuePerBook string_to_number number_to_string row =
               Normal (js_div (get_own row "revenue") books_sold)
           ∧ js_div (get_own row "revenue") books_sold =
               Quotient (match to_number (get_own row "revenue") with
                         | Fin n => Fin (n / q)
                         | NaN => NaN
                         end)))
  ∧ (∀ row,
       genreAvgRevenuePerBook string_to_number number_to_string row
         ≠ Normal ZeroDivisor
       ∧ regionAvgRevenuePerBook string_to_number number_to_string row
           ≠ Normal ZeroDivisor)
  ∧ (∀ series,
       (referenceLineY string_to_number number_to_string series = None
        ↔ series = [])
       ∧ referenceLineY string_to_number number_to_string series
           ≠ Some ZeroDivisor)
  ∧ (∀ series,
       tickInterval string_to_number number_to_string series ≠ ZeroDivisor)
  ∧ (∀ index,
       cellColorIndex DASHBOARD_COLORS index = Some (index mod 5)
       ∧ cellColorIndex DETAIL_COLORS index = Some (index mod 10)).
Proof.
  assert (Hrow : ∀ row books_sold,
     get_prop row "books_sold" = Normal books_sold →
     (gt_zero books_sold = false →
      genreAvgRevenuePerBook string_to_number number_to_string row =
        Normal (Quotient (Fin 0))
      ∧ regionAvgRevenuePerBook string_to_number number_to_string row =
          Normal (Quotient (Fin 0)))
     ∧ (gt_zero books_sold = true →
        ∃ q, to_number books_sold = Fin q ∧ is_zero q = false
           ∧ genreAvgRevenuePerBook string_to_number number_to_string row =
               Normal (js_div (get_own row "revenue") books_sold)
           ∧ regionAvgRevenuePerBook string_to_number number_to_string row =
               Normal (js_div (get_own row "revenue") books_sold)
           ∧ js_div (get_own row "revenue") books_sold =
               Quotient (match to_number (get_own row "revenue") with
                         | Fin n => Fin (n / q)
                         | NaN => NaN
                         end))).
  { intros row bs Hbs.
    unfold genreAvgRevenuePerBook, regionAvgRevenuePerBook. rewrite Hbs.
    split.
    - intros ->. split; reflexivity.
    - intros Hgt. rewrite Hgt.
      destruct (js_div_guarded (get_own row "revenue") bs Hgt)
        as (q & Hq & Hz & Hdiv).
      exists q. repeat split; assumption. }
  split; [exact Hrow|]. split.
  { intros row.
    destruct (get_prop row "books_sold") as [bs|e] eqn:Hbs.
    - destruct (Hrow row bs Hbs) as [Hno Hyes].
      destruct (gt_zero bs) eqn:Hgt.
      + destruct (Hyes eq_refl) as (q & _ & _ & -> & -> & ->).
        split; discriminate.
      + destruct (Hno eq_refl) as [-> ->]. split; discriminate.
    - unfold genreAvgRevenuePerBook, regionAvgRevenuePerBook.
      rewrite Hbs. split; discriminate. }
  split.
  { intros series. unfold referenceLineY.
    destruct series as [|p series]; simpl length.
    - simpl. split; [tauto|discriminate].
    - replace (0 <? S (length series))%nat with true
        by (symmetry; apply Nat.ltb_lt; lia).
      rewrite js_div_by_length by lia.
      split; [split; discriminate|discriminate]. }
  split.
  { intros series. unfold tickInterval.
    destruct (60 <? length series)%nat; [|discriminate].
    unfold JS.js_div, num_div. simpl. discriminate. }
  intros index. split; reflexivity.
Qed.

End Divisions.

(** Two rows of the genre table, one with books sold and one without. *)
Lemma C9_divisions_guarded_witness :
  Pages.genreAvgRevenuePerBook (λ _, JS.NaN) (λ _, "") Spec.fiction_row =
    JS.Normal (JS.Quotient (JS.Fin (inject_Z 10 / inject_Z 4)))
  ∧ Pages.genreAvgRevenuePerBook (λ _, JS.NaN) (λ _, "") Spec.unsold_row =
      JS.Normal (JS.Quotient (JS.Fin 0)).
Proof.
  destruct (proj1 (C9_divisions_guarded (λ _, JS.NaN) (λ _, ""))
              Spec.fiction_row (JS.num 4) eq_refl) as [_ Hyes].
  destruct (proj1 (C9_divisions_guarded (λ _, JS.NaN) (λ _, ""))
              Spec.unsold_row (JS.num 0) eq_refl) as [Hno _].
  destruct (Hyes eq_refl) as (q & Hq & _ & Hg & _ & Hd).
  destruct (Hno eq_refl) as [Hz _].
  split; [|exact Hz].
  rewrite Hg, Hd. injection Hq as <-. reflexivity.
Defined.

(** ** The aggregate views (setup_analytics_data.sh, lines 384-439) *)

Section Grouping.
Import Warehouse Spec.
Context {K R : Type} `{EqDecision K}.
Implicit Types (k : K) (r : R) (groups : list (K * list R)).

Lemma group_of_insert k r k' groups :
  group_of k' (group_insert k r groups) =
    if decide (k' = k) then Some (default [] (group_of k groups) ++ [r])
    else group_of k' groups.
Proof.
  induction groups as [|[k0 rs] groups IH]; simpl.
  - destruct (decide (k' = k)); reflexivity.
  - destruct (decide (k = k0)) as [->|Hne]; simpl.
    + destruct (decide (k' = k0)); reflexivity.
    + destruct (decide (k' = k0)) as [->|Hne'].
      * destruct (decide (k0 = k)); [congruence|reflexivity].
      * rewrite IH. reflexivity.
Qed.

Lemma group_insert_keys_old k r groups :
  k ∈ groups.*1 → (group_insert k r groups).*1 = groups.*1.
Proof.
  induction groups as [|[k0 rs] groups IH]; simpl; intros Hin.
  - apply elem_of_nil in Hin. contradiction.
  - destruct (decide (k = k0)) as [->|Hne]; simpl; [reflexivity|].
    apply elem_of_cons in Hin as [?|Hin]; [congruence|].
    f_equal. apply IH, Hin.
Qed.

Lemma group_insert_keys_new k r groups :
  k ∉ groups.*1 → (group_insert k r groups).*1 = groups.*1 ++ [k].
Proof.
  induction groups as [|[k0 rs] groups IH]; simpl; intros Hn.
  - reflexivity.
  - destruct (decide (k = k0)) as [->|Hne]; simpl.
    + exfalso. apply Hn. left.
    + f_equal. apply IH. intros Hin. apply Hn. right. exact Hin.
Qed.

Lemma group_insert_NoDup k r groups :
  NoDup groups.*1 → NoDup (group_insert k r groups).*1.
Proof.
  intros Hnd. destruct (decide (k ∈ groups.*1)) as [Hin|Hn].
  - rewrite group_insert_keys_old by exact Hin. exact Hnd.
  - rewrite group_insert_keys_new by exact Hn.
    apply NoDup_app. split; [exact Hnd|]. split.
    + intros x Hx Hk. apply list_elem_of_singleton in Hk. subst.
      contradiction.
    + apply NoDup_singleton.
Qed.

Lemma GROUP_BY_snoc (key : R → K) rows r :
  GROUP_BY key (rows ++ [r]) = group_insert (key r) r (GROUP_BY key rows).
Proof. unfold GROUP_BY. rewrite fold_left_app. reflexivity. Qed.

Lemma GROUP_BY_NoDup (key : R → K) rows : NoDup (GROUP_BY key rows).*1.
Proof.
  induction rows as [|r rows IH] using rev_ind.
  - constructor.
  - rewrite GROUP_BY_snoc. apply group_insert_NoDup, IH.
Qed.

(** The group a key gets is the list of the rows with that key, in table
    order; a key without rows gets no group. *)
Lemma group_of_GROUP_BY (key : R → K) rows k :
  group_of k (GROUP_BY key rows) =
    match filter (λ r, key r = k) rows with
    | [] => None
    | rs => Some rs
    end.
Proof.
  induction rows as [|r rows IH] using rev_ind; [reflexivity|].
  rewrite GROUP_BY_snoc, group_of_insert, filter_app.
  destruct (decide (k = key r)) as [->|Hne].
  - rewrite IH. rewrite (filter_cons_True _ r []) by reflexivity.
    rewrite filter_nil.
    destruct (filter (λ r0, key r0 = key r) rows); reflexivity.
  - rewrite IH. rewrite (filter_cons_False _ r []) by congruence.
    rewrite filter_nil, app_nil_r. reflexivity.
Qed.

Lemma elem_of_groups groups k (rs : list R) :
  NoDup groups.*1 → (k, rs) ∈ groups ↔ group_of k groups = Some rs.
Proof.
  induction groups as [|[k0 rs0] groups IH]; simpl; intros Hnd.
  - split; [intros Hin; apply elem_of_nil in Hin; contradiction
           |discriminate].
  - apply NoDup_cons in Hnd as [Hk0 Hnd].
    rewrite elem_of_cons. destruct (decide (k = k0)) as [->|Hne].
    + split.
      * intros [[= ->]|Hin]; [reflexivity|].
        exfalso. apply Hk0. apply list_elem_of_fmap.
        exists (k0, rs). split; [reflexivity|exact Hin].
      * intros [= ->]. left. reflexivity.
    + rewrite <- (IH Hnd). split.
      * intros [[= -> _]|Hin]; [congruence|exact Hin].
      * intros Hin. right. exact Hin.
Qed.

Lemma GROUP_BY_spec (key : R → K) rows k rs :
  (k, rs) ∈ GROUP_BY key rows ↔
    rs = filter (λ r, key r = k) rows ∧ rs ≠ [].
Proof.
  rewrite (elem_of_groups _ _ _ (GROUP_BY_NoDup key rows)).
  rewrite group_of_GROUP_BY.
  destruct (filter (λ r, key r = k) rows) as [|r0 rs0].
  - split; [discriminate|]. intros [-> Hne]. contradiction.
  - split.
    + intros [= <-]. split; [reflexivity|discriminate].
    + intros [-> _]. reflexivity.
Qed.

End Grouping.

Section Views.
Import Warehouse Spec.

Lemma total_Permutation xs ys : xs ≡ₚ ys → total xs = total ys.
Proof. unfold total. induction 1; simpl; lia. Qed.

Lemma SUM_fold {R} (column : R → option Z) rows acc :
  fold_left (λ acc r, match column r, acc with
                      | None, _ => acc
                      | Some x, None => Some x
                      | Some x, Some a => Some (a + x)%Z
                      end) rows acc =
    match omap column rows with
    | [] => acc
    | xs => Some (default 0%Z acc + total xs)%Z
    end.
Proof.
  revert acc. induction rows as [|r rows IH]; intros acc; [reflexivity|].
  simpl. rewrite IH. destruct (column r) as [x|]; [|reflexivity].
  unfold total. simpl.
  change (list_omap R Z column rows) with (omap column rows).
  destruct (omap column rows) as [|y ys]; destruct acc as [a|]; simpl;
    f_equal; lia.
Qed.

Lemma SUM_total {R} (column : R → option Z) rows :
  SUM column rows =
    match omap column rows with
    | [] => None
    | xs => Some (total xs)
    end.
Proof.
  unfold SUM. rewrite SUM_fold.
  destruct (omap column rows); [reflexivity|]. reflexivity.
Qed.

Lemma SUM_Permutation {R} (column : R → option Z) rows rows' :
  rows ≡ₚ rows' → SUM column rows = SUM column rows'.
Proof.
  intros Hp. rewrite !SUM_total.
  pose proof (omap_Permutation column _ _ Hp) as Ho.
  destruct (omap column rows) as [|x xs] eqn:E;
    destruct (omap column rows') as [|y ys] eqn:E'.
  - reflexivity.
  - apply Permutation_length in Ho. discriminate.
  - apply Permutation_length in Ho. discriminate.
  - f_equal. apply total_Permutation, Ho.
Qed.

Lemma SUM_fmap {A R} (f : A → R) (column : R → option Z) (l : list A) :
  SUM (λ a, column (f a)) l = SUM column (f <$> l).
Proof.
  assert (Ho : omap column (f <$> l) = omap (λ a, column (f a)) l).
  { induction l as [|a l IH]; [reflexivity|].
    simpl. destruct (column (f a)); [f_equal|]; exact IH. }
  rewrite !SUM_total, Ho. reflexivity.
Qed.

Lemma aggregate_eta {K} (a : aggregate K) k n q v :
  key a = k → num_sales a = n → total_quantity a = q → total_revenue a = v →
  a = {| key := k; num_sales := n; total_quantity := q; total_revenue := v |}.
Proof. destruct a; simpl; intros; subst; reflexivity. Qed.

(** A sorted list of aggregated groups, as a view over the table. *)
Lemma grouped_view {K} `{EqDecision K} (key_fn : fact_sales.row → K)
    (sales : list fact_sales.row)
    (order : relation (aggregate K)) `{∀ a b, Decision (order a b)} :
  aggregates_over (λ s, Some (key_fn s)) sales
    (merge_sort order (select_aggregates <$> GROUP_BY key_fn sales)).
Proof.
  split.
  - rewrite merge_sort_Permutation, <- list_fmap_compose.
    apply (GROUP_BY_NoDup key_fn sales).
  - intros a. rewrite merge_sort_Permutation, list_elem_of_fmap.
    cbv zeta.
    rewrite (list_filter_iff (λ s, Some (key_fn s) = Some (key a))
               (λ s, key_fn s = key a)) by (intros s; split; congruence).
    split.
    + intros ([k rs] & -> & Hin). apply GROUP_BY_spec in Hin as [-> Hne].
      simpl. auto.
    + intros (Hne & Hn & Hq & Hv).
      exists (key a, filter (λ s, key_fn s = key a) sales). split.
      * apply aggregate_eta; auto.
      * apply GROUP_BY_spec. auto.
Qed.

(** *** The join views *)

Lemma JOIN_cons b books sales :
  JOIN (b :: books) sales =
    ((λ s, (b, s)) <$>
       filter (λ s, fact_sales.book_id s = Some (dim_book.book_id b)) sales)
    ++ JOIN books sales.
Proof.
  unfold JOIN. rewrite bind_cons.
  apply (f_equal (λ l, l ++ _)).
  induction (filter _ sales) as [|s l IH]; [reflexivity|].
  rewrite bind_cons, IH. reflexivity.
Qed.

Lemma book_of_cons b books s :
  book_of (b :: books) s =
    if decide (fact_sales.book_id s = Some (dim_book.book_id b))
    then Some b else book_of books s.
Proof.
  unfold book_of. destruct (fact_sales.book_id s) as [id|].
  - destruct (decide (dim_book.book_id b = id)) as [Heq|Hne].
    + rewrite filter_cons_True by exact Heq.
      rewrite decide_True by congruence. reflexivity.
    + rewrite filter_cons_False by exact Hne.
      rewrite decide_False by congruence. reflexivity.
  - rewrite decide_False by discriminate. reflexivity.
Qed.

Lemma book_of_absent books s id :
  id ∉ dim_book.book_id <$> books →
  fact_sales.book_id s = Some id →
  book_of books s = None.
Proof.
  intros Hn Hs. unfold book_of. rewrite Hs.
  induction books as [|b books IH]; [reflexivity|].
  rewrite fmap_cons, not_elem_of_cons in Hn. destruct Hn as [Hne Hn].
  rewrite filter_cons_False by congruence. apply IH, Hn.
Qed.

(** A filter whose predicate is the union of two exclusive cases. *)
Lemma filter_exclusive {A} (P Q1 Q2 : A → Prop)
    `{∀ x, Decision (P x)} `{∀ x, Decision (Q1 x)} `{∀ x, Decision (Q2 x)}
    (l : list A) :
  (∀ x, P x ↔ Q1 x ∨ Q2 x) → (∀ x, Q1 x → Q2 x → False) →
  filter P l ≡ₚ filter Q1 l ++ filter Q2 l.
Proof.
  intros Hiff Hex. induction l as [|x l IH]; [reflexivity|].
  destruct (decide (Q1 x)) as [Hq1|Hq1];
    destruct (decide (Q2 x)) as [Hq2|Hq2].
  - exfalso. eauto.
  - rewrite (filter_cons_True P) by (apply Hiff; auto).
    rewrite (filter_cons_True Q1), (filter_cons_False Q2) by assumption.
    simpl. rewrite IH. reflexivity.
  - rewrite (filter_cons_True P) by (apply Hiff; auto).
    rewrite (filter_cons_False Q1), (filter_cons_True Q2) by assumption.
    rewrite IH. apply Permutation_middle.
  - rewrite (filter_cons_False P) by (rewrite Hiff; tauto).
    rewrite (filter_cons_False Q1), (filter_cons_False Q2) by assumption.
    exact IH.
Qed.

(** The sales that the join files under a key are, up to their order, the
    sales whose book falls under the key. *)
Lemma JOIN_group {K} `{EqDecision K} (g : dim_book.row → K) books sales k :
  NoDup (dim_book.book_id <$> books) →
  (filter (λ p, g p.1 = k) (JOIN books sales)).*2
    ≡ₚ filter (λ s, g <$> book_of books s = Some k) sales.
Proof.
  induction books as [|b books IH]; intros Hnd.
  - simpl. rewrite (list_filter_iff _ (λ _, False)).
    + induction sales as [|s sales IHs]; [reflexivity|].
      rewrite filter_cons_False by tauto. exact IHs.
    + intros s. unfold book_of. destruct (fact_sales.book_id s); simpl;
        split; (discriminate || tauto).
  - rewrite fmap_cons in Hnd. apply NoDup_cons in Hnd as [Hb Hnd].
    rewrite JOIN_cons, filter_app, fmap_app, (IH Hnd).
    rewrite (filter_exclusive
               (λ s, g <$> book_of (b :: books) s = Some k)
               (λ s, fact_sales.book_id s = Some (dim_book.book_id b)
                     ∧ g b = k)
               (λ s, g <$> book_of books s = Some k)).
    + apply Permutation_app_tail. clear IH.
      induction sales as [|s sales IHs]; [reflexivity|].
      destruct (decide (fact_sales.book_id s = Some (dim_book.book_id b)))
        as [Hs|Hs].
      * rewrite (filter_cons_True _ s sales) by exact Hs.
        rewrite fmap_cons.
        destruct (decide (g b = k)) as [Hg|Hg].
        -- rewrite (filter_cons_True _ (b, s)) by exact Hg.
           rewrite (filter_cons_True _ s sales) by auto.
           rewrite fmap_cons. simpl. rewrite IHs. reflexivity.
        -- rewrite (filter_cons_False _ (b, s)) by exact Hg.
           rewrite (filter_cons_False _ s sales) by tauto.
           exact IHs.
      * rewrite (filter_cons_False _ s sales) by exact Hs.
        rewrite (filter_cons_False _ s sales) by tauto.
        exact IHs.
    + intros s. rewrite book_of_cons.
      destruct (decide (fact_sales.book_id s = Some (dim_book.book_id b)))
        as [Hs|Hs]; simpl.
      * rewrite (book_of_absent books s _ Hb Hs). simpl.
        split; [intros [= <-]; auto|].
        intros [[_ <-]|?]; [reflexivity|discriminate].
      * split; [auto|]. intros [[? _]|?]; [contradiction|assumption].
    + intros s [Hs _] Hk. rewrite (book_of_absent books s _ Hb Hs) in Hk.
      discriminate.
Qed.

(** A sorted list of aggregated groups of the join, as a view over the
    fact table. *)
Lemma joined_view {K} `{EqDecision K} (g : dim_book.row → K)
    (books : list dim_book.row) (sales : list fact_sales.row)
    (order : relation (aggregate K)) `{∀ a b, Decision (order a b)} :
  NoDup (dim_book.book_id <$> books) →
  aggregates_over (λ s, g <$> book_of books s) sales
    (merge_sort order
       (select_join_aggregates <$>
          GROUP_BY (λ p, g p.1) (JOIN books sales))).
Proof.
  intros Hnd. split.
  - rewrite merge_sort_Permutation, <- list_fmap_compose.
    apply (GROUP_BY_NoDup (λ p, g p.1) (JOIN books sales)).
  - intros a. rewrite merge_sort_Permutation, list_elem_of_fmap.
    cbv zeta.
    pose proof (JOIN_group g books sales (key a) Hnd) as Hperm.
    set (pairs := filter (λ p, g p.1 = key a) (JOIN books sales)) in *.
    set (subset := filter (λ s, g <$> book_of books s = Some (key a)) sales)
      in *.
    assert (Hcount : COUNT pairs = COUNT subset).
    { unfold COUNT. rewrite <- (length_fmap snd pairs), Hperm. reflexivity. }
    assert (Hq : SUM (λ p, fact_sales.quantity p.2) pairs =
                 SUM fact_sales.quantity subset).
    { rewrite (SUM_fmap snd). apply SUM_Permutation, Hperm. }
    assert (Hv : SUM (λ p, fact_sales.sale_amount p.2) pairs =
                 SUM fact_sales.sale_amount subset).
    { rewrite (SUM_fmap snd). apply SUM_Permutation, Hperm. }
    assert (Hnil : pairs ≠ [] ↔ subset ≠ []).
    { split; intros Hne Heq; apply Hne.
      - rewrite Heq in Hperm. apply Permutation_nil_r in Hperm.
        destruct pairs; [reflexivity|discriminate].
      - rewrite Heq in Hperm. simpl in Hperm.
        apply Permutation_nil in Hperm. exact Hperm. }
    split.
    + intros ([k ps] & -> & Hin). apply GROUP_BY_spec in Hin as [-> Hne].
      simpl in *. fold pairs. fold pairs in Hne.
      rewrite <- Hcount, <- Hq, <- Hv. tauto.
    + intros (Hne & Hn & Hq' & Hv').
      exists (key a, pairs). split.
      * apply aggregate_eta; simpl; congruence.
      * apply GROUP_BY_spec. tauto.
Qed.

Example demo_sales_by_region :
  sales_by_region demo_db =
    [ {| key := Some "Europe"; num_sales := 2; total_quantity := Some 3%Z;
         total_revenue := Some 2997%Z |};
      {| key := None; num_sales := 1; total_quantity := Some 3%Z;
         total_revenue := Some 1200%Z |};
      {| key := Some "Asia"; num_sales := 1; total_quantity := Some 1%Z;
         total_revenue := Some 550%Z |} ].
Proof. vm_compute. reflexivity. Qed.

Example demo_sales_by_genre :
  sales_by_genre demo_db =
    [ {| key := Some "Science Fiction"; num_sales := 2;
         total_quantity := Some 3%Z; total_revenue := Some 2997%Z |};
      {| key := Some "Romance"; num_sales := 1; total_quantity := Some 1%Z;
         total_revenue := Some 550%Z |} ].
Proof. vm_compute. reflexivity. Qed.

Example demo_monthly_sales :
  monthly_sales demo_db =
    [ {| key := Some {| year := 2024; month := 5; day := 1 |};
         num_sales := 4; total_quantity := Some 7%Z;
         total_revenue := Some 4747%Z |} ].
Proof. vm_compute. reflexivity. Qed.

(** C2 (as amended).  Each of the five aggregate views is a function of
    the tables as they are when the view is read.  It has one row per group
    key under which at least one sale falls, and that row holds the count
    of those sales and the sums of their [quantity] and [sale_amount].  For
    [sales_by_day], [sales_by_region] and [monthly_sales] a sale falls under
    its own day, region or month, for every content of [fact_sales]; for
    [sales_by_genre] and [top_books] it falls under the genre, or the
    book, of the [dim_book] row it joins to, sales without such a row being
    left out, provided no two rows of [dim_book] have the same [book_id].
    In particular the views read after a [COPY] are the aggregates of the
    table as loaded. *)
Theorem C2_views_are_aggregates (db : database) :
  aggregates_over (λ s, Some (date_trunc_day <$> fact_sales.sale_date s))
    (fact_sales db) (sales_by_day db)
  ∧ aggregates_over (λ s, Some (fact_sales.region s))
      (fact_sales db) (sales_by_region db)
  ∧ aggregates_over (λ s, Some (date_trunc_month <$> fact_sales.sale_date s))
      (fact_sales db) (monthly_sales db)
  ∧ (NoDup (dim_book.book_id <$> dim_book db) →
     aggregates_over (λ s, dim_book.genre <$> book_of (dim_book db) s)
       (fact_sales db) (sales_by_genre db)
     ∧ aggregates_over (λ s, book_key <$> book_of (dim_book db) s)
         (fact_sales db) (top_books db))
  ∧ (∀ rows,
       aggregates_over (λ s, Some (date_trunc_day <$> fact_sales.sale_date s))
         (fact_sales db ++ rows) (sales_by_day (copy_fact_sales rows db))
       ∧ aggregates_over (λ s, Some (fact_sales.region s))
           (fact_sales db ++ rows) (sales_by_region (copy_fact_sales rows db))
       ∧ aggregates_over
           (λ s, Some (date_trunc_month <$> fact_sales.sale_date s))
           (fact_sales db ++ rows) (monthly_sales (copy_fact_sales rows db))
       ∧ (NoDup (dim_book.book_id <$> dim_book db) →
          aggregates_over (λ s, dim_book.genre <$> book_of (dim_book db) s)
            (fact_sales db ++ rows) (sales_by_genre (copy_fact_sales rows db))
          ∧ aggregates_over (λ s, book_key <$> book_of (dim_book db) s)
              (fact_sales db ++ rows) (top_books (copy_fact_sales rows db)))).
Proof.
  assert (Hall : ∀ d : database,
    aggregates_over (λ s, Some (date_trunc_day <$> fact_sales.sale_date s))
      (fact_sales d) (sales_by_day d)
    ∧ aggregates_over (λ s, Some (fact_sales.region s))
        (fact_sales d) (sales_by_region d)
    ∧ aggregates_over
        (λ s, Some (date_trunc_month <$> fact_sales.sale_date s))
        (fact_sales d) (monthly_sales d)
    ∧ (NoDup (dim_book.book_id <$> dim_book d) →
       aggregates_over (λ s, dim_book.genre <$> book_of (dim_book d) s)
         (fact_sales d) (sales_by_genre d)
       ∧ aggregates_over (λ s, book_key <$> book_of (dim_book d) s)
           (fact_sales d) (top_books d))).
  { intros d.
    split; [apply grouped_view|]. split; [apply grouped_view|].
    split; [apply grouped_view|].
    intros Hnd. split; apply joined_view, Hnd. }
  destruct (Hall db) as (H1 & H2 & H3 & H4).
  repeat (split; [assumption|]).
  intros rows. exact (Hall (copy_fact_sales rows db)).
Qed.

(** On the small warehouse: Science Fiction sold twice, three books. *)
Lemma C2_views_are_aggregates_witness :
  NoDup (dim_book.book_id <$> dim_book demo_db)
  ∧ aggregates_over (λ s, dim_book.genre <$> book_of (dim_book demo_db) s)
      (fact_sales demo_db) (sales_by_genre demo_db)
  ∧ {| key := Some "Science Fiction"; num_sales := 2;
       total_quantity := Some 3%Z; total_revenue := Some 2997%Z |}
      ∈ sales_by_genre demo_db.
Proof.
  assert (Hnd : NoDup (dim_book.book_id <$> dim_book demo_db)).
  { apply (bool_decide_unpack _). reflexivity. }
  split; [exact Hnd|].
  destruct (C2_views_are_aggregates demo_db) as (_ & _ & _ & Hjoin & _).
  destruct (Hjoin Hnd) as [Hgenre _].
  split; [exact Hgenre|].
  apply (proj2 Hgenre). simpl. repeat split; discriminate || reflexivity.
Defined.

(** Rows that all pass a filter are all of the list, and rows that all
    fail it leave nothing. *)
Lemma filter_keeps_all {A} (P : A → Prop) `{∀ x, Decision (P x)} l :
  length (filter P l) = length l → Forall P l.
Proof.
  induction l as [|x l IH]; [constructor|].
  rewrite filter_cons. destruct (decide (P x)) as [Hx|Hx]; simpl.
  - intros [= Hl]. constructor; auto.
  - intros Hl. pose proof (length_filter P l). lia.
Qed.

Lemma filter_keeps_none {A} (P Q : A → Prop) `{∀ x, Decision (P x)} l :
  Forall Q l → (∀ x, Q x → ¬ P x) → filter P l = [].
Proof.
  intros Hall Hno. induction Hall as [|x l Hx _ IH]; [reflexivity|].
  rewrite filter_cons. destruct (decide (P x)) as [HP|_]; [|exact IH].
  destruct (Hno x Hx HP).
Qed.

(** The claim as first stated holds the join views to be counts and sums
    over rows of [fact_sales] whatever the tables contain.  In the
    reloaded warehouse the two books are there twice, and the join pairs
    every sale with both rows of its book: [sales_by_genre] counts eight
    Science Fiction sales where four sales of the table are of a Science
    Fiction book, and no way of filing the sales under keys makes the view
    the counts and sums of the sales filed under each key. *)
Lemma C2_counterexample_duplicate_book_id :
  sales_by_genre reloaded_db =
    [ {| key := Some "Science Fiction"; num_sales := 8;
         total_quantity := Some 12%Z; total_revenue := Some 11988%Z |};
      {| key := Some "Romance"; num_sales := 4; total_quantity := Some 4%Z;
         total_revenue := Some 2200%Z |} ]
  ∧ COUNT (fact_sales reloaded_db) = 8%Z
  ∧ COUNT (filter (λ s, dim_book.genre <$> book_of (dim_book reloaded_db) s
                          = Some (Some "Science Fiction"))
             (fact_sales reloaded_db)) = 4%Z
  ∧ ¬ aggregates_over
        (λ s, dim_book.genre <$> book_of (dim_book reloaded_db) s)
        (fact_sales reloaded_db) (sales_by_genre reloaded_db)
  ∧ ∀ key_of : fact_sales.row → option (option string),
      ¬ aggregates_over key_of (fact_sales reloaded_db)
          (sales_by_genre reloaded_db).
Proof.
  assert (Hview : sales_by_genre reloaded_db =
    [ {| key := Some "Science Fiction"; num_sales := 8;
         total_quantity := Some 12%Z; total_revenue := Some 11988%Z |};
      {| key := Some "Romance"; num_sales := 4; total_quantity := Some 4%Z;
         total_revenue := Some 2200%Z |} ]).
  { vm_compute. reflexivity. }
  assert (Hnone : ∀ key_of : fact_sales.row → option (option string),
            ¬ aggregates_over key_of (fact_sales reloaded_db)
                (sales_by_genre reloaded_db)).
  { intros key_of [_ Hrows]. rewrite Hview in Hrows.
    destruct (proj1 (Hrows _) (list_elem_of_here _ _)) as (_ & Hcount & _).
    destruct (proj1 (Hrows _)
                (list_elem_of_further _ _ _ (list_elem_of_here _ _)))
      as (Hromance & _).
    cbv zeta in Hcount, Hromance. cbn [key num_sales] in Hcount, Hromance.
    apply Hromance.
    apply filter_keeps_none
      with (Q := λ s, key_of s = Some (Some "Science Fiction")).
    - apply (filter_keeps_all
               (λ s, key_of s = Some (Some "Science Fiction"))).
      unfold COUNT in Hcount. apply Nat2Z.inj. rewrite <- Hcount.
      reflexivity.
    - intros s Hs. rewrite Hs. discriminate. }
  split; [exact Hview|]. split; [reflexivity|].
  split; [vm_compute; reflexivity|]. split; [apply Hnone|exact Hnone].
Qed.

End Views.

(** ** The generator/loader script (setup_analytics_data.sh) *)

Section Script.
Import Warehouse Loader Spec.

Lemma upload_file_run file what ok key w :
  ((upload_file file what ok key w).1 = [] ∨
   (upload_file file what ok key w).1 = [what])
  ∧ warehouse (upload_file file what ok key w).2 = warehouse w
  ∧ books_file (upload_file file what ok key w).2 = books_file w
  ∧ sales_file (upload_file file what ok key w).2 = sales_file w.
Proof.
  unfold upload_file, upload_to_s3. destruct file, ok; simpl; auto.
Qed.

Lemma upload_trace e w :
  (upload e w).1 `sublist_of` [UploadBooks; UploadSales].
Proof.
  unfold upload.
  destruct (upload_file_run (books_file w) UploadBooks (upload_books_ok e)
              (books_key (upload_date e)) w) as (H1 & _).
  destruct (upload_file _ UploadBooks _ _ w) as [t1 w1]. simpl in H1.
  destruct (upload_file_run (sales_file w1) UploadSales (upload_sales_ok e)
              (sales_key (upload_date e)) w1) as (H2 & _).
  destruct (upload_file _ UploadSales _ _ w1) as [t2 w2]. simpl in *.
  destruct H1 as [-> | ->], H2 as [-> | ->]; repeat constructor.
Qed.


Lemma upload_warehouse e w : warehouse (upload e w).2 = warehouse w.
Proof.
  unfold upload.
  destruct (upload_file_run (books_file w) UploadBooks (upload_books_ok e)
              (books_key (upload_date e)) w) as (_ & H1 & _).
  destruct (upload_file _ UploadBooks _ _ w) as [t1 w1]. simpl in H1.
  destruct (upload_file_run (sales_file w1) UploadSales (upload_sales_ok e)
              (sales_key (upload_date e)) w1) as (_ & H2 & _).
  destruct (upload_file _ UploadSales _ _ w1) as [t2 w2]. simpl in *.
  congruence.
Qed.






(** The three phases one after the other. *)
Lemma phases_run s e w :
  let w1 := if SKIP_GENERATE s then w else generate e w in
  let w2 := if SKIP_UPLOAD s then w1 else (upload e w1).2 in
  phases s e w =
    ((if SKIP_GENERATE s then [] else [Generate])
     ++ (if SKIP_UPLOAD s then [] else (upload e w1).1)
     ++ (if SKIP_REDSHIFT s then []
         else RecreateTables :: (load e (create_schema e w2)).1),
     if SKIP_REDSHIFT s then w2 else (load e (create_schema e w2)).2).
Proof.
  unfold phases.
  destruct (SKIP_GENERATE s), (SKIP_UPLOAD s), (SKIP_REDSHIFT s); simpl;
    try (destruct (upload e _) as [t2 w2]; simpl);
    try (destruct (load e _) as [t3 w3]; simpl); reflexivity.
Qed.



Lemma sublist_elem {A} (l1 l2 : list A) x :
  l1 `sublist_of` l2 → x ∈ l1 → x ∈ l2.
Proof.
  induction 1; intros Hin.
  - exact Hin.
  - apply elem_of_cons in Hin as [->|Hin]; [left|right; auto].
  - right. auto.
Qed.


Lemma upload_steps e w x :
  x ∈ (upload e w).1 → x = UploadBooks ∨ x = UploadSales.
Proof.
  intros H. apply (sublist_elem _ _ _ (upload_trace e w)) in H.
  apply elem_of_cons in H as [->|H]; [auto|].
  apply elem_of_cons in H as [->|H]; [auto|].
  apply elem_of_nil in H. contradiction.
Qed.







(** Outside the amended claim: when the schema script fails, the script
    goes on to the load all the same, and the [COPY] appends to the rows
    that an earlier run left in the tables. *)
Example failed_schema_then_copy_appends :
  ∃ w', run ["my-bucket"; "cluster.example.com"; "--skip-generate";
             "--skip-upload"; "--iam-role"; "arn:role"]
          (schema_failure demo_books demo_sales) loaded_world =
          (Completed, [RecreateTables; CopyBooks; CopySales], w')
      ∧ warehouse w' =
          Some {| dim_book := demo_books ++ demo_books;
                  fact_sales := demo_sales ++ demo_sales |}.
Proof. eexists. split; reflexivity. Qed.

(** An option that lacks its value keeps the parser looping. *)
Example missing_value_hangs :
  run ["my-bucket"; "cluster.example.com"; "--database"]
    (fair_weather demo_books demo_sales) fresh_world =
    (Hung, [], fresh_world).
Proof. reflexivity. Qed.

End Script.

(** ** The synthetic sale generator (setup_analytics_data.sh, lines 209-254) *)

Section Sales.
Import Generator Spec.

(** The arithmetic of the model on values taken from a run of the script's
    Python code. *)
Example sub_rounds_to_28_digits :
  sub (of_int 1)
    {| coefficient := 29528034191195617896852354533621110022068023681640625;
       exponent := -53 |} =
    {| coefficient := 7047196580880438210314764547; exponent := -28 |}.
Proof. vm_compute. reflexivity. Qed.

Example discounted_amount_1 :
  mul (mul (cents 2280) (of_int 1))
    {| coefficient := 7047196580880438210314764547; exponent := -28 |} =
    {| coefficient := 1606760820440739911951766317; exponent := -26 |}
  ∧ round2 {| coefficient := 1606760820440739911951766317;
              exponent := -26 |} = 1607%Z.
Proof. split; vm_compute; reflexivity. Qed.

Example discounted_amount_2 :
  round2 (mul (mul (cents 2834) (of_int 2))
            (sub (of_int 1)
               {| coefficient :=
                    137140588344893676886471212128526531159877777099609375;
                  exponent := -54 |})) = 4891%Z.
Proof. vm_compute. reflexivity. Qed.

Example round2_ties_to_even :
  round2 {| coefficient := 2675; exponent := -3 |} = 268%Z
  ∧ round2 {| coefficient := 2665; exponent := -3 |} = 266%Z
  ∧ round2 {| coefficient := -2675; exponent := -3 |} = (-268)%Z.
Proof. repeat split; vm_compute; reflexivity. Qed.

Example rounding_carries :
  mul {| coefficient := 99999999999999999999999999995; exponent := -1 |}
    (of_int 1) =
    {| coefficient := 1000000000000000000000000000; exponent := 1 |}.
Proof. vm_compute. reflexivity. Qed.

Example uuid4_of_bytes :
  uuid4 5233100606242806050955395731361295 =
    5233100606545046729231089879813647%Z
  ∧ uuid_str 5233100606545046729231089879813647 =
      "00010203-0405-4607-8809-0a0b0c0d0e0f".
Proof. split; vm_compute; reflexivity. Qed.

Example quantity_by_weight :
  choices [1; 2; 3; 4; 5]%Z [70; 15; 10; 3; 2]%Z 0 = Some 1%Z
  ∧ choices [1; 2; 3; 4; 5]%Z [70; 15; 10; 3; 2]%Z (1 # 2) = Some 1%Z
  ∧ choices [1; 2; 3; 4; 5]%Z [70; 15; 10; 3; 2]%Z (3 # 4) = Some 2%Z
  ∧ choices [1; 2; 3; 4; 5]%Z [70; 15; 10; 3; 2]%Z (7 # 8) = Some 3%Z
  ∧ choices [1; 2; 3; 4; 5]%Z [70; 15; 10; 3; 2]%Z (31 # 32) = Some 4%Z
  ∧ choices [1; 2; 3; 4; 5]%Z [70; 15; 10; 3; 2]%Z
      (9007199254740991 # 9007199254740992) = Some 5%Z.
Proof. repeat split; vm_compute; reflexivity. Qed.

(** The doubles nearest to 0.7, 0.85, 0.95 and 0.98 lie below these
    numbers, yet a hundred times each of them is the double 70, 85, 95 or
    98: the product is rounded, and the quantity is the next one. *)
Example quantity_at_rounded_products :
  float_mul (3152519739159347 # 4503599627370496) 100 == 70
  ∧ choices [1; 2; 3; 4; 5]%Z [70; 15; 10; 3; 2]%Z
      (3152519739159347 # 4503599627370496) = Some 2%Z
  ∧ choices [1; 2; 3; 4; 5]%Z [70; 15; 10; 3; 2]%Z
      (7656119366529843 # 9007199254740992) = Some 3%Z
  ∧ choices [1; 2; 3; 4; 5]%Z [70; 15; 10; 3; 2]%Z
      (4278419646001971 # 4503599627370496) = Some 4%Z
  ∧ choices [1; 2; 3; 4; 5]%Z [70; 15; 10; 3; 2]%Z
      (2206763817411543 # 2251799813685248) = Some 5%Z.
Proof. repeat split; vm_compute; reflexivity. Qed.

(** *** Rounding *)

Local Open Scope Z_scope.

Lemma round_half_even_bounds n d :
  0 < d →
  2 * d * round_half_even n d - d ≤ 2 * n ≤ 2 * d * round_half_even n d + d.
Proof.
  intros Hd. unfold round_half_even.
  pose proof (Z.div_mod n d ltac:(lia)) as Hn.
  pose proof (Z.mod_pos_bound n d Hd) as Hr.
  destruct (Z.ltb_spec (2 * (n mod d)) d);
    [|destruct (Z.ltb_spec d (2 * (n mod d)));
       [|destruct (Z.even (n / d))]]; nia.
Qed.

(** Rounding does not cross an integer. *)
Lemma round_half_even_le n d β :
  0 < d → n ≤ β * d → round_half_even n d ≤ β.
Proof.
  intros Hd Hn. pose proof (round_half_even_bounds n d Hd) as [H _]. nia.
Qed.

Lemma round_half_even_ge n d β :
  0 < d → β * d ≤ n → β ≤ round_half_even n d.
Proof.
  intros Hd Hn. pose proof (round_half_even_bounds n d Hd) as [_ H]. nia.
Qed.




(** What ties-to-even adds to the bounds: a result half a unit away from
    the exact quotient is even. *)
Lemma round_half_even_tie n d :
  0 < d →
  2 * n = 2 * d * round_half_even n d + d
  ∨ 2 * n = 2 * d * round_half_even n d - d →
  Z.even (round_half_even n d) = true.
Proof.
  intros Hd. unfold round_half_even.
  pose proof (Z.div_mod n d ltac:(lia)) as Hn.
  pose proof (Z.mod_pos_bound n d Hd) as Hr.
  destruct (Z.ltb_spec (2 * (n mod d)) d);
    [|destruct (Z.ltb_spec d (2 * (n mod d)));
       [|destruct (Z.even (n / d)) eqn:Heven]].
  - intros [H'|H']; nia.
  - intros [H'|H']; nia.
  - intros _. exact Heven.
  - intros _. rewrite Z.even_add, Heven. reflexivity.
Qed.

(** Rounding is monotone in the exact quotient. *)
Lemma round_half_even_mono n1 d1 n2 d2 :
  0 < d1 → 0 < d2 → n1 * d2 ≤ n2 * d1 →
  round_half_even n1 d1 ≤ round_half_even n2 d2.
Proof.
  intros Hd1 Hd2 Hle.
  pose proof (round_half_even_bounds n1 d1 Hd1) as [Hlo1 _].
  pose proof (round_half_even_bounds n2 d2 Hd2) as [_ Hhi2].
  pose proof (round_half_even_tie n1 d1 Hd1) as Ht1.
  pose proof (round_half_even_tie n2 d2 Hd2) as Ht2.
  set (r1 := round_half_even n1 d1) in *.
  set (r2 := round_half_even n2 d2) in *.
  destruct (Z.le_gt_cases r1 r2) as [H|H]; [exact H|]. exfalso.
  assert (Hmul : (2 * d1 * r1 - d1) * d2 ≤ (2 * d2 * r2 + d2) * d1) by nia.
  assert (Hr : r1 = r2 + 1) by nia.
  assert (H1 : 2 * n1 = 2 * d1 * r1 - d1) by nia.
  assert (H2 : 2 * n2 = 2 * d2 * r2 + d2) by nia.
  specialize (Ht1 (or_intror H1)). specialize (Ht2 (or_introl H2)).
  rewrite Hr, Z.even_add, Ht2 in Ht1. discriminate.
Qed.



(** Comparison of decimals, read at any finer scale. *)
Lemma le_units a b g :
  le a b → g ≤ exponent a → g ≤ exponent b → units a g ≤ units b g.
Proof.
  unfold le, units. intros Hle Ha Hb.
  set (m := Z.min (exponent a) (exponent b)) in *.
  assert (Hm : g ≤ m) by (unfold m; lia).
  assert (HM : 0 < 10 ^ (m - g)) by (apply Z.pow_pos_nonneg; lia).
  replace (exponent a - g) with (exponent a - m + (m - g)) by lia.
  replace (exponent b - g) with (exponent b - m + (m - g)) by lia.
  rewrite !Z.pow_add_r by (unfold m; lia). nia.
Qed.

(** Rounding to cents against a bound [N * 10 ^ k]. *)
Lemma round2_upper a g N k :
  g ≤ exponent a → g ≤ k → k ≤ -2 → units a g ≤ N * 10 ^ (k - g) →
  round2 a ≤ round_half_even N (10 ^ (-2 - k)).
Proof.
  intros Hg Hgk Hk Hu. unfold units, round2 in *.
  set (c := coefficient a) in *. set (e := exponent a) in *.
  assert (HA : 0 < 10 ^ (k - g)) by (apply Z.pow_pos_nonneg; lia).
  assert (HB : 0 < 10 ^ (e - g)) by (apply Z.pow_pos_nonneg; lia).
  assert (HY : 0 < 10 ^ (-2 - k)) by (apply Z.pow_pos_nonneg; lia).
  destruct (Z.leb_spec (-2) e) as [He|He].
  - apply round_half_even_ge; [assumption|].
    assert (Hsplit :
      10 ^ (e - g) = 10 ^ (e + 2) * 10 ^ (-2 - k) * 10 ^ (k - g)).
    { rewrite <- !Z.pow_add_r by lia. f_equal. lia. }
    rewrite Hsplit in Hu.
    apply (Z.mul_le_mono_pos_r _ _ (10 ^ (k - g))); [assumption|]. lia.
  - assert (HX : 0 < 10 ^ (-2 - e)) by (apply Z.pow_pos_nonneg; lia).
    apply round_half_even_mono; [assumption|assumption|].
    assert (Hsplit :
      10 ^ (-2 - e) * 10 ^ (e - g) = 10 ^ (-2 - k) * 10 ^ (k - g)).
    { rewrite <- !Z.pow_add_r by lia. f_equal. lia. }
    apply (Z.mul_le_mono_pos_r _ _ (10 ^ (e - g))); [assumption|].
    rewrite <- (Z.mul_assoc N), Hsplit. nia.
Qed.

Lemma round2_lower a g N k :
  g ≤ exponent a → g ≤ k → k ≤ -2 → N * 10 ^ (k - g) ≤ units a g →
  round_half_even N (10 ^ (-2 - k)) ≤ round2 a.
Proof.
  intros Hg Hgk Hk Hu. unfold units, round2 in *.
  set (c := coefficient a) in *. set (e := exponent a) in *.
  assert (HA : 0 < 10 ^ (k - g)) by (apply Z.pow_pos_nonneg; lia).
  assert (HB : 0 < 10 ^ (e - g)) by (apply Z.pow_pos_nonneg; lia).
  assert (HY : 0 < 10 ^ (-2 - k)) by (apply Z.pow_pos_nonneg; lia).
  destruct (Z.leb_spec (-2) e) as [He|He].
  - apply round_half_even_le; [assumption|].
    assert (Hsplit :
      10 ^ (e - g) = 10 ^ (e + 2) * 10 ^ (-2 - k) * 10 ^ (k - g)).
    { rewrite <- !Z.pow_add_r by lia. f_equal. lia. }
    rewrite Hsplit in Hu.
    apply (Z.mul_le_mono_pos_r _ _ (10 ^ (k - g))); [assumption|]. lia.
  - assert (HX : 0 < 10 ^ (-2 - e)) by (apply Z.pow_pos_nonneg; lia).
    apply round_half_even_mono; [assumption|assumption|].
    assert (Hsplit :
      10 ^ (-2 - e) * 10 ^ (e - g) = 10 ^ (-2 - k) * 10 ^ (k - g)).
    { rewrite <- !Z.pow_add_r by lia. f_equal. lia. }
    apply (Z.mul_le_mono_pos_r _ _ (10 ^ (e - g))); [assumption|].
    rewrite <- (Z.mul_assoc N), Hsplit. nia.
Qed.

(** *** The amount of a sale *)



(** *** The sale record *)

Lemma length_append_string s1 s2 :
  String.length (s1 +:+ s2) = (String.length s1 + String.length s2)%nat.
Proof. induction s1 as [|c s1 IH]; simpl; [reflexivity|]. rewrite IH. lia. Qed.





Lemma round2_price_range u :
  le float_4_99 u → le u float_59_99 → 499 ≤ round2 u ≤ 5999.
Proof.
  intros H1 H2.
  set (g := Z.min (exponent u) (-49)).
  assert (Hg : g ≤ exponent u) by (unfold g; lia).
  assert (Hg49 : g ≤ -49) by (unfold g; lia).
  pose proof (le_units _ _ g H1 Hg49 Hg) as Hlo.
  pose proof (le_units _ _ g H2 Hg ltac:(simpl; lia)) as Hhi.
  unfold float_4_99, float_59_99 in Hlo, Hhi.
  unfold units at 1 in Hlo. unfold units at 2 in Hhi.
  cbn [coefficient exponent] in Hlo, Hhi.
  set (U := 10 ^ (-49 - g)) in *.
  assert (HU : 0 < U) by (apply Z.pow_pos_nonneg; lia).
  assert (HU47 : 10 ^ (-47 - g) = 10 ^ 2 * U).
  { unfold U. rewrite <- Z.pow_add_r by lia. f_equal. lia. }
  assert (HU2 : 10 ^ (-2 - g) = 10 ^ 47 * U).
  { unfold U. rewrite <- Z.pow_add_r by lia. f_equal. lia. }
  split.
  - change 499 with (round_half_even 499 (10 ^ (-2 - -2))) at 1.
    apply (round2_lower _ g); [exact Hg|lia|lia|]. rewrite HU2. lia.
  - change 5999 with
      (round_half_even 5999000000000000198951966012828052043914794921875
         (10 ^ (-2 - -47))) at 1.
    apply (round2_upper _ g); [exact Hg|lia|lia|exact Hhi].
Qed.

(** Every generated book is priced between $4.99 and $59.99. *)
Lemma generate_books_spec draws :
  Forall book_draws_ok draws →
  ∀ id, ∃ books,
    generate_books id draws = Some books
    ∧ length books = length draws
    ∧ Forall price_ok books.
Proof.
  induction 1 as [|d draws (Hg & H1 & H2) _ IH]; intros id.
  - exists []. repeat split; constructor.
  - destruct (IH (id + 1)) as (books & Hgen & Hlen & Hprice).
    apply lookup_lt_is_Some_2 in Hg as [g Hg].
    cbn [generate_books]. unfold generate_book, choice. rewrite Hg.
    simpl. rewrite Hgen. simpl. eexists. split; [reflexivity|].
    split; [simpl; lia|]. constructor; [|exact Hprice].
    unfold price_ok. simpl. apply round2_price_range; assumption.
Qed.






End Sales.

(* ===================================================================== *)
(** * Part III: further properties of the code                            *)
(* ===================================================================== *)

(** ** The argument parser of the script (setup_analytics_data.sh, 9-91) *)

Section Options.
Import Loader Spec.

(** The option loop works through complete options from the left: what
    a parsed prefix has set is where the rest starts from. *)
Lemma parse_options_app opts rest s s1 :
  parse_options opts s = Parsed s1 →
  parse_options (opts ++ rest) s = parse_options rest s1.
Proof.
  remember (length opts) as n eqn:Hn. revert opts s Hn.
  induction n as [n IH] using lt_wf_ind. intros opts s Hn Hp.
  destruct opts as [|opt opts]; [simpl in Hp; injection Hp as <-; reflexivity|].
  cbn [parse_options app] in Hp |- *.
  repeat match goal with
         | |- context [String.eqb opt ?o] => destruct (String.eqb opt o)
         end;
    try discriminate;
    try (destruct opts as [|v opts]; [discriminate|];
         cbn [app]; apply (IH (length opts)); [simpl in Hn; lia|reflexivity|
         exact Hp]);
    (apply (IH (length opts)); [simpl in Hn; lia|reflexivity|exact Hp]).
Qed.

(** What the option loop can and cannot change. *)
Lemma parse_options_frame opts s s' :
  parse_options opts s = Parsed s' →
  S3_BUCKET s' = S3_BUCKET s ∧ REDSHIFT_HOST s' = REDSHIFT_HOST s
  ∧ (SKIP_GENERATE s = true → SKIP_GENERATE s' = true)
  ∧ (SKIP_UPLOAD s = true → SKIP_UPLOAD s' = true)
  ∧ (SKIP_REDSHIFT s = true → SKIP_REDSHIFT s' = true)
  ∧ (SKIP_GENERATE s' = true →
     SKIP_GENERATE s = true ∨ "--skip-generate" ∈ opts)
  ∧ (SKIP_UPLOAD s' = true → SKIP_UPLOAD s = true ∨ "--skip-upload" ∈ opts)
  ∧ (SKIP_REDSHIFT s' = true →
     SKIP_REDSHIFT s = true ∨ "--skip-redshift" ∈ opts)
  ∧ ("--database" ∉ opts → REDSHIFT_DB s' = REDSHIFT_DB s)
  ∧ ("--user" ∉ opts → REDSHIFT_USER s' = REDSHIFT_USER s)
  ∧ ("--password" ∉ opts → REDSHIFT_PASSWORD s' = REDSHIFT_PASSWORD s)
  ∧ ("--iam-role" ∉ opts → IAM_ROLE s' = IAM_ROLE s).
Proof.
  remember (length opts) as n eqn:Hn. revert opts s Hn.
  induction n as [n IH] using lt_wf_ind. intros opts s Hn Hp.
  destruct opts as [|opt opts].
  { simpl in Hp. injection Hp as <-. repeat split; auto. }
  cbn [parse_options] in Hp.
  repeat match type of Hp with
         | context [String.eqb opt ?o] =>
             destruct (String.eqb_spec opt o) as [->|?]
         end;
    try discriminate;
    try (destruct opts as [|v opts]; [discriminate|]);
    (apply (IH (length opts) ltac:(simpl in Hn; lia) opts _ eq_refl) in Hp);
    cbn [S3_BUCKET REDSHIFT_HOST REDSHIFT_DB REDSHIFT_USER REDSHIFT_PASSWORD
         IAM_ROLE SKIP_GENERATE SKIP_UPLOAD SKIP_REDSHIFT
         set_db set_user set_password set_iam_role set_skip_generate
         set_skip_upload set_skip_redshift] in Hp;
    destruct Hp as (H1 & H2 & H3 & H4 & H5 & H6 & H7 & H8 & H9 & H10 & H11
                    & H12);
    (split; [exact H1|]); (split; [exact H2|]);
    (split; [intros X; apply H3; first [exact X|reflexivity]|]);
    (split; [intros X; apply H4; first [exact X|reflexivity]|]);
    (split; [intros X; apply H5; first [exact X|reflexivity]|]);
    (split; [intros X; rewrite !elem_of_cons;
             first [right; left; reflexivity
                   |destruct (H6 X) as [Y|Y]; [left; exact Y|auto]]|]);
    (split; [intros X; rewrite !elem_of_cons;
             first [right; left; reflexivity
                   |destruct (H7 X) as [Y|Y]; [left; exact Y|auto]]|]);
    (split; [intros X; rewrite !elem_of_cons;
             first [right; left; reflexivity
                   |destruct (H8 X) as [Y|Y]; [left; exact Y|auto]]|]);
    (split; [intros X; rewrite !not_elem_of_cons in X;
             first [destruct X as [X _]; congruence|apply H9, X]|]);
    (split; [intros X; rewrite !not_elem_of_cons in X;
             first [destruct X as [X _]; congruence|apply H10, X]|]);
    (split; [intros X; rewrite !not_elem_of_cons in X;
             first [destruct X as [X _]; congruence|apply H11, X]|]);
    (intros X; rewrite !not_elem_of_cons in X;
     first [destruct X as [X _]; congruence|apply H12, X]).
Qed.

(** X1. An option given twice: the last value counts. In general, the words
    after a prefix that parses are read starting from what the prefix has
    set. *)
Theorem options_are_read_left_to_right bucket host opts s1 :
  parse_arguments (bucket :: host :: opts) = Parsed s1 →
  (∀ rest,
     parse_arguments (bucket :: host :: opts ++ rest) = parse_options rest s1)
  ∧ (∀ v, parse_arguments (bucket :: host :: opts ++ ["--database"; v]) =
            Parsed (set_db v s1))
  ∧ (∀ v, parse_arguments (bucket :: host :: opts ++ ["--user"; v]) =
            Parsed (set_user v s1))
  ∧ (∀ v, parse_arguments (bucket :: host :: opts ++ ["--password"; v]) =
            Parsed (set_password v s1))
  ∧ (∀ v, parse_arguments (bucket :: host :: opts ++ ["--iam-role"; v]) =
            Parsed (set_iam_role v s1))
  ∧ parse_arguments (bucket :: host :: opts ++ ["--skip-generate"]) =
      Parsed (set_skip_generate s1)
  ∧ parse_arguments (bucket :: host :: opts ++ ["--skip-upload"]) =
      Parsed (set_skip_upload s1)
  ∧ parse_arguments (bucket :: host :: opts ++ ["--skip-redshift"]) =
      Parsed (set_skip_redshift s1).
Proof.
  cbn [parse_arguments]. intros Hp.
  repeat split; intros; rewrite (parse_options_app _ _ _ _ Hp); reflexivity.
Qed.

(** The database named twice. *)
Lemma options_are_read_left_to_right_witness :
  parse_arguments ["my-bucket"; "cluster"; "--database"; "a"; "--database"; "b"]
    = Parsed (set_db "b" (set_db "a" (defaults "my-bucket" "cluster"))).
Proof.
  apply (proj1 (proj2 (options_are_read_left_to_right "my-bucket" "cluster"
                         ["--database"; "a"] _ eq_refl)) "b").
Defined.

(** X2. The options never change the bucket or the host; a flag is set only
    when its word is among the options; a variable whose option is not
    among the words keeps its default. *)
Theorem options_change_only_their_own_variable bucket host opts s :
  parse_arguments (bucket :: host :: opts) = Parsed s →
  S3_BUCKET s = bucket ∧ REDSHIFT_HOST s = host
  ∧ (SKIP_GENERATE s = true → "--skip-generate" ∈ opts)
  ∧ (SKIP_UPLOAD s = true → "--skip-upload" ∈ opts)
  ∧ (SKIP_REDSHIFT s = true → "--skip-redshift" ∈ opts)
  ∧ ("--database" ∉ opts → REDSHIFT_DB s = "analytics")
  ∧ ("--user" ∉ opts → REDSHIFT_USER s = "admin")
  ∧ ("--password" ∉ opts → REDSHIFT_PASSWORD s = "")
  ∧ ("--iam-role" ∉ opts → IAM_ROLE s = "").
Proof.
  cbn [parse_arguments]. intros Hp.
  apply parse_options_frame in Hp
    as (H1 & H2 & _ & _ & _ & H6 & H7 & H8 & H9 & H10 & H11 & H12).
  cbn [defaults S3_BUCKET REDSHIFT_HOST REDSHIFT_DB REDSHIFT_USER
       REDSHIFT_PASSWORD IAM_ROLE SKIP_GENERATE SKIP_UPLOAD SKIP_REDSHIFT]
    in *.
  repeat split; auto.
  - intros H. destruct (H6 H); [discriminate|assumption].
  - intros H. destruct (H7 H); [discriminate|assumption].
  - intros H. destruct (H8 H); [discriminate|assumption].
Qed.

(** A run that names a role and skips the upload. *)
Lemma options_change_only_their_own_variable_witness :
  ∃ s, parse_arguments ["my-bucket"; "cluster"; "--iam-role"; "arn:role";
                        "--skip-upload"] = Parsed s
     ∧ S3_BUCKET s = "my-bucket" ∧ REDSHIFT_HOST s = "cluster"
     ∧ REDSHIFT_DB s = "analytics" ∧ REDSHIFT_USER s = "admin".
Proof.
  eexists. split; [reflexivity|].
  destruct (options_change_only_their_own_variable "my-bucket" "cluster"
              ["--iam-role"; "arn:role"; "--skip-upload"] _ eq_refl)
    as (H1 & H2 & _ & _ & _ & H3 & H4 & _).
  split; [exact H1|]. split; [exact H2|].
  split; [apply H3|apply H4]; apply (bool_decide_unpack _); reflexivity.
Defined.

(** A word in the place of a value is taken as the value, whatever it
    looks like. *)
Example value_swallows_flag :
  parse_arguments ["my-bucket"; "cluster"; "--database"; "--skip-generate"] =
    Parsed (set_db "--skip-generate" (defaults "my-bucket" "cluster")).
Proof. reflexivity. Qed.

(** X3. An option that takes a value and stands last, after options that
    parse, keeps the script in its option loop for ever: it never reaches a
    step and never exits. *)
Theorem option_without_value_never_ends bucket host opts o s1 e w :
  has_python e = true → has_pip e = true →
  parse_arguments (bucket :: host :: opts) = Parsed s1 →
  o ∈ value_options →
  run (bucket :: host :: opts ++ [o]) e w = (Hung, [], w).
Proof.
  intros Hpy Hpip Hp Ho. unfold run. rewrite Hpy, Hpip.
  cbn [negb parse_arguments] in *.
  rewrite (parse_options_app _ _ _ _ Hp).
  unfold value_options in Ho. rewrite !elem_of_cons in Ho.
  destruct Ho as [->|[->|[->|[->|Ho]]]]; [reflexivity..|].
  apply elem_of_nil in Ho. contradiction.
Qed.

(** The password option without a password. *)
Lemma option_without_value_never_ends_witness :
  run ["my-bucket"; "cluster"; "--skip-redshift"; "--password"]
    (fair_weather demo_books demo_sales) fresh_world =
    (Hung, [], fresh_world).
Proof.
  apply (option_without_value_never_ends "my-bucket" "cluster"
           ["--skip-redshift"] "--password" _
           (fair_weather demo_books demo_sales) fresh_world
           eq_refl eq_refl eq_refl).
  apply (bool_decide_unpack _). reflexivity.
Defined.

(** X4. A word that is no option, after options that parse, ends the script
    with [exit 1] before any step, whatever follows it. *)
Theorem unknown_option_stops_the_script bucket host opts u rest s1 e w :
  has_python e = true → has_pip e = true →
  parse_arguments (bucket :: host :: opts) = Parsed s1 →
  u ∉ value_options ++ flag_options →
  run (bucket :: host :: opts ++ u :: rest) e w =
    (Exited ("Unknown option: " +:+ u), [], w).
Proof.
  intros Hpy Hpip Hp Hu. unfold run. rewrite Hpy, Hpip.
  cbn [negb parse_arguments] in *.
  rewrite (parse_options_app _ _ _ _ Hp).
  unfold value_options, flag_options in Hu. cbn [app] in Hu.
  rewrite !not_elem_of_cons in Hu.
  destruct Hu as (H1 & H2 & H3 & H4 & H5 & H6 & H7 & _).
  cbn [parse_options].
  rewrite !(proj2 (String.eqb_neq _ _)) by assumption. reflexivity.
Qed.

(** A third positional argument. *)
Lemma unknown_option_stops_the_script_witness :
  run ["my-bucket"; "cluster"; "--skip-upload"; "analytics"; "--iam-role";
       "arn:role"]
    (fair_weather demo_books demo_sales) fresh_world =
    (Exited "Unknown option: analytics", [], fresh_world).
Proof.
  apply (unknown_option_stops_the_script "my-bucket" "cluster"
           ["--skip-upload"] "analytics" ["--iam-role"; "arn:role"] _
           (fair_weather demo_books demo_sales) fresh_world
           eq_refl eq_refl eq_refl).
  apply (bool_decide_unpack _). reflexivity.
Defined.

(** X5. The role is demanded exactly when the load is not skipped, and
    before anything is generated or uploaded; the password is asked for
    exactly when the load is not skipped and none was given. With
    [--skip-redshift] the script runs with the settings as parsed. *)
Theorem role_is_demanded_before_any_step args s0 e w :
  has_python e = true → has_pip e = true →
  parse_arguments args = Parsed s0 →
  (SKIP_REDSHIFT s0 = false → IAM_ROLE s0 = "" →
   run args e w =
     (Exited "Error: IAM role ARN is required for loading data to Redshift.",
      [], w))
  ∧ (SKIP_REDSHIFT s0 = false → IAM_ROLE s0 ≠ "" →
     let s := if String.eqb (REDSHIFT_PASSWORD s0) ""
              then set_password (typed_password e) s0 else s0 in
     run args e w = (Completed, (phases s e w).1, (phases s e w).2))
  ∧ (SKIP_REDSHIFT s0 = true →
     run args e w = (Completed, (phases s0 e w).1, (phases s0 e w).2)).
Proof.
  intros Hpy Hpip Hp. unfold run. rewrite Hpy, Hpip, Hp.
  cbn [negb]. unfold check_credentials.
  split; [|split].
  - intros Hskip Hrole. rewrite Hskip. cbn [negb andb].
    destruct (String.eqb (REDSHIFT_PASSWORD s0) "");
      cbn [SKIP_REDSHIFT IAM_ROLE set_password]; rewrite Hskip, Hrole;
      reflexivity.
  - intros Hskip Hrole. rewrite Hskip. cbn [negb andb].
    apply String.eqb_neq in Hrole.
    destruct (String.eqb (REDSHIFT_PASSWORD s0) "");
      cbn [SKIP_REDSHIFT IAM_ROLE set_password]; rewrite Hskip, Hrole;
      cbn [negb andb];
      match goal with
      | |- context [phases ?s e w] => destruct (phases s e w)
      end; reflexivity.
  - intros Hskip. rewrite Hskip. cbn [negb andb]. rewrite Hskip.
    cbn [negb andb]. destruct (phases s0 e w). reflexivity.
Qed.

(** A run without a role. *)
Lemma role_is_demanded_before_any_step_witness :
  run ["my-bucket"; "cluster"; "--password"; "secret"]
    (fair_weather demo_books demo_sales) fresh_world =
    (Exited "Error: IAM role ARN is required for loading data to Redshift.",
     [], fresh_world).
Proof.
  apply (proj1 (role_is_demanded_before_any_step
                  ["my-bucket"; "cluster"; "--password"; "secret"] _
                  (fair_weather demo_books demo_sales) fresh_world
                  eq_refl eq_refl eq_refl)); reflexivity.
Defined.

(** X6. How the script ends is decided before its first step: it depends on
    the arguments and on the tools installed, and on nothing that the
    generation, the upload or the load do. A run that passes the checks
    ends with "Setup complete!" even when every step has failed. *)
Theorem ending_is_decided_before_the_first_step args e1 e2 w1 w2 :
  has_python e1 = has_python e2 → has_pip e1 = has_pip e2 →
  (run args e1 w1).1.1 = (run args e2 w2).1.1.
Proof.
  intros Hpy Hpip. unfold run. rewrite Hpy, Hpip.
  destruct (has_python e2); [|reflexivity].
  destruct (has_pip e2); [|reflexivity]. cbn [negb].
  destruct (parse_arguments args) as [s| |]; [|reflexivity..].
  unfold check_credentials.
  destruct (SKIP_REDSHIFT s) eqn:Hskip; cbn [negb andb]; rewrite ?Hskip;
    cbn [negb andb].
  - destruct (phases s e1 w1), (phases s e2 w2). reflexivity.
  - destruct (String.eqb (REDSHIFT_PASSWORD s) "");
      cbn [SKIP_REDSHIFT IAM_ROLE set_password]; rewrite ?Hskip;
      cbn [negb andb];
      (destruct (String.eqb (IAM_ROLE s) ""); [reflexivity|]);
      repeat match goal with
             | |- context [phases ?s ?e ?w] => destruct (phases s e w)
             end; reflexivity.
Qed.

(** The same arguments in fair weather and when everything fails. *)
Lemma ending_is_decided_before_the_first_step_witness :
  (run ["my-bucket"; "cluster"; "--iam-role"; "arn:role"]
     (fair_weather demo_books demo_sales) fresh_world).1.1 = Completed
  ∧ (run ["my-bucket"; "cluster"; "--iam-role"; "arn:role"]
       foul_weather fresh_world).1.1 = Completed.
Proof.
  split; [reflexivity|].
  rewrite <- (ending_is_decided_before_the_first_step
                ["my-bucket"; "cluster"; "--iam-role"; "arn:role"]
                (fair_weather demo_books demo_sales) foul_weather
                fresh_world fresh_world eq_refl eq_refl).
  reflexivity.
Defined.

End Options.

(** ** The stores of the script (setup_analytics_data.sh, 97-556) *)

Section Stores.
Import Warehouse Loader Spec.

Lemma append_cancel_r s1 s2 t : s1 +:+ t = s2 +:+ t → s1 = s2.
Proof.
  revert s2. induction s1 as [|c s1 IH]; intros [|c' s2] Heq.
  - reflexivity.
  - apply (f_equal String.length) in Heq.
    rewrite !length_append_string in Heq. simpl in Heq. lia.
  - apply (f_equal String.length) in Heq.
    rewrite !length_append_string in Heq. simpl in Heq. lia.
  - simpl in Heq. injection Heq as -> Heq. f_equal. apply IH, Heq.
Qed.

Lemma books_key_inj d1 d2 : books_key d1 = books_key d2 → d1 = d2.
Proof.
  unfold books_key. intros H. apply String.app_inj in H.
  apply append_cancel_r in H. exact H.
Qed.

Lemma sales_key_inj d1 d2 : sales_key d1 = sales_key d2 → d1 = d2.
Proof.
  unfold sales_key. intros H. apply String.app_inj in H.
  apply append_cancel_r in H. exact H.
Qed.

Lemma books_key_sales_key d1 d2 : books_key d1 ≠ sales_key d2.
Proof. unfold books_key, sales_key. simpl. discriminate. Qed.

(** The upload writes at most the two objects of its day, and nothing
    else. *)
Lemma upload_frame e w :
  books_file (upload e w).2 = books_file w
  ∧ sales_file (upload e w).2 = sales_file w
  ∧ ∀ k, k ≠ books_key (upload_date e) → k ≠ sales_key (upload_date e) →
         bucket (upload e w).2 !! k = bucket w !! k.
Proof.
  unfold upload, upload_file, upload_to_s3.
  destruct (books_file w) as [f|] eqn:Hb, (sales_file w) as [g|] eqn:Hs,
    (upload_books_ok e), (upload_sales_ok e);
    cbn [fst snd with_bucket books_file sales_file bucket];
    rewrite ?Hs; cbn [fst snd with_bucket books_file sales_file bucket];
    (split; [assumption || reflexivity|]);
    (split; [assumption || reflexivity|]);
    intros k Hk1 Hk2; rewrite ?lookup_insert_ne by congruence; reflexivity.
Qed.

Lemma create_schema_frame e w :
  books_file (create_schema e w) = books_file w
  ∧ sales_file (create_schema e w) = sales_file w
  ∧ bucket (create_schema e w) = bucket w.
Proof. unfold create_schema. destruct (schema_ok e); auto. Qed.

Lemma load_frame e w :
  books_file (load e w).2 = books_file w
  ∧ sales_file (load e w).2 = sales_file w
  ∧ bucket (load e w).2 = bucket w.
Proof.
  unfold load. destruct (connect_ok e); [|auto].
  unfold load_books.
  destruct (bucket w !! books_key (load_date e)) as [[rows|rows]|];
    [destruct (head_books_ok e), (warehouse w), (copy_books_ok e)
    |destruct (head_books_ok e), (warehouse w)|];
    cbn [fst snd]; unfold load_sales;
    cbn [with_warehouse bucket books_file sales_file warehouse];
    match goal with
    | |- context [?m !! sales_key ?d] =>
        destruct (m !! sales_key d) as [[rows'|rows']|]
    end;
    repeat match goal with
           | |- context [if ?b then _ else _] => destruct b
           | |- context [match ?o with Some _ => _ | None => _ end] =>
               destruct o
           end; auto.
Qed.

Lemma generate_frame e w :
  bucket (generate e w) = bucket w ∧ warehouse (generate e w) = warehouse w.
Proof. unfold generate. destruct (generated e); auto. Qed.

(** X7. Each phase touches its own store only. The files under [data/] are
    what the generator left, or the old ones when it was skipped; the
    bucket changes under the two keys of the day of the upload at most, and
    not at all with [--skip-upload]; the warehouse stays as it was with
    [--skip-redshift]. *)
Theorem a_phase_touches_only_its_own_store s e w :
  books_file (phases s e w).2 =
    books_file (if SKIP_GENERATE s then w else generate e w)
  ∧ sales_file (phases s e w).2 =
      sales_file (if SKIP_GENERATE s then w else generate e w)
  ∧ (∀ k, k ≠ books_key (upload_date e) → k ≠ sales_key (upload_date e) →
          bucket (phases s e w).2 !! k = bucket w !! k)
  ∧ (SKIP_UPLOAD s = true → bucket (phases s e w).2 = bucket w)
  ∧ (SKIP_REDSHIFT s = true → warehouse (phases s e w).2 = warehouse w).
Proof.
  rewrite phases_run. cbn zeta. cbn [snd].
  set (w1 := if SKIP_GENERATE s then w else generate e w).
  assert (Hg : bucket w1 = bucket w ∧ warehouse w1 = warehouse w).
  { unfold w1. destruct (SKIP_GENERATE s); [auto|apply generate_frame]. }
  destruct Hg as [Hgb Hgw].
  set (w2 := if SKIP_UPLOAD s then w1 else (upload e w1).2).
  assert (Hu : books_file w2 = books_file w1
               ∧ sales_file w2 = sales_file w1
               ∧ (∀ k, k ≠ books_key (upload_date e) →
                       k ≠ sales_key (upload_date e) →
                       bucket w2 !! k = bucket w1 !! k)
               ∧ warehouse w2 = warehouse w1).
  { unfold w2. destruct (SKIP_UPLOAD s); [auto|].
    destruct (upload_frame e w1) as (H1 & H2 & H3).
    pose proof (upload_warehouse e w1). auto. }
  destruct Hu as (Hub & Hus & Huk & Huw).
  set (w3 := if SKIP_REDSHIFT s then w2 else (load e (create_schema e w2)).2).
  assert (Hl : books_file w3 = books_file w2
               ∧ sales_file w3 = sales_file w2
               ∧ bucket w3 = bucket w2).
  { unfold w3. destruct (SKIP_REDSHIFT s); [auto|].
    destruct (load_frame e (create_schema e w2)) as (H1 & H2 & H3).
    destruct (create_schema_frame e w2) as (H4 & H5 & H6).
    repeat split; congruence. }
  destruct Hl as (Hlb & Hls & Hlk).
  split; [congruence|]. split; [congruence|]. split.
  { intros k Hk1 Hk2. rewrite Hlk, (Huk k Hk1 Hk2), Hgb. reflexivity. }
  split.
  - intros Hskip. rewrite Hlk. unfold w2. rewrite Hskip. exact Hgb.
  - intros Hskip. unfold w3. rewrite Hskip. congruence.
Qed.

(** X8. When the day changes between the upload and the load, the load
    looks for the objects of the new day. Unless an earlier run has left
    some there, it copies nothing: the tables have been recreated and stay
    empty, whatever was generated and uploaded. *)
Theorem load_on_another_day_finds_nothing s e w :
  SKIP_REDSHIFT s = false → schema_ok e = true →
  upload_date e ≠ load_date e →
  bucket w !! books_key (load_date e) = None →
  bucket w !! sales_key (load_date e) = None →
  warehouse (phases s e w).2 = Some {| dim_book := []; fact_sales := [] |}
  ∧ (CopyBooks ∉ (phases s e w).1) ∧ (CopySales ∉ (phases s e w).1).
Proof.
  intros Hskip Hschema Hdate Hb Hs.
  assert (Hkeys : ∀ k,
            k = books_key (load_date e) ∨ k = sales_key (load_date e) →
            k ≠ books_key (upload_date e) ∧ k ≠ sales_key (upload_date e)).
  { intros k [-> | ->]; split; intros H.
    - apply books_key_inj in H. congruence.
    - exact (books_key_sales_key _ _ H).
    - symmetry in H. exact (books_key_sales_key _ _ H).
    - apply sales_key_inj in H. congruence. }
  rewrite phases_run. cbn zeta. rewrite Hskip.
  set (w1 := if SKIP_GENERATE s then w else generate e w).
  assert (Hgb : bucket w1 = bucket w).
  { unfold w1. destruct (SKIP_GENERATE s); [auto|apply generate_frame]. }
  set (w2 := if SKIP_UPLOAD s then w1 else (upload e w1).2).
  assert (Huk : ∀ k, k ≠ books_key (upload_date e) →
                     k ≠ sales_key (upload_date e) →
                     bucket w2 !! k = bucket w !! k).
  { intros k H1 H2. unfold w2. destruct (SKIP_UPLOAD s).
    - rewrite Hgb. reflexivity.
    - rewrite (proj2 (proj2 (upload_frame e w1)) k H1 H2), Hgb.
      reflexivity. }
  assert (Hload : load e (create_schema e w2) = ([], create_schema e w2)).
  { unfold load, load_books, load_sales.
    destruct (create_schema_frame e w2) as (_ & _ & Hbk).
    rewrite Hbk.
    destruct (Hkeys _ (or_introl eq_refl)) as [K1 K2].
    destruct (Hkeys _ (or_intror eq_refl)) as [K3 K4].
    rewrite (Huk _ K1 K2), Hb. cbn [fst snd]. rewrite Hbk.
    rewrite (Huk _ K3 K4), Hs. destruct (connect_ok e); reflexivity. }
  rewrite Hload. cbn [fst snd]. split.
  { unfold create_schema. rewrite Hschema. reflexivity. }
  assert (Hno : ∀ x, x = CopyBooks ∨ x = CopySales →
            x ∉ (if SKIP_GENERATE s then [] else [Generate])
                ++ (if SKIP_UPLOAD s then [] else (upload e w1).1)
                ++ [RecreateTables]).
  { intros x Hx Hin. rewrite !elem_of_app in Hin.
    destruct Hin as [Hin|[Hin|Hin]].
    - destruct (SKIP_GENERATE s); [apply elem_of_nil in Hin; contradiction|].
      apply list_elem_of_singleton in Hin. destruct Hx; congruence.
    - destruct (SKIP_UPLOAD s); [apply elem_of_nil in Hin; contradiction|].
      apply upload_steps in Hin. destruct Hx, Hin; congruence.
    - apply list_elem_of_singleton in Hin. destruct Hx; congruence. }
  split; apply Hno; auto.
Qed.

(** A first run that starts before midnight and loads after it. *)
Lemma load_on_another_day_finds_nothing_witness :
  UploadBooks ∈ (phases load_settings (over_midnight demo_books demo_sales)
                   fresh_world).1
  ∧ warehouse (phases load_settings (over_midnight demo_books demo_sales)
                 fresh_world).2 =
      Some {| dim_book := []; fact_sales := [] |}.
Proof.
  split; [apply (bool_decide_unpack _); reflexivity|].
  apply (load_on_another_day_finds_nothing load_settings
           (over_midnight demo_books demo_sales) fresh_world);
    [reflexivity|reflexivity|discriminate|reflexivity|reflexivity].
Defined.

End Stores.

(** ** Order and totals of the views (setup_analytics_data.sh, 384-439) *)

Section Totals.
Import Warehouse Spec.

Lemma revenue_desc_total {K} : Total (@revenue_desc K).
Proof.
  intros a b. unfold revenue_desc.
  destruct (total_revenue a), (total_revenue b); auto. lia.
Qed.

Lemma revenue_desc_trans {K} : Transitive (@revenue_desc K).
Proof.
  intros a b c. unfold revenue_desc.
  destruct (total_revenue a), (total_revenue b), (total_revenue c);
    auto; try tauto. lia.
Qed.

Lemma key_date_asc_total : Total key_date_asc.
Proof.
  intros a b. unfold key_date_asc, date_le.
  destruct (key a) as [[]|], (key b) as [[]|]; auto. simpl. lia.
Qed.

Lemma key_date_asc_trans : Transitive key_date_asc.
Proof.
  intros a b c. unfold key_date_asc, date_le.
  destruct (key a) as [[]|], (key b) as [[]|], (key c) as [[]|];
    auto; try tauto. simpl. lia.
Qed.

Lemma StronglySorted_lookup_lt {A} (R : relation A) (l : list A) :
  StronglySorted R l →
  ∀ i j a b, (i < j)%nat → l !! i = Some a → l !! j = Some b → R a b.
Proof.
  induction 1 as [|x l _ IH Hx]; intros i j a b Hij Hi Hj;
    [discriminate|].
  destruct j as [|j]; [lia|]. destruct i as [|i]; simpl in Hi, Hj.
  - injection Hi as <-. rewrite Forall_forall in Hx.
    apply Hx. eapply list_elem_of_lookup_2, Hj.
  - apply (IH i j); [lia|assumption|assumption].
Qed.

Lemma merge_sort_ranked_by_revenue {K} (rows : list (aggregate K)) :
  ranked_by_revenue (merge_sort revenue_desc rows).
Proof.
  intros i j a b Hij Hi Hj.
  assert (Hs : StronglySorted revenue_desc (merge_sort revenue_desc rows))
    by (apply StronglySorted_merge_sort;
        [apply revenue_desc_trans|apply revenue_desc_total]).
  pose proof (StronglySorted_lookup_lt _ _ Hs i j a b Hij Hi Hj) as H.
  unfold revenue_desc in H.
  destruct (total_revenue a), (total_revenue b); auto.
Qed.

Lemma merge_sort_ranked_by_date (rows : list (aggregate (option date))) :
  ranked_by_date (merge_sort key_date_asc rows).
Proof.
  intros i j a b Hij Hi Hj.
  assert (Hs : StronglySorted key_date_asc (merge_sort key_date_asc rows))
    by (apply StronglySorted_merge_sort;
        [apply key_date_asc_trans|apply key_date_asc_total]).
  pose proof (StronglySorted_lookup_lt _ _ Hs i j a b Hij Hi Hj) as H.
  unfold key_date_asc, date_le in H.
  destruct (key a) as [x|], (key b) as [y|]; auto. lia.
Qed.

(** X9. In [sales_by_region], [top_books] and [sales_by_genre] a row never
    stands before a row with a larger revenue, and a row whose revenue is
    null stands before every row that has one, so the first row with a
    revenue has the largest.  In [sales_by_day] and [monthly_sales] a row
    never stands before a row with an earlier date, and a row without a
    date stands after every row that has one. *)
Theorem views_are_ordered (db : database) :
  ranked_by_revenue (sales_by_region db)
  ∧ ranked_by_revenue (top_books db)
  ∧ ranked_by_revenue (sales_by_genre db)
  ∧ ranked_by_date (sales_by_day db)
  ∧ ranked_by_date (monthly_sales db)
  ∧ (∀ a b x y,
       head (top_books db) = Some a → b ∈ top_books db →
       total_revenue a = Some x → total_revenue b = Some y → (y ≤ x)%Z).
Proof.
  split; [apply merge_sort_ranked_by_revenue|].
  split; [apply merge_sort_ranked_by_revenue|].
  split; [apply merge_sort_ranked_by_revenue|].
  split; [apply merge_sort_ranked_by_date|].
  split; [apply merge_sort_ranked_by_date|].
  intros a b x y Ha Hb Hx Hy.
  apply list_elem_of_lookup_1 in Hb as [j Hj].
  destruct j as [|j].
  - destruct (top_books db) as [|a' l]; [discriminate|].
    simpl in Ha, Hj. assert (a = b) as -> by congruence.
    assert (x = y) as -> by congruence. lia.
  - assert (Hr : ranked_by_revenue (top_books db))
      by apply merge_sort_ranked_by_revenue.
    specialize (Hr 0%nat (S j) a b ltac:(lia)).
    rewrite Hx, Hy in Hr. apply Hr; [|exact Hj].
    destruct (top_books db); [discriminate|exact Ha].
Qed.

(** On the small warehouse Europe, with the larger revenue, stands before
    Asia. *)
Lemma views_are_ordered_witness :
  ∃ a b,
    sales_by_region demo_db !! 0%nat = Some a
    ∧ sales_by_region demo_db !! 2%nat = Some b
    ∧ key a = Some "Europe" ∧ key b = Some "Asia"
    ∧ total_revenue a = Some 2997%Z ∧ total_revenue b = Some 550%Z
    ∧ match total_revenue a, total_revenue b with
      | Some x, Some y => (y ≤ x)%Z
      | Some _, None => False
      | None, _ => True
      end.
Proof.
  destruct (views_are_ordered demo_db) as (Hregion & _).
  do 2 eexists. split; [reflexivity|]. split; [reflexivity|].
  split; [reflexivity|]. split; [reflexivity|].
  split; [reflexivity|]. split; [reflexivity|].
  exact (Hregion 0%nat 2%nat _ _ ltac:(lia) eq_refl eq_refl).
Defined.

(** *** Every sale is counted once *)

Lemma group_insert_concat {K R} `{EqDecision K} (k : K) (r : R)
    (groups : list (K * list R)) :
  concat (group_insert k r groups).*2 ≡ₚ concat groups.*2 ++ [r].
Proof.
  induction groups as [|[k0 rs] groups IH]; [reflexivity|].
  cbn [group_insert]. destruct (decide (k = k0)) as [->|Hne].
  - cbn [fmap list_fmap snd concat]. rewrite <- !app_assoc.
    apply Permutation_app_head, Permutation_app_comm.
  - cbn [fmap list_fmap snd concat] in *. rewrite IH, app_assoc.
    reflexivity.
Qed.

(** Grouping deals the rows out: the groups together are the rows. *)
Lemma GROUP_BY_concat {K R} `{EqDecision K} (key : R → K) (rows : list R) :
  concat (GROUP_BY key rows).*2 ≡ₚ rows.
Proof.
  induction rows as [|r rows IH] using rev_ind; [reflexivity|].
  rewrite GROUP_BY_snoc, group_insert_concat, IH. reflexivity.
Qed.

Lemma total_app xs ys : total (xs ++ ys) = (total xs + total ys)%Z.
Proof. unfold total. induction xs; simpl; lia. Qed.

Lemma known_SUM {R} (column : R → option Z) (rows : list R) :
  known (SUM column rows) = total (amounts column rows).
Proof.
  unfold known, amounts. rewrite SUM_total.
  destruct (omap column rows); reflexivity.
Qed.

(** The counts, and the sums of a column, of the groups add up to those
    of all rows. *)
Lemma groups_add_up {K R} (column : R → option Z)
    (groups : list (K * list R)) :
  total ((λ g, COUNT g.2) <$> groups) = COUNT (concat groups.*2)
  ∧ total ((λ g, known (SUM column g.2)) <$> groups) =
      total (amounts column (concat groups.*2)).
Proof.
  unfold COUNT.
  induction groups as [|[k rs] groups [IH1 IH2]]; [split; reflexivity|].
  cbn [fmap list_fmap snd concat] in *. split.
  - unfold total in *. cbn [foldr]. rewrite IH1, length_app. lia.
  - unfold amounts in *. rewrite omap_app, total_app, <- IH2.
    unfold total at 1. cbn [foldr]. fold (total
      (list_fmap _ _ (λ g : K * list R, known (SUM column g.2)) groups)).
    rewrite known_SUM. reflexivity.
Qed.

(** The totals of a view built by grouping, aggregating and sorting. *)
Lemma view_totals {K R} (agg : K * list R → aggregate K)
    (order : relation (aggregate K)) `{∀ a b, Decision (order a b)}
    (groups : list (K * list R)) (quantity amount : R → option Z) :
  (∀ g, num_sales (agg g) = COUNT g.2) →
  (∀ g, total_quantity (agg g) = SUM quantity g.2) →
  (∀ g, total_revenue (agg g) = SUM amount g.2) →
  let view := merge_sort order (agg <$> groups) in
  total (num_sales <$> view) = COUNT (concat groups.*2)
  ∧ total ((λ a, known (total_quantity a)) <$> view) =
      total (amounts quantity (concat groups.*2))
  ∧ total ((λ a, known (total_revenue a)) <$> view) =
      total (amounts amount (concat groups.*2)).
Proof.
  intros Hn Hq Hv view.
  assert (Hview : view ≡ₚ agg <$> groups) by apply merge_sort_Permutation.
  rewrite !(total_Permutation _ _ (fmap_Permutation _ _ _ Hview)).
  rewrite <- !list_fmap_compose.
  destruct (groups_add_up quantity groups) as [H1 H2].
  destruct (groups_add_up amount groups) as [_ H3].
  rewrite <- H1, <- H2, <- H3.
  repeat split; f_equal; apply list_fmap_ext; intros i g _; simpl;
    rewrite ?Hn, ?Hq, ?Hv; reflexivity.
Qed.

(** The sales that have a book, as the join sees them. *)
Lemma JOIN_sales books sales :
  NoDup (dim_book.book_id <$> books) →
  (JOIN books sales).*2 ≡ₚ filter (λ s, is_Some (book_of books s)) sales.
Proof.
  intros Hnd.
  pose proof (JOIN_group (λ _, tt) books sales tt Hnd) as Hperm.
  rewrite (list_filter_iff _ (λ s, is_Some (book_of books s))) in Hperm.
  2:{ intros s. destruct (book_of books s); simpl.
      - split; [eauto|reflexivity].
      - split; [discriminate|intros [? ?]; discriminate]. }
  rewrite <- Hperm. apply (eq_ind_r (λ x, _ ≡ₚ x.*2) (Permutation_refl _)).
  generalize (JOIN books sales). clear.
  induction l as [|p l IH]; [reflexivity|].
  rewrite filter_cons_True by reflexivity. f_equal. exact IH.
Qed.

(** X10. Every sale is counted in exactly one row of a view over the fact
    table, so the counts of the rows add up to the number of sales, and
    their quantities and revenues (a null sum counting as nothing) to the
    total quantity and revenue of the table. In the two join views, with
    [book_id] a key of [dim_book], the same holds of the sales that have a
    book; the sales without one are counted nowhere. *)
Theorem views_count_every_sale_once (db : database) :
  (∀ view : list (aggregate (option date)),
     view = sales_by_day db ∨ view = monthly_sales db →
     total (num_sales <$> view) = COUNT (fact_sales db)
     ∧ total ((λ a, known (total_quantity a)) <$> view) =
         total (amounts fact_sales.quantity (fact_sales db))
     ∧ total ((λ a, known (total_revenue a)) <$> view) =
         total (amounts fact_sales.sale_amount (fact_sales db)))
  ∧ (total (num_sales <$> sales_by_region db) = COUNT (fact_sales db)
     ∧ total ((λ a, known (total_quantity a)) <$> sales_by_region db) =
         total (amounts fact_sales.quantity (fact_sales db))
     ∧ total ((λ a, known (total_revenue a)) <$> sales_by_region db) =
         total (amounts fact_sales.sale_amount (fact_sales db)))
  ∧ (NoDup (dim_book.book_id <$> dim_book db) →
     let with_book :=
       filter (λ s, is_Some (book_of (dim_book db) s)) (fact_sales db) in
     (total (num_sales <$> sales_by_genre db) = COUNT with_book
      ∧ total ((λ a, known (total_quantity a)) <$> sales_by_genre db) =
          total (amounts fact_sales.quantity with_book)
      ∧ total ((λ a, known (total_revenue a)) <$> sales_by_genre db) =
          total (amounts fact_sales.sale_amount with_book))
     ∧ (total (num_sales <$> top_books db) = COUNT with_book
        ∧ total ((λ a, known (total_quantity a)) <$> top_books db) =
            total (amounts fact_sales.quantity with_book)
        ∧ total ((λ a, known (total_revenue a)) <$> top_books db) =
            total (amounts fact_sales.sale_amount with_book))
     ∧ (COUNT with_book ≤ COUNT (fact_sales db))%Z).
Proof.
  assert (Hplain : ∀ {K} `{EqDecision K} (key_fn : fact_sales.row → K)
            (order : relation (aggregate K))
            `{∀ a b, Decision (order a b)},
    let view := merge_sort order
                  (select_aggregates <$> GROUP_BY key_fn (fact_sales db)) in
    total (num_sales <$> view) = COUNT (fact_sales db)
    ∧ total ((λ a, known (total_quantity a)) <$> view) =
        total (amounts fact_sales.quantity (fact_sales db))
    ∧ total ((λ a, known (total_revenue a)) <$> view) =
        total (amounts fact_sales.sale_amount (fact_sales db))).
  { intros K ? key_fn order ? view.
    destruct (view_totals select_aggregates order
                (GROUP_BY key_fn (fact_sales db))
                fact_sales.quantity fact_sales.sale_amount
                ltac:(reflexivity) ltac:(reflexivity) ltac:(reflexivity))
      as (H1 & H2 & H3).
    pose proof (GROUP_BY_concat key_fn (fact_sales db)) as Hperm.
    fold view in H1, H2, H3. rewrite H1, H2, H3. unfold COUNT, amounts.
    rewrite !(total_Permutation _ _ (omap_Permutation _ _ _ Hperm)).
    rewrite (Permutation_length Hperm). auto. }
  split; [intros view [-> | ->]; apply Hplain|].
  split; [apply Hplain|].
  intros Hnd with_book.
  pose proof (JOIN_sales (dim_book db) (fact_sales db) Hnd) as Hjoin.
  fold with_book in Hjoin.
  assert (Hjoined : ∀ {K} `{EqDecision K} (g : dim_book.row → K)
            (order : relation (aggregate K))
            `{∀ a b, Decision (order a b)},
    let view := merge_sort order
                  (select_join_aggregates <$>
                     GROUP_BY (λ p, g p.1)
                       (JOIN (dim_book db) (fact_sales db))) in
    total (num_sales <$> view) = COUNT with_book
    ∧ total ((λ a, known (total_quantity a)) <$> view) =
        total (amounts fact_sales.quantity with_book)
    ∧ total ((λ a, known (total_revenue a)) <$> view) =
        total (amounts fact_sales.sale_amount with_book)).
  { intros K ? g order ? view.
    destruct (view_totals select_join_aggregates order
                (GROUP_BY (λ p, g p.1) (JOIN (dim_book db) (fact_sales db)))
                (λ p, fact_sales.quantity p.2)
                (λ p, fact_sales.sale_amount p.2)
                ltac:(reflexivity) ltac:(reflexivity) ltac:(reflexivity))
      as (H1 & H2 & H3).
    pose proof (GROUP_BY_concat (λ p, g p.1)
                  (JOIN (dim_book db) (fact_sales db))) as Hperm.
    assert (Hsnd : ∀ (column : fact_sales.row → option Z)
                     (l : list (dim_book.row * fact_sales.row)),
              omap (λ p, column p.2) l = omap column l.*2).
    { intros column l. induction l as [|p l IH]; [reflexivity|].
      simpl. destruct (column p.2); [f_equal|]; exact IH. }
    fold view in H1, H2, H3. rewrite H1, H2, H3. unfold COUNT, amounts.
    rewrite !(total_Permutation _ _ (omap_Permutation _ _ _ Hperm)).
    rewrite (Permutation_length Hperm).
    rewrite <- (Permutation_length Hjoin), length_fmap.
    split; [reflexivity|].
    rewrite <- !(total_Permutation _ _ (omap_Permutation _ _ _ Hjoin)).
    rewrite !Hsnd. split; reflexivity. }
  split; [apply Hjoined|]. split; [apply Hjoined|].
  unfold COUNT, with_book. pose proof (length_filter
    (λ s, is_Some (book_of (dim_book db) s)) (fact_sales db)). lia.
Qed.

(** On the small warehouse: three of the four sales have a book, and four
    of the seven copies sold are theirs. *)
Lemma views_count_every_sale_once_witness :
  total (num_sales <$> sales_by_region demo_db) = 4%Z
  ∧ total (num_sales <$> sales_by_genre demo_db) = 3%Z
  ∧ total ((λ a, known (total_quantity a)) <$> sales_by_genre demo_db) = 4%Z
  ∧ total ((λ a, known (total_quantity a)) <$> sales_by_region demo_db)
    = 7%Z.
Proof.
  destruct (views_count_every_sale_once demo_db)
    as (_ & (H1 & H1q & _) & H2).
  split; [exact H1|].
  destruct H2 as ((H2 & H2q & _) & _).
  - apply (bool_decide_unpack _). reflexivity.
  - split; [rewrite H2; reflexivity|].
    split; [rewrite H2q; reflexivity|]. rewrite H1q. reflexivity.
Defined.

(** *** The months add up their days *)

Lemma group_insert_filter {K R} `{EqDecision K} (P : K → Prop)
    `{∀ k, Decision (P k)} (k : K) (r : R) (groups : list (K * list R)) :
  filter (λ g, P g.1) (group_insert k r groups) =
    if decide (P k) then group_insert k r (filter (λ g, P g.1) groups)
    else filter (λ g, P g.1) groups.
Proof.
  induction groups as [|[k0 rs] groups IH].
  - cbn [group_insert]. destruct (decide (P k)) as [Hk|Hk].
    + rewrite filter_cons_True by exact Hk. reflexivity.
    + rewrite filter_cons_False by exact Hk. reflexivity.
  - cbn [group_insert]. destruct (decide (k = k0)) as [->|Hne].
    + destruct (decide (P k0)) as [Hk|Hk].
      * rewrite !filter_cons_True by exact Hk. cbn [group_insert].
        rewrite decide_True by reflexivity. reflexivity.
      * rewrite !filter_cons_False by exact Hk. reflexivity.
    + destruct (decide (P k0)) as [Hk0|Hk0].
      * rewrite !filter_cons_True by exact Hk0. rewrite IH.
        destruct (decide (P k)); [|reflexivity].
        cbn [group_insert]. rewrite decide_False by exact Hne. reflexivity.
      * rewrite !filter_cons_False by exact Hk0. exact IH.
Qed.

(** The groups under the keys of a kind are the groups of the rows with
    keys of that kind. *)
Lemma GROUP_BY_filter {K R} `{EqDecision K} (P : K → Prop)
    `{∀ k, Decision (P k)} (key : R → K) (rows : list R) :
  filter (λ g, P g.1) (GROUP_BY key rows) =
    GROUP_BY key (filter (λ r, P (key r)) rows).
Proof.
  induction rows as [|r rows IH] using rev_ind; [reflexivity|].
  rewrite GROUP_BY_snoc, group_insert_filter, filter_app, IH.
  destruct (decide (P (key r))) as [Hk|Hk].
  - rewrite (filter_cons_True _ r []) by exact Hk.
    rewrite filter_nil, GROUP_BY_snoc. reflexivity.
  - rewrite (filter_cons_False _ r []) by exact Hk.
    rewrite filter_nil, app_nil_r. reflexivity.
Qed.

Lemma GROUP_BY_filter_iff {K R} `{EqDecision K} (P : K → Prop)
    `{∀ k, Decision (P k)} (Q : K * list R → Prop) (Q' : R → Prop)
    `{∀ g, Decision (Q g)} `{∀ r, Decision (Q' r)}
    (key : R → K) (rows : list R) :
  (∀ g, Q g ↔ P g.1) → (∀ r, Q' r ↔ P (key r)) →
  filter Q (GROUP_BY key rows) = GROUP_BY key (filter Q' rows).
Proof.
  intros HQ HQ'.
  rewrite (list_filter_iff Q (λ g, P g.1)) by exact HQ.
  rewrite (list_filter_iff Q' (λ r, P (key r))) by exact HQ'.
  apply GROUP_BY_filter.
Qed.

Lemma filter_fmap_list {A B} (f : A → B) (P : B → Prop)
    `{∀ b, Decision (P b)} (l : list A) :
  filter P (f <$> l) = f <$> filter (λ a, P (f a)) l.
Proof.
  induction l as [|a l IH]; [reflexivity|].
  rewrite fmap_cons. destruct (decide (P (f a))) as [Ha|Ha].
  - rewrite !filter_cons_True by exact Ha. rewrite IH. reflexivity.
  - rewrite !filter_cons_False by exact Ha. exact IH.
Qed.

(** The days of a month, as rows of [sales_by_day], add up to the sales of
    the month. *)
Lemma days_of_a_month (db : database) (k : option date) :
  let days := filter (λ d, first_of_month <$> key d = k) (sales_by_day db) in
  let sales :=
    filter (λ s, date_trunc_month <$> fact_sales.sale_date s = k)
      (fact_sales db) in
  total (num_sales <$> days) = COUNT sales
  ∧ total ((λ a, known (total_quantity a)) <$> days) =
      total (amounts fact_sales.quantity sales)
  ∧ total ((λ a, known (total_revenue a)) <$> days) =
      total (amounts fact_sales.sale_amount sales).
Proof.
  intros days sales.
  set (day_of := λ s : fact_sales.row,
                   date_trunc_day <$> fact_sales.sale_date s).
  assert (Hsales : sales =
            filter (λ s, first_of_month <$> day_of s = k) (fact_sales db)).
  { unfold sales. apply list_filter_iff. intros s. unfold day_of.
    destruct (fact_sales.sale_date s); reflexivity. }
  set (groups := GROUP_BY day_of sales).
  assert (Hdays : days ≡ₚ select_aggregates <$> groups).
  { unfold days, sales_by_day. rewrite merge_sort_Permutation.
    rewrite filter_fmap_list.
    assert (HG : filter (λ g, first_of_month <$> g.1 = k)
                   (GROUP_BY day_of (fact_sales db)) = groups).
    { unfold groups. rewrite Hsales.
      apply (GROUP_BY_filter_iff (λ d, first_of_month <$> d = k));
        reflexivity. }
    rewrite <- HG. reflexivity. }
  pose proof (GROUP_BY_concat day_of sales) as Hperm. fold groups in Hperm.
  destruct (groups_add_up fact_sales.quantity groups) as [H1 H2].
  destruct (groups_add_up fact_sales.sale_amount groups) as [_ H3].
  rewrite !(total_Permutation _ _ (fmap_Permutation _ _ _ Hdays)).
  rewrite <- !list_fmap_compose.
  unfold COUNT, amounts in *.
  rewrite <- (Permutation_length Hperm).
  rewrite <- !(total_Permutation _ _ (omap_Permutation _ _ _ Hperm)).
  rewrite <- H1, <- H2, <- H3. auto.
Qed.

(** X11. [monthly_sales] is the roll-up of [sales_by_day]: the count, the
    quantity and the revenue of a month are the sums of those of the days
    of the month (a null sum counting as nothing). *)
Theorem months_add_up_their_days (db : database) m :
  m ∈ monthly_sales db →
  let days :=
    filter (λ d, first_of_month <$> key d = key m) (sales_by_day db) in
  num_sales m = total (num_sales <$> days)
  ∧ known (total_quantity m) = total ((λ a, known (total_quantity a)) <$> days)
  ∧ known (total_revenue m) = total ((λ a, known (total_revenue a)) <$> days).
Proof.
  intros Hm days.
  destruct (days_of_a_month db (key m)) as (H1 & H2 & H3).
  fold days in H1, H2, H3. rewrite H1, H2, H3.
  destruct (grouped_view
              (λ s, date_trunc_month <$> fact_sales.sale_date s)
              (fact_sales db) key_date_asc) as [_ Hview].
  apply Hview in Hm. cbv zeta in Hm.
  rewrite (list_filter_iff _
             (λ s, date_trunc_month <$> fact_sales.sale_date s = key m))
    in Hm by (intros s; split; congruence).
  destruct Hm as (_ & Hn & Hq & Hv).
  rewrite Hn, Hq, Hv, !known_SUM. auto.
Qed.

(** May 2024 of the small warehouse: four sales on two days. *)
Lemma months_add_up_their_days_witness :
  ∃ m, m ∈ monthly_sales demo_db
     ∧ num_sales m = 4%Z
     ∧ num_sales m =
         total (num_sales <$> filter (λ d, first_of_month <$> key d = key m)
                                (sales_by_day demo_db))
     ∧ num_sales <$> filter (λ d, first_of_month <$> key d = key m)
                       (sales_by_day demo_db) = [2; 2]%Z.
Proof.
  exists {| key := Some {| year := 2024; month := 5; day := 1 |};
            num_sales := 4; total_quantity := Some 7%Z;
            total_revenue := Some 4747%Z |}.
  assert (Hm : {| key := Some {| year := 2024; month := 5; day := 1 |};
                  num_sales := 4; total_quantity := Some 7%Z;
                  total_revenue := Some 4747%Z |} ∈ monthly_sales demo_db)
    by (rewrite demo_monthly_sales; constructor).
  split; [exact Hm|].
  destruct (months_add_up_their_days demo_db _ Hm) as (H1 & _).
  split; [reflexivity|]. split; [exact H1|reflexivity].
Defined.

End Totals.

(** ** Books and identifiers of the generator
    (setup_analytics_data.sh, 148-254) *)

Section Books.
Import Generator Spec.
Local Open Scope Z_scope.

Lemma pretty_digit d : 0 ≤ d ≤ 9 → pretty d = String (digit_char d) "".
Proof.
  intros Hd.
  assert (H : d = 0 ∨ d = 1 ∨ d = 2 ∨ d = 3 ∨ d = 4 ∨ d = 5 ∨ d = 6 ∨ d = 7
              ∨ d = 8 ∨ d = 9) by lia.
  repeat destruct H as [->|H]; try subst d; vm_compute; reflexivity.
Qed.

Lemma concat_digits ds :
  Forall (λ d, 0 ≤ d ≤ 9) ds →
  String.concat "" (pretty <$> ds) = digits_text ds.
Proof.
  induction 1 as [|d ds Hd Hds IH]; [reflexivity|].
  rewrite fmap_cons. cbn [String.concat].
  destruct ds as [|d' ds].
  - cbn [fmap list_fmap]. rewrite (pretty_digit d Hd). reflexivity.
  - rewrite fmap_cons in IH |- *. rewrite IH, (pretty_digit d Hd).
    reflexivity.
Qed.

Lemma length_digits_text ds : String.length (digits_text ds) = length ds.
Proof.
  unfold digits_text. induction ds as [|d ds IH]; [reflexivity|].
  simpl. f_equal. exact IH.
Qed.

(** X12. An ISBN is the text of its twelve digits followed by one more
    digit, the sum of the twelve modulo 10: thirteen characters, the width
    of the [isbn] column. *)
Theorem isbn_has_thirteen_digits ds :
  isbn_draws_ok ds →
  generate_isbn13 ds = digits_text (ds ++ [total ds mod 10])
  ∧ String.length (generate_isbn13 ds) = 13%nat.
Proof.
  intros [Hlen Hds].
  assert (Hall : Forall (λ d, 0 ≤ d ≤ 9) (ds ++ [total ds mod 10])).
  { apply Forall_app. split; [exact Hds|]. constructor; [|constructor].
    pose proof (Z.mod_pos_bound (total ds) 10 ltac:(lia)). lia. }
  assert (Heq : generate_isbn13 ds = digits_text (ds ++ [total ds mod 10])).
  { unfold generate_isbn13. cbv zeta. apply concat_digits, Hall. }
  split; [exact Heq|].
  rewrite Heq, length_digits_text, length_app, Hlen. reflexivity.
Qed.

(** The digits 9 7 8 0 1 2 3 4 5 6 7 8 sum to 60. *)
Lemma isbn_has_thirteen_digits_witness :
  generate_isbn13 [9; 7; 8; 0; 1; 2; 3; 4; 5; 6; 7; 8] = "9780123456780".
Proof.
  destruct (isbn_has_thirteen_digits [9; 7; 8; 0; 1; 2; 3; 4; 5; 6; 7; 8])
    as [H _].
  - split; [reflexivity|]. repeat constructor; lia.
  - rewrite H. reflexivity.
Defined.

Lemma generate_books_ids id draws books :
  generate_books id draws = Some books →
  book_id <$> books = seqZ id (Z.of_nat (length draws))
  ∧ Forall (λ b, genre b ∈ book_genres) books.
Proof.
  revert id books. induction draws as [|d draws IH]; intros id books Hgen.
  - injection Hgen as <-. split; [reflexivity|constructor].
  - cbn [generate_books] in Hgen. unfold generate_book, choice in Hgen.
    destruct (book_genres !! genre_index d) as [g|] eqn:Hg;
      [|discriminate].
    cbn [mbind option_bind] in Hgen.
    destruct (generate_books (id + 1) draws) as [bs|] eqn:Hbs;
      [|discriminate].
    cbn [mbind option_bind] in Hgen. injection Hgen as <-.
    destruct (IH _ _ Hbs) as [Hids Hgenres].
    split.
    + rewrite fmap_cons. cbn [book_id length].
      rewrite seqZ_cons by lia. f_equal. rewrite Hids. f_equal; lia.
    + constructor; [|exact Hgenres]. cbn [genre].
      apply list_elem_of_lookup. eauto.
Qed.

(** X13. The books carry the identifiers 1, 2, 3, ... in the order of their
    generation, none twice; each has one of the forty genres and a price
    between $4.99 and $59.99. *)
Theorem books_are_numbered_and_priced draws :
  Forall book_draws_ok draws →
  length book_genres = 40%nat
  ∧ ∃ books,
      generate_books 1 draws = Some books
      ∧ book_id <$> books = seqZ 1 (Z.of_nat (length draws))
      ∧ NoDup (book_id <$> books)
      ∧ Forall (λ b, genre b ∈ book_genres ∧ 499 ≤ price b ≤ 5999) books.
Proof.
  intros Hd. split; [reflexivity|].
  destruct (generate_books_spec draws Hd 1) as (books & Hgen & _ & Hprice).
  destruct (generate_books_ids _ _ _ Hgen) as [Hids Hgenres].
  exists books. split; [exact Hgen|]. split; [exact Hids|].
  split; [rewrite Hids; apply NoDup_seqZ|].
  rewrite Forall_forall in Hprice, Hgenres |- *.
  intros b Hb. split; [apply Hgenres, Hb|apply Hprice, Hb].
Qed.

(** The one book of the demonstration. *)
Lemma books_are_numbered_and_priced_witness :
  ∃ books, generate_books 1 demo_book_draws = Some books
         ∧ book_id <$> books = [1]
         ∧ price <$> books = [2280].
Proof.
  destruct (books_are_numbered_and_priced demo_book_draws)
    as (_ & books & Hgen & Hids & _).
  - repeat constructor; apply Z.leb_le; vm_compute; reflexivity.
  - exists books. split; [exact Hgen|]. split; [exact Hids|].
    vm_compute in Hgen. injection Hgen as <-. reflexivity.
Defined.

Lemma generate_sales_ids books id draws sales :
  generate_sales books id draws = Some sales →
  sale_id <$> sales = seqZ id (Z.of_nat (length draws))
  ∧ Forall (λ s, sale_book_id s ∈ book_id <$> books) sales.
Proof.
  revert id sales. induction draws as [|d draws IH]; intros id sales Hgen.
  - injection Hgen as <-. split; [reflexivity|constructor].
  - cbn [generate_sales] in Hgen. unfold generate_sale, choice in Hgen.
    destruct (books !! book_index d) as [b|] eqn:Hb; [|discriminate].
    cbn [mbind option_bind] in Hgen.
    destruct (choices _ _ _) as [q|]; [|discriminate].
    cbn [mbind option_bind] in Hgen.
    destruct (regions !! region_index d) as [r|]; [|discriminate].
    cbn [mbind option_bind] in Hgen.
    destruct (generate_sales books (id + 1) draws) as [ss|] eqn:Hss;
      [|discriminate].
    cbn [mbind option_bind] in Hgen. injection Hgen as <-.
    destruct (IH _ _ Hss) as [Hids Hrefs].
    split.
    + rewrite fmap_cons. cbn [sale_id length].
      rewrite seqZ_cons by lia. f_equal. rewrite Hids. f_equal; lia.
    + constructor; [|exact Hrefs]. cbn [sale_book_id].
      apply list_elem_of_fmap. exists b. split; [reflexivity|].
      apply list_elem_of_lookup. eauto.
Qed.

(** X14. The sales carry the identifiers 1, 2, 3, ... in the order of their
    generation, none twice, and each names the identifier of one of the
    generated books: the two primary keys and the reference from
    [fact_sales] to [dim_book] hold of what the generator writes. *)
Theorem sales_are_numbered_and_name_a_book bdraws sdraws books sales :
  generate_books 1 bdraws = Some books →
  generate_sales books 1 sdraws = Some sales →
  sale_id <$> sales = seqZ 1 (Z.of_nat (length sdraws))
  ∧ NoDup (sale_id <$> sales)
  ∧ NoDup (book_id <$> books)
  ∧ Forall (λ s, 1 ≤ sale_book_id s ≤ Z.of_nat (length bdraws)) sales.
Proof.
  intros Hb Hs.
  destruct (generate_books_ids _ _ _ Hb) as [Hbids _].
  destruct (generate_sales_ids _ _ _ _ Hs) as [Hsids Hrefs].
  split; [exact Hsids|]. split; [rewrite Hsids; apply NoDup_seqZ|].
  split; [rewrite Hbids; apply NoDup_seqZ|].
  rewrite Forall_forall in Hrefs |- *. intros s Hin.
  specialize (Hrefs s Hin). rewrite Hbids in Hrefs.
  apply elem_of_seqZ in Hrefs. lia.
Qed.

(** The two sales of the demonstration. *)
Lemma sales_are_numbered_and_name_a_book_witness :
  ∃ books sales,
    generate_books 1 demo_book_draws = Some books
    ∧ generate_sales books 1 demo_sale_draws = Some sales
    ∧ sale_id <$> sales = [1; 2]
    ∧ Forall (λ s, 1 ≤ sale_book_id s ≤ 1) sales.
Proof.
  destruct (generate_books 1 demo_book_draws) as [books|] eqn:Hb;
    [|vm_compute in Hb; discriminate].
  destruct (generate_sales books 1 demo_sale_draws) as [sales|] eqn:Hs.
  2:{ vm_compute in Hb. injection Hb as <-. vm_compute in Hs.
      discriminate. }
  destruct (sales_are_numbered_and_name_a_book _ _ _ _ Hb Hs)
    as (H1 & _ & _ & H2).
  exists books, sales. auto.
Defined.

End Books.

(** ** The performance check (optimizedAnalyticsService.js, 134-167) *)

Section Performance.
Import JS Axios Services Spec.
Import optimizedAnalyticsService.







End Performance.

(** ** Runs of the dashboards (Dashboard.jsx, DashboardOptimized.jsx) *)

Section Fetching.
Import JS Axios Services Pages Spec.

(** The effect of the plain dashboard, call by call. *)
Lemma Dashboard_fetchData_unfold s w :
  Dashboard.fetchData s w =
    let tr := num (Dashboard.timeRange s) in
    let m0 := invoke Plain GetDashboardSummary [] w in
    let m1 := invoke Plain GetSalesTimeSeries [VStr "day"; tr] m0.2 in
    let m2 := invoke Plain GetTopBooks [num 5; tr] m1.2 in
    let m3 := invoke Plain GetSalesByGenre [tr] m2.2 in
    let pr := Dashboard.processResults m0.1 m1.1 m2.1 m3.1
                (Dashboard.setLoading true s) in
    match try_catch pr.1
            (λ err,
               console_error "Error fetching dashboard data:" err ;;
               ret (Dashboard.setError (Some failed_message) pr.2)) m3.2 with
    | (Normal s', w') => (Normal (Dashboard.setLoading false s'), w')
    | (Throw e, w') => (Throw e, w')
    end.
Proof.
  unfold Dashboard.fetchData. unfold bind at 1.
  change (analyticsService.getDashboardSummary)
    with (invoke Plain GetDashboardSummary []).
  rewrite settle_run. unfold bind at 1.
  change (analyticsService.getSalesTimeSeries (VStr "day")
            (num (Dashboard.timeRange (Dashboard.setLoading true s))))
    with (invoke Plain GetSalesTimeSeries
            [VStr "day"; num (Dashboard.timeRange s)]).
  rewrite settle_run. unfold bind at 1.
  change (analyticsService.getTopBooks (num 5)
            (num (Dashboard.timeRange (Dashboard.setLoading true s))))
    with (invoke Plain GetTopBooks [num 5; num (Dashboard.timeRange s)]).
  rewrite settle_run. unfold bind at 1.
  change (analyticsService.getSalesByGenre
            (num (Dashboard.timeRange (Dashboard.setLoading true s))))
    with (invoke Plain GetSalesByGenre [num (Dashboard.timeRange s)]).
  rewrite settle_run. cbv zeta.
  destruct (Dashboard.processResults _ _ _ _ _) as [rest kept].
  unfold bind, ret. cbn [fst snd]. unfold failed_message.
  destruct (try_catch _ _ _) as [[s'|e] w']; reflexivity.
Qed.

(** One run of the plain dashboard in terms of the four answers. *)
Lemma Dashboard_fetchData_answers s w :
  ∃ c0 c1 c2 c3 w4,
    sent w4 = sent w ++ [c0; c1; c2; c3]
    ∧ Dashboard.fetchData s w =
        (let pr := Dashboard.processResults
                     (settled (answer_to w [] c0))
                     (settled (answer_to w [c0] c1))
                     (settled (answer_to w [c0; c1] c2))
                     (settled (answer_to w [c0; c1; c2] c3))
                     (Dashboard.setLoading true s) in
         match try_catch pr.1
                 (λ err,
                    console_error "Error fetching dashboard data:" err ;;
                    ret (Dashboard.setError (Some failed_message) pr.2))
                 w4 with
         | (Normal s', w') => (Normal (Dashboard.setLoading false s'), w')
         | (Throw e, w') => (Throw e, w')
         end).
Proof.
  rewrite Dashboard_fetchData_unfold. cbv zeta.
  set (tr := num (Dashboard.timeRange s)).
  destruct (invoke_wire Plain GetDashboardSummary [] w)
    as (c0 & _ & _ & _ & _ & S0 & N0 & _ & _ & R0).
  set (m0 := invoke Plain GetDashboardSummary [] w) in *.
  destruct (invoke_wire Plain GetSalesTimeSeries [VStr "day"; tr] m0.2)
    as (c1 & _ & _ & _ & _ & S1 & N1 & _ & _ & R1).
  set (m1 := invoke Plain GetSalesTimeSeries [VStr "day"; tr] m0.2) in *.
  destruct (invoke_wire Plain GetTopBooks [num 5; tr] m1.2)
    as (c2 & _ & _ & _ & _ & S2 & N2 & _ & _ & R2).
  set (m2 := invoke Plain GetTopBooks [num 5; tr] m1.2) in *.
  destruct (invoke_wire Plain GetSalesByGenre [tr] m2.2)
    as (c3 & _ & _ & _ & _ & S3 & N3 & _ & _ & R3).
  set (m3 := invoke Plain GetSalesByGenre [tr] m2.2) in *.
  exists c0, c1, c2, c3, m3.2.
  split; [rewrite S3, S2, S1, S0, <- !app_assoc; reflexivity|].
  unfold answer_to. rewrite app_nil_r.
  rewrite (R0 eq_refl), (R1 eq_refl), (R2 eq_refl), (R3 eq_refl).
  rewrite N2, N1, N0, S2, S1, S0, <- !app_assoc. reflexivity.
Qed.

(** X16. A rejected request of the plain dashboard leaves its part of the
    page as it was, while the other parts are still updated: the run always
    returns, sends the same four requests and ends with the loading flag
    off, the summary is the body of the first answer whenever that one
    arrived, and the page shows no message only when all four requests were
    answered. *)
Theorem a_rejected_request_leaves_its_part_alone s w :
  ∃ c0 c1 c2 c3 s' w',
    Dashboard.fetchData s w = (Normal s', w')
    ∧ sent w' = sent w ++ [c0; c1; c2; c3]
    ∧ Dashboard.loading s' = false
    ∧ (∀ e, answer_to w [] c0 = Rejected e →
         Dashboard.summary s' = Dashboard.summary s)
    ∧ (∀ e, answer_to w [c0] c1 = Rejected e →
         Dashboard.timeSeriesData s' = Dashboard.timeSeriesData s)
    ∧ (∀ e, answer_to w [c0; c1] c2 = Rejected e →
         Dashboard.topBooks s' = Dashboard.topBooks s)
    ∧ (∀ e, answer_to w [c0; c1; c2] c3 = Rejected e →
         Dashboard.genreData s' = Dashboard.genreData s)
    ∧ (∀ st v, answer_to w [] c0 = Resolved st v → Dashboard.summary s' = v)
    ∧ (Dashboard.error s' = None →
         Forall2 (λ before c, ∃ st v, answer_to w before c = Resolved st v)
           [[]; [c0]; [c0; c1]; [c0; c1; c2]] [c0; c1; c2; c3]).
Proof.
  destruct (Dashboard_fetchData_answers s w)
    as (c0 & c1 & c2 & c3 & w4 & Hsent & ->).
  exists c0, c1, c2, c3. cbv zeta.
  unfold Dashboard.processResults, Dashboard.processTimeSeries.
  destruct (answer_to w [] c0) as [st0 v0|e0] eqn:A0,
           (answer_to w [c0] c1) as [st1 v1|e1] eqn:A1,
           (answer_to w [c0; c1] c2) as [st2 v2|e2] eqn:A2,
           (answer_to w [c0; c1; c2] c3) as [st3 v3|e3] eqn:A3;
    cbn [settled];
    repeat match goal with
           | |- context [formatTimeSeries ?x] => destruct (formatTimeSeries x)
           | |- context [sliceFirstFive ?x] => destruct (sliceFirstFive x)
           end;
    cbn; do 2 eexists; (split; [reflexivity|]); cbn;
    (split; [exact Hsent|]); (split; [reflexivity|]);
    (split; [intros; first [reflexivity|discriminate]|]);
    (split; [intros; first [reflexivity|discriminate]|]);
    (split; [intros; first [reflexivity|discriminate]|]);
    (split; [intros; first [reflexivity|discriminate]|]);
    (split; [intros ? ? [= _ <-]; reflexivity || (intros; discriminate)|]);
    first [discriminate | intros _; repeat constructor; eauto].
Qed.

(** Without a server the freshly mounted dashboard keeps its empty charts
    and shows a message. *)
Lemma a_rejected_request_leaves_its_part_alone_witness :
  ∃ s' w',
    Dashboard.fetchData Dashboard.initial offline_world = (Normal s', w')
    ∧ Dashboard.loading s' = false
    ∧ Dashboard.summary s' = VNull
    ∧ Dashboard.timeSeriesData s' = []
    ∧ Dashboard.topBooks s' = arr []
    ∧ Dashboard.genreData s' = arr []
    ∧ Dashboard.error s' ≠ None.
Proof.
  destruct (a_rejected_request_leaves_its_part_alone
              Dashboard.initial offline_world)
    as (c0 & c1 & c2 & c3 & s' & w' & H & _ & HL & H0 & H1 & H2 & H3 & _ & HE).
  exists s', w'. split; [exact H|]. split; [exact HL|].
  split; [exact (H0 network_error eq_refl)|].
  split; [exact (H1 network_error eq_refl)|].
  split; [exact (H2 network_error eq_refl)|].
  split; [exact (H3 network_error eq_refl)|].
  intros He. apply HE in He.
  inversion He as [|? ? ? ? (st & v & Hv) _]. discriminate Hv.
Defined.

(** X17. The plain dashboard shows five genres at most: a list that answers
    the genre request is cut to its first five entries, and a body that is
    null, false, zero or empty gives the empty list. An object in the place
    of the list cannot be cut: the genre chart then stays as it was and the
    page shows the message of a failed fetch. *)
Theorem the_dashboard_shows_five_genres_at_most s w :
  ∃ c0 c1 c2 c3 s' w',
    Dashboard.fetchData s w = (Normal s', w')
    ∧ sent w' = sent w ++ [c0; c1; c2; c3]
    ∧ (∀ st es p,
         answer_to w [c0; c1; c2] c3 = Resolved st (VArr es p) →
         Dashboard.error s' ≠ Some failed_message →
         Dashboard.genreData s' = arr (take 5 es))
    ∧ (∀ st v,
         answer_to w [c0; c1; c2] c3 = Resolved st v →
         to_boolean v = false →
         Dashboard.error s' ≠ Some failed_message →
         Dashboard.genreData s' = arr [])
    ∧ (∀ st m,
         answer_to w [c0; c1; c2] c3 = Resolved st (VObj m) →
         Dashboard.error s' = Some failed_message
         ∧ Dashboard.genreData s' = Dashboard.genreData s).
Proof.
  destruct (Dashboard_fetchData_answers s w)
    as (c0 & c1 & c2 & c3 & w4 & Hsent & ->).
  exists c0, c1, c2, c3. cbv zeta.
  unfold Dashboard.processResults, Dashboard.processTimeSeries.
  destruct (answer_to w [] c0) as [st0 v0|e0] eqn:A0,
           (answer_to w [c0] c1) as [st1 v1|e1] eqn:A1,
           (answer_to w [c0; c1] c2) as [st2 v2|e2] eqn:A2,
           (answer_to w [c0; c1; c2] c3) as [st3 v3|e3] eqn:A3;
    cbn [settled];
    repeat match goal with
           | |- context [formatTimeSeries ?x] => destruct (formatTimeSeries x)
           end;
    try (destruct v3 as [| |[|]|[|q]|t|es p|m];
         unfold sliceFirstFive, js_or; cbn [to_boolean];
         try destruct (is_zero q) eqn:Hq;
         try destruct (String.eqb t "") eqn:Ht);
    cbn; do 2 eexists; (split; [reflexivity|]); cbn;
    (split; [exact Hsent|]);
    (split; [intros ? ? ? [= _ <- _] Hn;
             first [reflexivity | discriminate
                   | exfalso; apply Hn; reflexivity]|]);
    (split; [intros ? ? Heq Hb Hn;
             first [reflexivity
                   | discriminate Heq
                   | exfalso; apply Hn; reflexivity
                   | injection Heq as _ <-; cbn in Hb;
                     rewrite ?Hq, ?Ht in Hb; discriminate Hb]|]);
    intros ? ? [= _ <-] || (intros; discriminate);
    split; reflexivity.
Qed.

(** A server that answers with an object where the genre list should be. *)
Lemma the_dashboard_shows_five_genres_at_most_witness :
  ∃ s' w',
    Dashboard.fetchData Dashboard.initial (echo_world (obj [])) =
      (Normal s', w')
    ∧ Dashboard.error s' = Some failed_message
    ∧ Dashboard.genreData s' = arr [].
Proof.
  destruct (the_dashboard_shows_five_genres_at_most
              Dashboard.initial (echo_world (obj [])))
    as (c0 & c1 & c2 & c3 & s' & w' & H & _ & _ & _ & Hobj).
  exists s', w'. split; [exact H|].
  exact (Hobj 200%Z ∅ eq_refl).
Defined.

(** One run of the optimized dashboard, with everything the page and the
    wire show of it. *)
Lemma DashboardOptimized_fetchData_cases s w :
  ∃ c0 rest s' w',
    DashboardOptimized.fetchData s w = (Normal s', w')
    ∧ sent w' = sent w ++ c0 :: rest
    ∧ is_request c0 "/api/analytics/summary/" ∅
    ∧ DashboardOptimized.timeRange s' = DashboardOptimized.timeRange s
    ∧ DashboardOptimized.intervalMode s' = DashboardOptimized.intervalMode s
    ∧ DashboardOptimized.loading s' = false
    ∧ (∀ e, answer_to w [] c0 = Rejected e →
         rest = []
         ∧ s' = DashboardOptimized.setLoading false
                  (DashboardOptimized.setError (Some failed_message) s)
         ∧ console w' =
             console w ++ [("Error fetching dashboard summary:", e);
                           ("Error fetching dashboard data:", e)])
    ∧ (DashboardOptimized.error s' = None ↔ length rest = 3%nat)
    ∧ match rest with
      | c1 :: _ =>
          is_request c1 "/api/analytics/optimized-timeseries/"
            {[ "interval" := VStr (DashboardOptimized.intervalMode s);
               "days" := num (DashboardOptimized.timeRange s) ]}
      | [] => True
      end
    ∧ (∀ c1 c2 c3, rest = [c1; c2; c3] →
         (∀ e, answer_to w [c0; c1] c2 = Rejected e →
            DashboardOptimized.topBooks s' = DashboardOptimized.topBooks s)
         ∧ (∀ e, answer_to w [c0; c1; c2] c3 = Rejected e →
              DashboardOptimized.genreData s' = DashboardOptimized.genreData s)
         ∧ (∀ e2 e3,
              answer_to w [c0; c1] c2 = Rejected e2 →
              answer_to w [c0; c1; c2] c3 = Rejected e3 →
              console w' =
                console w ++ [("Error fetching top books:", e2);
                              ("Error fetching sales by genre:", e3)])).
Proof.
  set (tr := num (DashboardOptimized.timeRange s)).
  destruct (invoke_wire Optimized GetDashboardSummary [] w)
    as (c0 & M0 & P0 & Q0 & _ & S0 & N0 & R0 & K0 & _).
  exists c0. rewrite DashboardOptimized_fetchData_unfold. cbv zeta.
  unfold answer_to. rewrite app_nil_r.
  destruct (invoke Optimized GetDashboardSummary [] w) as [[v0|e0] w1];
    cbn [fst snd] in *.
  2:{ exists []. do 2 eexists. split; [reflexivity|].
      split; [exact S0|]. split; [repeat split; assumption|].
      split; [reflexivity|]. split; [reflexivity|]. split; [reflexivity|].
      split.
      { intros e He. destruct (R0 e He) as [[= ->] Hc].
        split; [reflexivity|]. split; [reflexivity|].
        cbn. rewrite Hc, <- app_assoc. reflexivity. }
      split; [split; discriminate|]. split; [exact I|]. discriminate. }
  destruct (K0 v0 eq_refl) as (C0 & st0 & p0 & A0).
  destruct (invoke_wire Optimized GetSalesTimeSeries
              [VStr (DashboardOptimized.intervalMode s); tr] w1)
    as (c1 & M1 & P1 & Q1 & _ & S1 & N1 & R1 & K1 & _).
  fold tr.
  destruct (invoke Optimized GetSalesTimeSeries
              [VStr (DashboardOptimized.intervalMode s); tr] w1)
    as [[v1|e1] w2]; cbn [fst snd] in *.
  2:{ exists [c1]. do 2 eexists. split; [reflexivity|].
      split; [cbn; rewrite S1, S0, <- app_assoc; reflexivity|].
      split; [repeat split; assumption|].
      split; [reflexivity|]. split; [reflexivity|]. split; [reflexivity|].
      split; [intros e He; rewrite A0 in He; discriminate|].
      split; [split; discriminate|].
      split; [repeat split; assumption|]. discriminate. }
  destruct (K1 v1 eq_refl) as (C1 & _).
  destruct (optimized_processTimeSeries_frame v1
              (DashboardOptimized.setSummary v0
                 (DashboardOptimized.setLoading true s)))
    as (F1 & F2 & _ & _ & _ & F6 & F7).
  destruct (DashboardOptimized.processTimeSeries v1 _) as [s2 [[]|e]];
    cbn [fst snd] in *.
  2:{ exists [c1]. do 2 eexists. split; [reflexivity|].
      split; [cbn; rewrite S1, S0, <- app_assoc; reflexivity|].
      split; [repeat split; assumption|].
      split; [exact F1|]. split; [exact F2|]. split; [reflexivity|].
      split; [intros e' He; rewrite A0 in He; discriminate|].
      split; [split; discriminate|].
      split; [repeat split; assumption|]. discriminate. }
  destruct (invoke_wire Optimized GetTopBooks [num 5; tr] w2)
    as (c2 & M2 & P2 & Q2 & _ & S2 & N2 & R2 & _).
  set (m2 := invoke Optimized GetTopBooks [num 5; tr] w2) in *.
  destruct (invoke_wire Optimized GetSalesByGenre [tr] m2.2)
    as (c3 & M3 & P3 & Q3 & _ & S3 & N3 & R3 & _).
  set (m3 := invoke Optimized GetSalesByGenre [tr] m2.2) in *.
  destruct (optimized_processRemaining_frame m2.1 m3.1
              (DashboardOptimized.setLoading false
                 (DashboardOptimized.setError None s2)))
    as (G1 & G2 & G3 & G4 & G5 & G6).
  exists [c1; c2; c3]. do 2 eexists. split; [reflexivity|].
  split; [rewrite S3, S2, S1, S0, <- !app_assoc; reflexivity|].
  split; [repeat split; assumption|].
  split; [rewrite G1; exact F1|]. split; [rewrite G2; exact F2|].
  split; [rewrite G3; reflexivity|].
  split; [intros e' He; rewrite A0 in He; discriminate|].
  split; [rewrite G4; split; reflexivity|].
  split; [repeat split; assumption|].
  intros ? ? ? [= <- <- <-].
  rewrite N2, N1, N0, S2, S1, S0, <- !app_assoc in R3.
  rewrite N1, N0, S1, S0, <- !app_assoc in R2. cbn [app] in R2, R3.
  split; [intros e He; rewrite (G5 e (proj1 (R2 e He))); exact F6|].
  split; [intros e He; rewrite (G6 e (proj1 (R3 e He))); exact F7|].
  intros e2 e3 H2 H3.
  rewrite (proj2 (R3 e3 H3)), (proj2 (R2 e2 H2)), C1, C0, <- app_assoc.
  reflexivity.
Qed.

(** X18. A failed summary request stops the optimized dashboard: no further
    request goes out, every chart keeps its previous content, the page
    shows the message of a failed fetch with the loading flag off, and the
    error is logged twice, once by the wrapper and once by the page. *)
Theorem a_failed_summary_stops_the_optimized_dashboard s w :
  ∃ c0 rest s' w',
    DashboardOptimized.fetchData s w = (Normal s', w')
    ∧ sent w' = sent w ++ c0 :: rest
    ∧ is_request c0 "/api/analytics/summary/" ∅
    ∧ ∀ e, answer_to w [] c0 = Rejected e →
        rest = []
        ∧ s' = DashboardOptimized.setLoading false
                 (DashboardOptimized.setError (Some failed_message) s)
        ∧ console w' =
            console w ++ [("Error fetching dashboard summary:", e);
                          ("Error fetching dashboard data:", e)].
Proof.
  destruct (DashboardOptimized_fetchData_cases s w)
    as (c0 & rest & s' & w' & H & Hsent & Hreq & _ & _ & _ & Hstop & _).
  exists c0, rest, s', w'. auto.
Qed.

(** Without a server the freshly mounted optimized dashboard sends one
    request and then gives up. *)
Lemma a_failed_summary_stops_the_optimized_dashboard_witness :
  ∃ c0 w',
    DashboardOptimized.fetchData DashboardOptimized.initial offline_world =
      (Normal (DashboardOptimized.setLoading false
                 (DashboardOptimized.setError (Some failed_message)
                    DashboardOptimized.initial)), w')
    ∧ sent w' = [c0]
    ∧ length (console w') = 2%nat.
Proof.
  destruct (a_failed_summary_stops_the_optimized_dashboard
              DashboardOptimized.initial offline_world)
    as (c0 & rest & s' & w' & H & Hsent & _ & Hstop).
  destruct (Hstop network_error eq_refl) as (-> & -> & Hconsole).
  exists c0, w'. split; [exact H|]. split; [exact Hsent|].
  rewrite Hconsole. reflexivity.
Defined.

(** X19. The optimized dashboard is silent about its last two requests: the
    run ends without a message exactly when the top-books and genre
    requests went out, whatever became of them. When one of them is
    rejected its chart keeps its previous content, and the only trace is
    the line the wrapper logs. *)
Theorem late_failures_of_the_optimized_dashboard_are_silent s w :
  ∃ c0 rest s' w',
    DashboardOptimized.fetchData s w = (Normal s', w')
    ∧ sent w' = sent w ++ c0 :: rest
    ∧ DashboardOptimized.loading s' = false
    ∧ (DashboardOptimized.error s' = None ↔ length rest = 3%nat)
    ∧ (∀ c1 c2 c3, rest = [c1; c2; c3] →
         (∀ e, answer_to w [c0; c1] c2 = Rejected e →
            DashboardOptimized.topBooks s' = DashboardOptimized.topBooks s)
         ∧ (∀ e, answer_to w [c0; c1; c2] c3 = Rejected e →
              DashboardOptimized.genreData s' = DashboardOptimized.genreData s)
         ∧ (∀ e2 e3,
              answer_to w [c0; c1] c2 = Rejected e2 →
              answer_to w [c0; c1; c2] c3 = Rejected e3 →
              console w' =
                console w ++ [("Error fetching top books:", e2);
                              ("Error fetching sales by genre:", e3)])).
Proof.
  destruct (DashboardOptimized_fetchData_cases s w)
    as (c0 & rest & s' & w' & H & Hsent & _ & _ & _ & Hl & _ & He & _ & Hlate).
  exists c0, rest, s', w'. auto.
Qed.

(** A server that knows the summary and the time series only: the mounted
    dashboard ends without a message, and the console holds the two lines
    of the wrappers. *)
Lemma late_failures_of_the_optimized_dashboard_are_silent_witness :
  ∃ s' w',
    DashboardOptimized.fetchData DashboardOptimized.initial
      late_failures_world = (Normal s', w')
    ∧ DashboardOptimized.error s' = None
    ∧ DashboardOptimized.topBooks s' = arr []
    ∧ DashboardOptimized.genreData s' = arr []
    ∧ console w' = [("Error fetching top books:", network_error);
                    ("Error fetching sales by genre:", network_error)].
Proof.
  destruct (late_failures_of_the_optimized_dashboard_are_silent
              DashboardOptimized.initial late_failures_world)
    as (c0 & rest & s' & w' & H & Hsent & _ & Hiff & Hlate).
  assert (Hwire : ∃ k0 k1 k2 k3,
            sent (DashboardOptimized.fetchData DashboardOptimized.initial
                    late_failures_world).2 = [k0; k1; k2; k3]
            ∧ url k2 = "/analytics/top-books/"
            ∧ url k3 = "/analytics/sales-by-genre/").
  { vm_compute. do 4 eexists. split; [reflexivity|]. split; reflexivity. }
  destruct Hwire as (k0 & k1 & k2 & k3 & Hk & U2 & U3).
  rewrite H in Hk. cbn [snd] in Hk. rewrite Hsent in Hk.
  injection Hk as -> ->.
  destruct (Hlate k1 k2 k3 eq_refl) as (Hbooks & Hgenres & Hconsole).
  assert (A2 : answer_to late_failures_world [k0; k1] k2
               = Rejected network_error).
  { unfold answer_to. cbn. rewrite U2. reflexivity. }
  assert (A3 : answer_to late_failures_world [k0; k1; k2] k3
               = Rejected network_error).
  { unfold answer_to. cbn. rewrite U3. reflexivity. }
  exists s', w'. split; [exact H|].
  split; [apply Hiff; reflexivity|].
  split; [exact (Hbooks _ A2)|]. split; [exact (Hgenres _ A3)|].
  exact (Hconsole _ _ A2 A3).
Defined.

(** X20. The effect depends on the interval as well: picking another
    interval runs the effect again, with the new interval in the
    time-series request and the range as it was; picking the current one
    does nothing. *)
Theorem a_new_interval_runs_the_effect_again v s w :
  v ≠ DashboardOptimized.intervalMode s →
  DashboardOptimized.selectInterval (DashboardOptimized.intervalMode s) s w =
    (Normal s, w)
  ∧ ∃ c0 rest s' w',
      DashboardOptimized.selectInterval v s w = (Normal s', w')
      ∧ DashboardOptimized.intervalMode s' = v
      ∧ DashboardOptimized.timeRange s' = DashboardOptimized.timeRange s
      ∧ sent w' = sent w ++ c0 :: rest
      ∧ is_request c0 "/api/analytics/summary/" ∅
      ∧ match rest with
        | c1 :: _ =>
            is_request c1 "/api/analytics/optimized-timeseries/"
              {[ "interval" := VStr v;
                 "days" := num (DashboardOptimized.timeRange s) ]}
        | [] => True
        end.
Proof.
  intros Hv. unfold DashboardOptimized.selectInterval. split.
  { rewrite String.eqb_refl. reflexivity. }
  destruct (String.eqb_spec (DashboardOptimized.intervalMode s) v)
    as [Heq|_]; [congruence|].
  destruct (DashboardOptimized_fetchData_cases
              (DashboardOptimized.setIntervalMode v s) w)
    as (c0 & rest & s' & w' & H & Hsent & Hreq & Htr & Him & _ & _ & _
        & Hts & _).
  exists c0, rest, s', w'. auto 10.
Qed.

(** Switching the mounted dashboard from the automatic to the weekly
    interval. *)
Lemma a_new_interval_runs_the_effect_again_witness :
  ∃ c0 rest s' w',
    DashboardOptimized.selectInterval "week" DashboardOptimized.initial
      (quiet_world ∅) = (Normal s', w')
    ∧ DashboardOptimized.intervalMode s' = "week"
    ∧ sent w' = c0 :: rest.
Proof.
  destruct (a_new_interval_runs_the_effect_again "week"
              DashboardOptimized.initial (quiet_world ∅))
    as (_ & c0 & rest & s' & w' & H & Him & _ & Hsent & _).
  - discriminate.
  - exists c0, rest, s', w'. auto.
Defined.

End Fetching.

(** ** Runs of the detail pages and of the settings page
       (SalesByRegion.jsx, TopBooks.jsx, SalesByGenre.jsx, Settings.jsx) *)

Section DetailPages.
Import JS Axios Services Pages Details Spec.

(** One operation of the plain wrapper in terms of the answer. *)
Lemma plain_invoke_answer op args w :
  ∃ c, method c = verb op ∧ full_path c = endpoint Plain op
     ∧ params c = query Plain op args ∧ body c = payload_of op args
     ∧ sent (invoke Plain op args w).2 = sent w ++ [c]
     ∧ match answer_to w [] c with
       | Resolved _ v =>
           (invoke Plain op args w).1 = Normal v
           ∧ console (invoke Plain op args w).2 = console w
       | Rejected e =>
           (invoke Plain op args w).1 = Throw e
           ∧ console (invoke Plain op args w).2 =
               console w ++ [(label op, e)]
       end.
Proof.
  destruct (invoke_wire Plain op args w)
    as (c & Hm & Hp & Hq & Hb & Hs & _ & Hr & Hk & Hplain).
  exists c. unfold answer_to. rewrite app_nil_r.
  split; [exact Hm|]. split; [exact Hp|]. split; [exact Hq|].
  split; [exact Hb|]. split; [exact Hs|].
  specialize (Hplain eq_refl).
  destruct (network w (sent w) c).2 as [st v|e]; cbn [settled] in Hplain.
  - split; [exact Hplain|]. exact (proj1 (Hk v Hplain)).
  - exact (Hr e eq_refl).
Qed.

Lemma SalesByRegion_fetchData_unfold s w :
  SalesByRegion.fetchData s w =
    match invoke Plain GetSalesByRegion [num (SalesByRegion.timeRange s)] w
    with
    | (Normal data, w1) =>
        (Normal {| SalesByRegion.timeRange := SalesByRegion.timeRange s;
                   SalesByRegion.loading := false;
                   SalesByRegion.error := None;
                   SalesByRegion.regionData := data |}, w1)
    | (Throw e, w1) =>
        (Normal {| SalesByRegion.timeRange := SalesByRegion.timeRange s;
                   SalesByRegion.loading := false;
                   SalesByRegion.error :=
                     Some "Failed to fetch sales by region data. Please try again later.";
                   SalesByRegion.regionData := SalesByRegion.regionData s |},
         logged "Error fetching region data:" e w1)
    end.
Proof.
  unfold SalesByRegion.fetchData, bind, try_catch, ret, console_error, logged.
  change (analyticsService.getSalesByRegion ?d)
    with (invoke Plain GetSalesByRegion [d]).
  cbn [SalesByRegion.timeRange].
  destruct (invoke Plain GetSalesByRegion _ w) as [[v|e] w1]; reflexivity.
Qed.

Lemma SalesByGenre_fetchData_unfold s w :
  SalesByGenre.fetchData s w =
    match invoke Plain GetSalesByGenre [num (SalesByGenre.timeRange s)] w
    with
    | (Normal data, w1) =>
        (Normal {| SalesByGenre.timeRange := SalesByGenre.timeRange s;
                   SalesByGenre.loading := false;
                   SalesByGenre.error := None;
                   SalesByGenre.genreData := data |}, w1)
    | (Throw e, w1) =>
        (Normal {| SalesByGenre.timeRange := SalesByGenre.timeRange s;
                   SalesByGenre.loading := false;
                   SalesByGenre.error :=
                     Some "Failed to fetch sales by genre data. Please try again later.";
                   SalesByGenre.genreData := SalesByGenre.genreData s |},
         logged "Error fetching genre data:" e w1)
    end.
Proof.
  unfold SalesByGenre.fetchData, bind, try_catch, ret, console_error, logged.
  change (analyticsService.getSalesByGenre ?d)
    with (invoke Plain GetSalesByGenre [d]).
  cbn [SalesByGenre.timeRange].
  destruct (invoke Plain GetSalesByGenre _ w) as [[v|e] w1]; reflexivity.
Qed.

Lemma TopBooks_fetchData_unfold s w :
  TopBooks.fetchData s w =
    match invoke Plain GetTopBooks
            [num (TopBooks.limit s); num (TopBooks.timeRange s)] w
    with
    | (Normal data, w1) =>
        (Normal {| TopBooks.timeRange := TopBooks.timeRange s;
                   TopBooks.limit := TopBooks.limit s;
                   TopBooks.loading := false;
                   TopBooks.error := None;
                   TopBooks.books := data |}, w1)
    | (Throw e, w1) =>
        (Normal {| TopBooks.timeRange := TopBooks.timeRange s;
                   TopBooks.limit := TopBooks.limit s;
                   TopBooks.loading := false;
                   TopBooks.error :=
                     Some "Failed to fetch top books data. Please try again later.";
                   TopBooks.books := TopBooks.books s |},
         logged "Error fetching top books:" e w1)
    end.
Proof.
  unfold TopBooks.fetchData, bind, try_catch, ret, console_error, logged.
  change (analyticsService.getTopBooks ?l ?d)
    with (invoke Plain GetTopBooks [l; d]).
  cbn [TopBooks.timeRange TopBooks.limit].
  destruct (invoke Plain GetTopBooks _ w) as [[v|e] w1]; reflexivity.
Qed.

(** X21. One run of the region page: it always returns with the loading
    flag off after one GET for the selected range. The body of an answer
    becomes the region data exactly as it came and clears the message; a
    rejection keeps the previous data, sets the message of the page, and is
    logged twice, by the wrapper and by the page. *)
Theorem the_region_page_takes_the_body_as_it_comes s w :
  ∃ c s' w',
    SalesByRegion.fetchData s w = (Normal s', w')
    ∧ sent w' = sent w ++ [c]
    ∧ is_request c "/api/analytics/sales-by-region/"
        {[ "days" := num (SalesByRegion.timeRange s) ]}
    ∧ SalesByRegion.timeRange s' = SalesByRegion.timeRange s
    ∧ SalesByRegion.loading s' = false
    ∧ match answer_to w [] c with
      | Resolved _ v =>
          SalesByRegion.regionData s' = v
          ∧ SalesByRegion.error s' = None
          ∧ console w' = console w
      | Rejected e =>
          SalesByRegion.regionData s' = SalesByRegion.regionData s
          ∧ SalesByRegion.error s' =
              Some "Failed to fetch sales by region data. Please try again later."
          ∧ console w' =
              console w ++ [("Error fetching sales by region:", e);
                            ("Error fetching region data:", e)]
      end.
Proof.
  destruct (plain_invoke_answer GetSalesByRegion
              [num (SalesByRegion.timeRange s)] w)
    as (c & Hm & Hp & Hq & _ & Hs & Ha).
  exists c. rewrite SalesByRegion_fetchData_unfold.
  destruct (invoke Plain GetSalesByRegion _ w) as [[v|e] w1];
    cbn [fst snd] in *; do 2 eexists; (split; [reflexivity|]);
    (split; [exact Hs|]); (split; [repeat split; assumption|]);
    (split; [reflexivity|]); (split; [reflexivity|]);
    destruct (answer_to w [] c) as [st v'|e']; destruct Ha as [Hr Hc];
    try discriminate; injection Hr as <-;
    (split; [reflexivity|]); (split; [reflexivity|]).
  - exact Hc.
  - cbn. rewrite Hc, <- app_assoc. reflexivity.
Qed.

(** X22. One run of the genre page, which differs from the region page in
    its endpoint and its messages only. *)
Theorem the_genre_page_takes_the_body_as_it_comes s w :
  ∃ c s' w',
    SalesByGenre.fetchData s w = (Normal s', w')
    ∧ sent w' = sent w ++ [c]
    ∧ is_request c "/api/analytics/sales-by-genre/"
        {[ "days" := num (SalesByGenre.timeRange s) ]}
    ∧ SalesByGenre.timeRange s' = SalesByGenre.timeRange s
    ∧ SalesByGenre.loading s' = false
    ∧ match answer_to w [] c with
      | Resolved _ v =>
          SalesByGenre.genreData s' = v
          ∧ SalesByGenre.error s' = None
          ∧ console w' = console w
      | Rejected e =>
          SalesByGenre.genreData s' = SalesByGenre.genreData s
          ∧ SalesByGenre.error s' =
              Some "Failed to fetch sales by genre data. Please try again later."
          ∧ console w' =
              console w ++ [("Error fetching sales by genre:", e);
                            ("Error fetching genre data:", e)]
      end.
Proof.
  destruct (plain_invoke_answer GetSalesByGenre
              [num (SalesByGenre.timeRange s)] w)
    as (c & Hm & Hp & Hq & _ & Hs & Ha).
  exists c. rewrite SalesByGenre_fetchData_unfold.
  destruct (invoke Plain GetSalesByGenre _ w) as [[v|e] w1];
    cbn [fst snd] in *; do 2 eexists; (split; [reflexivity|]);
    (split; [exact Hs|]); (split; [repeat split; assumption|]);
    (split; [reflexivity|]); (split; [reflexivity|]);
    destruct (answer_to w [] c) as [st v'|e']; destruct Ha as [Hr Hc];
    try discriminate; injection Hr as <-;
    (split; [reflexivity|]); (split; [reflexivity|]).
  - exact Hc.
  - cbn. rewrite Hc, <- app_assoc. reflexivity.
Qed.

(** X23. The top-books page offers the limits 5, 10, 20 and 50 and starts
    at 10. Picking another limit runs the effect again: one GET that asks
    for that many books over the range as it was. The body of the answer
    becomes the list of books as it came; a rejection keeps the previous
    list and sets the message of the page. Picking the current limit does
    nothing. *)
Theorem a_new_limit_asks_for_that_many_books v s w :
  v ≠ TopBooks.limit s →
  (TopBooks.limits).*1 = [5; 10; 20; 50]%Z
  ∧ TopBooks.limit TopBooks.initial = 10%Z
  ∧ TopBooks.selectLimit (TopBooks.limit s) s w = (Normal s, w)
  ∧ ∃ c s' w',
      TopBooks.selectLimit v s w = (Normal s', w')
      ∧ sent w' = sent w ++ [c]
      ∧ is_request c "/api/analytics/top-books/"
          {[ "limit" := num v; "days" := num (TopBooks.timeRange s) ]}
      ∧ TopBooks.limit s' = v
      ∧ TopBooks.timeRange s' = TopBooks.timeRange s
      ∧ TopBooks.loading s' = false
      ∧ match answer_to w [] c with
        | Resolved _ body =>
            TopBooks.books s' = body ∧ TopBooks.error s' = None
        | Rejected e =>
            TopBooks.books s' = TopBooks.books s
            ∧ TopBooks.error s' =
                Some "Failed to fetch top books data. Please try again later."
            ∧ console w' =
                console w ++ [("Error fetching top books:", e);
                              ("Error fetching top books:", e)]
        end.
Proof.
  intros Hv. split; [reflexivity|]. split; [reflexivity|].
  unfold TopBooks.selectLimit. rewrite Z.eqb_refl.
  split; [reflexivity|].
  destruct (Z.eqb_spec (TopBooks.limit s) v) as [Heq|_]; [congruence|].
  rewrite TopBooks_fetchData_unfold. cbn [TopBooks.limit TopBooks.timeRange].
  destruct (plain_invoke_answer GetTopBooks
              [num v; num (TopBooks.timeRange s)] w)
    as (c & Hm & Hp & Hq & _ & Hs & Ha).
  exists c.
  destruct (invoke Plain GetTopBooks _ w) as [[b|e] w1];
    cbn [fst snd] in *; do 2 eexists; (split; [reflexivity|]);
    (split; [exact Hs|]); (split; [repeat split; assumption|]);
    (split; [reflexivity|]); (split; [reflexivity|]);
    (split; [reflexivity|]);
    destruct (answer_to w [] c) as [st v'|e']; destruct Ha as [Hr Hc];
    try discriminate; injection Hr as <-;
    (split; [reflexivity|]).
  - reflexivity.
  - split; [reflexivity|]. cbn. rewrite Hc, <- app_assoc. reflexivity.
Qed.

(** Asking the mounted page for the top five without a server. *)
Lemma a_new_limit_asks_for_that_many_books_witness :
  ∃ c s' w',
    TopBooks.selectLimit 5 TopBooks.initial offline_world = (Normal s', w')
    ∧ sent w' = [c]
    ∧ params c = {[ "limit" := num 5; "days" := num 30 ]}
    ∧ TopBooks.books s' = arr []
    ∧ length (console w') = 2%nat.
Proof.
  destruct (a_new_limit_asks_for_that_many_books 5 TopBooks.initial
              offline_world)
    as (_ & _ & _ & c & s' & w' & H & Hs & (_ & _ & Hq) & _ & _ & _ & Ha).
  - discriminate.
  - exists c, s', w'. split; [exact H|]. split; [exact Hs|].
    split; [exact Hq|]. destruct Ha as (Hb & _ & Hc).
    split; [exact Hb|]. rewrite Hc. reflexivity.
Defined.

(** X24. The region and genre pages trust the server to send a list. A body
    that is no list is stored all the same and no message is shown; the
    page then throws while it renders, when it maps the data to the cells
    of the pie chart. *)
Theorem a_body_that_is_no_list_breaks_the_page :
  (∀ s w, ∃ c s' w',
     SalesByRegion.fetchData s w = (Normal s', w')
     ∧ sent w' = sent w ++ [c]
     ∧ ∀ st v, answer_to w [] c = Resolved st v →
         (∀ es p, v ≠ VArr es p) →
         SalesByRegion.error s' = None
         ∧ ∃ e, cells (SalesByRegion.regionData s') = Throw e)
  ∧ (∀ s w, ∃ c s' w',
       SalesByGenre.fetchData s w = (Normal s', w')
       ∧ sent w' = sent w ++ [c]
       ∧ ∀ st v, answer_to w [] c = Resolved st v →
           (∀ es p, v ≠ VArr es p) →
           SalesByGenre.error s' = None
           ∧ ∃ e, cells (SalesByGenre.genreData s') = Throw e).
Proof.
  assert (Hcells : ∀ v, (∀ es p, v ≠ VArr es p) → ∃ e, cells v = Throw e).
  { intros v Hv. destruct v; simpl; eauto. destruct (Hv _ _ eq_refl). }
  split; intros s w.
  - destruct (plain_invoke_answer GetSalesByRegion
                [num (SalesByRegion.timeRange s)] w)
      as (c & _ & _ & _ & _ & Hs & Ha).
    exists c. rewrite SalesByRegion_fetchData_unfold.
    destruct (invoke Plain GetSalesByRegion _ w) as [[v|e] w1];
      cbn [fst snd] in *; do 2 eexists; (split; [reflexivity|]);
      (split; [exact Hs|]); intros st v' Hv' Hno; rewrite Hv' in Ha;
      destruct Ha as [Hr _]; [|discriminate].
    injection Hr as <-. split; [reflexivity|]. exact (Hcells v Hno).
  - destruct (plain_invoke_answer GetSalesByGenre
                [num (SalesByGenre.timeRange s)] w)
      as (c & _ & _ & _ & _ & Hs & Ha).
    exists c. rewrite SalesByGenre_fetchData_unfold.
    destruct (invoke Plain GetSalesByGenre _ w) as [[v|e] w1];
      cbn [fst snd] in *; do 2 eexists; (split; [reflexivity|]);
      (split; [exact Hs|]); intros st v' Hv' Hno; rewrite Hv' in Ha;
      destruct Ha as [Hr _]; [|discriminate].
    injection Hr as <-. split; [reflexivity|]. exact (Hcells v Hno).
Qed.

(** A server that answers 204 with an empty body: the region page stores
    the empty text, shows no message, and cannot render. *)
Lemma a_body_that_is_no_list_breaks_the_page_witness :
  ∃ s' w',
    SalesByRegion.fetchData SalesByRegion.initial (quiet_world ∅) =
      (Normal s', w')
    ∧ SalesByRegion.error s' = None
    ∧ ∃ e, cells (SalesByRegion.regionData s') = Throw e.
Proof.
  destruct a_body_that_is_no_list_breaks_the_page as [Hregion _].
  destruct (Hregion SalesByRegion.initial (quiet_world ∅))
    as (c & s' & w' & H & _ & Hbody).
  exists s', w'. split; [exact H|].
  apply (Hbody 204%Z (VStr "")); [reflexivity|discriminate].
Defined.

Lemma Settings_handleGenerateData_unfold s w :
  Settings.handleGenerateData s w =
    match invoke Plain GenerateTestData
            [default VUndef (Settings.formState s !! "numBooks");
             default VUndef (Settings.formState s !! "numSales");
             default VUndef (Settings.formState s !! "skipRedshift")] w
    with
    | (Normal data, w1) =>
        (Normal {| Settings.loading := false; Settings.result := data;
                   Settings.error := None;
                   Settings.formState := Settings.formState s |}, w1)
    | (Throw e, w1) =>
        (Normal {| Settings.loading := false; Settings.result := VNull;
                   Settings.error :=
                     Some "Failed to generate test data. Please check your configuration and try again.";
                   Settings.formState := Settings.formState s |},
         logged "Error generating test data:" e w1)
    end.
Proof.
  unfold Settings.handleGenerateData, bind, try_catch, ret, console_error,
    logged.
  change (analyticsService.generateTestData ?a ?b ?c)
    with (invoke Plain GenerateTestData [a; b; c]).
  cbn [Settings.formState].
  destruct (invoke Plain GenerateTestData _ w) as [[v|e] w1]; reflexivity.
Qed.

(** X25. Generating test data posts the form as it stands: one POST without
    a query whose body carries the three fields of the form. The run always
    returns with the loading flag off and the form untouched. An answer
    becomes the result; a rejection leaves no result at all, whatever the
    page showed before, sets the message of the page and is logged twice
    under the same label. *)
Theorem generating_test_data_posts_the_form
    s w numBooks numSales skipRedshift :
  Settings.formState s !! "numBooks" = Some numBooks →
  Settings.formState s !! "numSales" = Some numSales →
  Settings.formState s !! "skipRedshift" = Some skipRedshift →
  numBooks ≠ VUndef → numSales ≠ VUndef → skipRedshift ≠ VUndef →
  ∃ c s' w',
    Settings.handleGenerateData s w = (Normal s', w')
    ∧ sent w' = sent w ++ [c]
    ∧ method c = "post"
    ∧ full_path c = "/api/analytics/generate-test-data/"
    ∧ params c = ∅
    ∧ body c = obj [("num_books", numBooks); ("num_sales", numSales);
                    ("skip_redshift", skipRedshift)]
    ∧ Settings.formState s' = Settings.formState s
    ∧ Settings.loading s' = false
    ∧ match answer_to w [] c with
      | Resolved _ v => Settings.result s' = v ∧ Settings.error s' = None
      | Rejected e =>
          Settings.result s' = VNull
          ∧ Settings.error s' =
              Some "Failed to generate test data. Please check your configuration and try again."
          ∧ console w' =
              console w ++ [("Error generating test data:", e);
                            ("Error generating test data:", e)]
      end.
Proof.
  intros Hb Hs Hk Nb Ns Nk.
  rewrite Settings_handleGenerateData_unfold, Hb, Hs, Hk. cbn [default].
  destruct (plain_invoke_answer GenerateTestData
              [numBooks; numSales; skipRedshift] w)
    as (c & Hm & Hp & Hq & Hbody & Hsent & Ha).
  assert (Hpayload : payload_of GenerateTestData
                       [numBooks; numSales; skipRedshift] =
                     obj [("num_books", numBooks); ("num_sales", numSales);
                          ("skip_redshift", skipRedshift)]).
  { unfold payload_of, or_default. cbn [lookup list_lookup].
    destruct numBooks, numSales, skipRedshift; congruence. }
  exists c.
  destruct (invoke Plain GenerateTestData _ w) as [[v|e] w1];
    cbn [fst snd] in *; do 2 eexists; (split; [reflexivity|]);
    (split; [exact Hsent|]); (split; [exact Hm|]); (split; [exact Hp|]);
    (split; [exact Hq|]); (split; [rewrite Hbody; exact Hpayload|]);
    (split; [reflexivity|]); (split; [reflexivity|]);
    destruct (answer_to w [] c) as [st v'|e']; destruct Ha as [Hr Hc];
    try discriminate; injection Hr as <-;
    (split; [reflexivity|]).
  - reflexivity.
  - split; [reflexivity|]. cbn. rewrite Hc, <- app_assoc. reflexivity.
Qed.

(** Twenty books typed into the fresh form, then the button. *)
Lemma generating_test_data_posts_the_form_witness :
  ∃ c s' w',
    Settings.handleGenerateData
      (Settings.handleInputChange (λ _, Fin 20)
         {| Settings.name := "numBooks"; Settings.value_ := "20";
            Settings.type := "number"; Settings.checked := false |}
         Settings.initial)
      (quiet_world ∅) = (Normal s', w')
    ∧ sent w' = [c]
    ∧ body c = obj [("num_books", VNum (Fin 20)); ("num_sales", num 10000);
                    ("skip_redshift", VBool false)].
Proof.
  destruct (generating_test_data_posts_the_form
              (Settings.handleInputChange (λ _, Fin 20)
                 {| Settings.name := "numBooks"; Settings.value_ := "20";
                    Settings.type := "number"; Settings.checked := false |}
                 Settings.initial)
              (quiet_world ∅) (VNum (Fin 20)) (num 10000) (VBool false))
    as (c & s' & w' & H & Hs & _ & _ & _ & Hb & _);
    try reflexivity; try discriminate.
  exists c, s', w'. auto.
Defined.

End DetailPages.

(** ** Labels of the charts (Dashboard.jsx, DashboardOptimized.jsx,
       TopBooks.jsx, SalesByGenre.jsx) *)

Section ChartLabels.
Import Labels Spec.

Lemma length_append (a b : string) :
  String.length (a +:+ b) = (String.length a + String.length b)%nat.
Proof. induction a as [|c a IH]; simpl; [reflexivity|]. rewrite IH. reflexivity. Qed.

Lemma length_substring_0 n (s : string) :
  (n ≤ String.length s)%nat → String.length (String.substring 0 n s) = n.
Proof.
  revert s. induction n as [|n IH]; intros [|c s] Hn; simpl in *;
    try reflexivity; try lia.
  rewrite IH by lia. reflexivity.
Qed.

Lemma length_ellipsis n s :
  (String.length (ellipsis n s) ≤ n + 3)%nat
  ∧ ((String.length s ≤ n)%nat → ellipsis n s = s)
  ∧ ((n < String.length s)%nat →
       ellipsis n s = String.substring 0 n s +:+ "..."
       ∧ String.length (ellipsis n s) = (n + 3)%nat).
Proof.
  unfold ellipsis. destruct (Nat.ltb_spec n (String.length s)) as [Hlt|Hge].
  - rewrite length_append, length_substring_0 by lia. simpl.
    split; [lia|]. split; [lia|]. intros _. split; [reflexivity|lia].
  - split; [lia|]. split; [reflexivity|]. lia.
Qed.

(** X26. The labels of the title and genre axes are cut with an ellipsis. A
    label never has more than 23 characters on the dashboards, 28 on the
    top-books page and 18 on the genre page; a text within the limit of 20,
    25 or 15 characters is shown as it is, and a longer one by its first
    characters and three dots, so that a title of 21 characters gets a
    label of 23. A missing title is an empty label on the dashboards; the
    two detail pages throw on it. *)
Theorem axis_labels_are_cut_with_an_ellipsis :
  (∀ title, (String.length (dashboardTitleTick title) ≤ 23)%nat)
  ∧ (∀ s, (String.length s ≤ 20)%nat → dashboardTitleTick (Some s) = s)
  ∧ (∀ s, (20 < String.length s)%nat →
       dashboardTitleTick (Some s) = String.substring 0 20 s +:+ "..."
       ∧ String.length (dashboardTitleTick (Some s)) = 23%nat)
  ∧ dashboardTitleTick None = ""
  ∧ (∀ s, ∃ l, topBooksTitleTick (Some s) = JS.Normal l
             ∧ (String.length l ≤ 28)%nat
             ∧ ((String.length s ≤ 25)%nat → l = s)
             ∧ ((25 < String.length s)%nat →
                  l = String.substring 0 25 s +:+ "..."))
  ∧ (∀ s, ∃ l, genreTick (Some s) = JS.Normal l
             ∧ (String.length l ≤ 18)%nat
             ∧ ((String.length s ≤ 15)%nat → l = s)
             ∧ ((15 < String.length s)%nat →
                  l = String.substring 0 15 s +:+ "..."))
  ∧ (∃ e, topBooksTitleTick None = JS.Throw e)
  ∧ (∃ e, genreTick None = JS.Throw e).
Proof.
  split.
  { intros [s|]; simpl; [|lia].
    destruct (String.eqb s ""); simpl; [lia|].
    apply (length_ellipsis 20 s). }
  split.
  { intros s Hs. simpl. destruct (String.eqb_spec s "") as [->|_];
      [reflexivity|]. apply (length_ellipsis 20 s). exact Hs. }
  split.
  { intros s Hs. simpl. destruct (String.eqb_spec s "") as [->|_];
      [simpl in Hs; lia|]. apply (length_ellipsis 20 s). exact Hs. }
  split; [reflexivity|].
  split.
  { intros s. exists (ellipsis 25 s). split; [reflexivity|].
    destruct (length_ellipsis 25 s) as (H1 & H2 & H3).
    split; [exact H1|]. split; [exact H2|]. intros H. apply H3, H. }
  split.
  { intros s. exists (ellipsis 15 s). split; [reflexivity|].
    destruct (length_ellipsis 15 s) as (H1 & H2 & H3).
    split; [exact H1|]. split; [exact H2|]. intros H. apply H3, H. }
  split; eexists; reflexivity.
Qed.

(** A title of 21 characters. *)
Lemma axis_labels_are_cut_with_an_ellipsis_witness :
  dashboardTitleTick (Some "The Book of Sand, 1975") =
    "The Book of Sand, 19..."
  ∧ String.length (dashboardTitleTick (Some "The Book of Sand, 1975")) = 23%nat.
Proof.
  destruct axis_labels_are_cut_with_an_ellipsis as (_ & _ & Hlong & _).
  apply (Hlong "The Book of Sand, 1975"). simpl. lia.
Defined.

Lemma prefix_empty s : String.prefix "" s = true.
Proof. destruct s; reflexivity. Qed.

(** The first quarter mark of a text that has none before it. *)
Lemma cut_quarter y q :
  includes "-Q" y = false → cut "-Q" (y +:+ "-Q" +:+ q) = Some (y, q).
Proof.
  unfold includes. induction y as [|c y IH]; intros Hy.
  - destruct q; reflexivity.
  - cbn [cut] in Hy.
    destruct (String.prefix "-Q" (String c y)) eqn:Hp; [discriminate|].
    destruct (cut "-Q" y) as [[b a]|] eqn:Hc; [discriminate|].
    specialize (IH eq_refl).
    change (String c y +:+ "-Q" +:+ q) with (String c (y +:+ "-Q" +:+ q)).
    cbn [cut]. rewrite IH.
    assert (Hp' : String.prefix "-Q" (String c (y +:+ "-Q" +:+ q)) = false).
    { revert Hp. cbn [String.prefix].
      destruct (ascii_dec "-" c) as [_|_]; [|reflexivity].
      destruct y as [|d y]; [intros _; reflexivity|].
      change (String d y +:+ "-Q" +:+ q) with (String d (y +:+ "-Q" +:+ q)).
      cbn [String.prefix].
      destruct (ascii_dec "Q" d); [|reflexivity].
      rewrite !prefix_empty. discriminate. }
    rewrite Hp'. reflexivity.
Qed.

(** X27. Quarters come first: a date made of a year, the mark -Q and a
    quarter is labelled as a quarter whatever its length, so that 2023-Q1,
    which has the seven characters of a month, is Q1 2023 in the tooltip
    and Q1 on the axis. The year and the quarter are the texts around the
    first mark. *)
Theorem quarters_are_labelled_before_months
    (month_label : bool → option string → option string → string)
    (locale_date month_and_day : string → string) y q :
  includes "-Q" y = false →
  includes "-Q" q = false →
  formatTooltipDate month_label locale_date (y +:+ "-Q" +:+ q) =
    "Q" +:+ q +:+ " " +:+ y
  ∧ formatXAxisTick month_label month_and_day (y +:+ "-Q" +:+ q) = "Q" +:+ q.
Proof.
  intros Hy Hq.
  assert (Hin : includes "-Q" (y +:+ "-Q" +:+ q) = true).
  { unfold includes. rewrite (cut_quarter y q Hy). reflexivity. }
  assert (Hsplit : ∃ rest, split "-Q" (y +:+ "-Q" +:+ q) = y :: q :: rest).
  { unfold split. rewrite !length_append. cbn [String.length].
    replace (String.length y + (2 + String.length q))%nat
      with (S (S (String.length y + String.length q))) by lia.
    cbn [split_upto]. rewrite (cut_quarter y q Hy).
    unfold includes in Hq. destruct (cut "-Q" q) as [[b a]|];
      [discriminate|]. exists []. reflexivity. }
  destruct Hsplit as [rest Hsplit].
  unfold formatTooltipDate, formatXAxisTick. rewrite Hin, Hsplit.
  split; reflexivity.
Qed.

(** The first quarter of 2023. *)
Lemma quarters_are_labelled_before_months_witness :
  formatTooltipDate (λ _ _ _, "May 2023") (λ d, d) "2023-Q1" = "Q1 2023"
  ∧ formatXAxisTick (λ _ _ _, "May") (λ d, d) "2023-Q1" = "Q1"
  ∧ String.length "2023-Q1" = 7%nat.
Proof.
  split; [|split; [|reflexivity]].
  - apply (quarters_are_labelled_before_months (λ _ _ _, "May 2023")
             (λ d, d) (λ d, d) "2023" "1"); reflexivity.
  - apply (quarters_are_labelled_before_months (λ _ _ _, "May")
             (λ d, d) (λ d, d) "2023" "1"); reflexivity.
Defined.

End ChartLabels.
